(** * phoneshop: cart, wishlist, order, search and account operations

    A shallow embedding of the storefront's two source files,

    - [Appifyours/backend/server.js]  (the REST backend, module [Server]),
    - [Appifyours/frontend/lib/main.dart] (the client-side cart and wishlist
      managers and the price helpers, module [Client]),

    followed by the properties the specification states about them.

    Conventions.  A JavaScript [Number] and a Dart [double] are IEEE 754
    binary64 values: both are modelled by the kernel's primitive floats, so
    arithmetic rounds exactly as it does in the program.  A Dart [int] is a
    64-bit two's complement integer, modelled by [Z] with the wrap-around
    written out.  A [Date] is its number of milliseconds since the epoch.
    Strings are sequences of 8-bit code units; case mapping and white space
    are those of ASCII.  A Mongo collection is a finite map from [_id] to
    document; arrays are lists.  Where a handler itself compares or adds a
    property of the request body before Mongoose casts it ([productId],
    [quantity]), the property is the JSON value the request carries; a
    property the handler only hands on is taken at the type the schema
    gives it. *)

From Stdlib Require Import ZArith Ascii String DecimalString PrimFloat Uint63 SpecFloat FloatOps.
From stdpp Require Import base decidable option list strings gmap.

Set Warnings "-inexact-float,-register-all".
Local Open Scope string_scope.
Local Open Scope Z_scope.
Local Open Scope list_scope.

(* ===================================================================== *)
(** * Built-ins of the two languages                                      *)
(* ===================================================================== *)

Module Js.

(** [ToBoolean] on a number: [0], [-0] and [NaN] are falsy. *)
Definition truthy (x : float) : bool :=
  negb (PrimFloat.eqb x 0) && PrimFloat.eqb x x.

(** [ToBoolean] on a string that may be missing: [undefined] and the empty
    string are falsy. *)
Definition truthy_string (x : option string) : bool :=
  match x with
  | Some (String _ _) => true
  | _ => false
  end.

(** [x || d] on strings. *)
Definition or_string (x : option string) (d : string) : string :=
  match x with
  | Some (String c s) => String c s
  | _ => d
  end.

Definition lower_char (c : ascii) : ascii :=
  let n := nat_of_ascii c in
  if ((65 <=? n) && (n <=? 90))%nat then ascii_of_nat (n + 32) else c.

(** [String.prototype.toLowerCase]. *)
Fixpoint toLowerCase (s : string) : string :=
  match s with
  | EmptyString => EmptyString
  | String c s' => String (lower_char c) (toLowerCase s')
  end.

(** [s.startsWith(q)]. *)
Fixpoint startsWith (s q : string) {struct q} : bool :=
  match q, s with
  | EmptyString, _ => true
  | String _ _, EmptyString => false
  | String b q', String a s' => bool_decide (a = b) && startsWith s' q'
  end.

(** [s.includes(q)]: [q] occurs in [s] at some position. *)
Fixpoint includes (s q : string) : bool :=
  startsWith s q ||
  match s with
  | EmptyString => false
  | String _ s' => includes s' q
  end.

Definition is_space (c : ascii) : bool :=
  let n := nat_of_ascii c in
  ((9 <=? n) && (n <=? 13) || (n =? 32))%nat.

Fixpoint trimStart (s : string) : string :=
  match s with
  | EmptyString => EmptyString
  | String c s' => if is_space c then trimStart s' else s
  end.

Fixpoint trimEnd (s : string) : string :=
  match s with
  | EmptyString => EmptyString
  | String c s' =>
      match trimEnd s' with
      | EmptyString => if is_space c then EmptyString else String c EmptyString
      | r => String c r
      end
  end.

(** [String.prototype.trim]. *)
Definition trim (s : string) : string := trimEnd (trimStart s).

(** [String(n)] for an integral number [n] (as [Date.now()] returns). *)
Definition string_of_integer (n : Z) : string :=
  NilZero.string_of_int (Z.to_int n).

(** ** Values

    What a property of a parsed JSON body is: [undefined] when the body
    lacks the property, otherwise what [JSON.parse] made of it. *)
Inductive Value : Type :=
| VUndefined
| VNull
| VBoolean (b : bool)
| VNumber (x : float)
| VString (s : string)
| VArray (items : list Value)
| VObject (members : list (string * Value)).

(** [ToBoolean]: [undefined], [null], [false], [0], [-0], [NaN] and the
    empty string are falsy, everything else is truthy. *)
Definition truthy_value (v : Value) : bool :=
  match v with
  | VUndefined | VNull => false
  | VBoolean b => b
  | VNumber x => truthy x
  | VString s => truthy_string (Some s)
  | VArray _ | VObject _ => true
  end.

(** [x || d]. *)
Definition or_value (x d : Value) : Value :=
  if truthy_value x then x else d.

(** [a === b]: no conversion; values of different types differ, [NaN]
    differs from itself, and an array or an object equals only itself, which
    one that was just parsed from a request never is. *)
Definition strict_equals (a b : Value) : bool :=
  match a, b with
  | VUndefined, VUndefined => true
  | VNull, VNull => true
  | VBoolean x, VBoolean y => bool_decide (x = y)
  | VNumber x, VNumber y => PrimFloat.eqb x y
  | VString s, VString t => bool_decide (s = t)
  | _, _ => false
  end.

(** What is left to the engine: the decimal rendering of a number, and the
    conversion of an array or an object to a primitive, which gives a
    string or throws a [TypeError] (whose message is on the left). *)
Class Engine : Type := {
  Number_toString : float -> string;
  ToPrimitive : Value -> string + string
}.

(** [a + v] for a number [a]: addition of numbers once [v] is converted to
    one, unless [v] is a string or converts to one, and then concatenation.
    It gives the sum, or the message of the [TypeError] it throws. *)
Definition plus `{Engine} (a : float) (v : Value) : string + Value :=
  match v with
  | VUndefined => inr (VNumber (a + nan)%float)
  | VNull => inr (VNumber (a + 0)%float)
  | VBoolean b => inr (VNumber (a + (if b then 1 else 0))%float)
  | VNumber y => inr (VNumber (a + y)%float)
  | VString s => inr (VString (Number_toString a +:+ s))
  | VArray _ | VObject _ =>
      match ToPrimitive v with
      | inl message => inl message
      | inr s => inr (VString (Number_toString a +:+ s))
      end
  end.

End Js.

Module Dart.

(** Arithmetic on [int] wraps around at 64 bits. *)
Definition wrap64 (z : Z) : Z := (z + 2 ^ 63) mod 2 ^ 64 - 2 ^ 63.

(** The implicit [int] to [double] conversion of [double * int]. *)
Definition toDouble (z : Z) : float :=
  if z =? - 2 ^ 63 then (- 9223372036854775808)%float
  else if z <? 0 then (- PrimFloat.of_uint63 (Uint63.of_Z (- z)))%float
  else PrimFloat.of_uint63 (Uint63.of_Z z).

(** What a call does: it returns, or it throws. *)
Inductive Error : Type :=
| StateError (message : string).

Inductive Outcome (A : Type) : Type :=
| Returned (a : A)
| Threw (e : Error).
Arguments Returned {A} a.
Arguments Threw {A} e.

End Dart.

(* ===================================================================== *)
(** * The client: [frontend/lib/main.dart]                                *)
(* ===================================================================== *)

Module Client.
Import Dart.

Module PriceUtils.

Definition calculateDiscountPrice (originalPrice discountPercentage : float) : float :=
  (originalPrice * (1 - discountPercentage / 100))%float.

Definition calculateTotal (prices : list float) : float :=
  fold_left (fun sum price => (sum + price)%float) prices 0%float.

Definition calculateTax (subtotal taxRate : float) : float :=
  (subtotal * (taxRate / 100))%float.

Definition applyShipping (total shippingFee : float)
    (freeShippingThreshold : float) : float :=
  if (freeShippingThreshold <=? total)%float then total
  else (total + shippingFee)%float.

(** The default value of the named parameter [freeShippingThreshold]. *)
Definition defaultFreeShippingThreshold : float := 100%float.

End PriceUtils.

(** ** Cart item model *)
Module CartItem.
Record t : Type := mk {
  id : string;
  name : string;
  price : float;
  discountPrice : float;
  quantity : Z;
  image : option string
}.

Definition with_quantity (q : Z) (i : t) : t :=
  mk (id i) (name i) (price i) (discountPrice i) q (image i).

Definition effectivePrice (i : t) : float :=
  if (0 <? discountPrice i)%float then discountPrice i else price i.

Definition totalPrice (i : t) : float :=
  (effectivePrice i * toDouble (quantity i))%float.
End CartItem.

(** ** Cart manager.  Its state is the private list [_items]. *)
Module CartManager.
Import CartItem.

Abbreviation t := (list CartItem.t).

Definition empty : t := [].

Definition addItem (item : CartItem.t) (_items : t) : t :=
  match list_find (fun i => id i = id item) _items with
  | Some (existingIndex, _) =>
      alter (fun i => with_quantity (wrap64 (quantity i + quantity item)) i)
            existingIndex _items
  | None => _items ++ [item]
  end.

Definition removeItem (id' : string) (_items : t) : t :=
  filter (fun item => id item <> id') _items.

(** [firstWhere] without [orElse] throws a [StateError] when no element
    satisfies the test. *)
Definition updateQuantity (id' : string) (quantity' : Z) (_items : t) : Outcome t :=
  match list_find (fun i => id i = id') _items with
  | Some (index, _) => Returned (alter (with_quantity quantity') index _items)
  | None => Threw (StateError "No element")
  end.

Definition clear (_items : t) : t := [].

Definition subtotal (_items : t) : float :=
  fold_left (fun sum item => (sum + totalPrice item)%float) _items 0%float.

Definition totalWithTax (_items : t) : float :=
  let tax := PriceUtils.calculateTax (subtotal _items) 8%float in
  (subtotal _items + tax)%float.

Definition totalDiscount (_items : t) : float :=
  fold_left (fun sum item =>
               (sum + (price item - effectivePrice item) * toDouble (quantity item))%float)
            _items 0%float.

Definition gstAmount (_items : t) : float :=
  PriceUtils.calculateTax (subtotal _items) 18%float.

Definition finalTotal (_items : t) : float :=
  (subtotal _items + gstAmount _items)%float.

Definition finalTotalWithShipping (_items : t) : float :=
  PriceUtils.applyShipping (totalWithTax _items) 5.99%float
                           PriceUtils.defaultFreeShippingThreshold.
End CartManager.

(** ** Wishlist item model *)
Module WishlistItem.
Record t : Type := mk {
  id : string;
  name : string;
  price : float;
  discountPrice : float;
  image : option string
}.

Definition effectivePrice (i : t) : float :=
  if (0 <? discountPrice i)%float then discountPrice i else price i.
End WishlistItem.

(** ** Wishlist manager *)
Module WishlistManager.
Import WishlistItem.

Abbreviation t := (list WishlistItem.t).

Definition empty : t := [].

Definition isInWishlist (id' : string) (_items : t) : bool :=
  existsb (fun item => bool_decide (id item = id')) _items.

Definition addItem (item : WishlistItem.t) (_items : t) : t :=
  if negb (existsb (fun i => bool_decide (id i = id item)) _items)
  then _items ++ [item]
  else _items.

Definition removeItem (id' : string) (_items : t) : t :=
  filter (fun item => id item <> id') _items.

Definition clear (_items : t) : t := [].
End WishlistManager.

End Client.

(* ===================================================================== *)
(** * The backend: [backend/server.js]                                    *)
(* ===================================================================== *)

Module Server.
Import Js.

(** ** Libraries the backend calls

    [mongoose], [bcryptjs] and [jsonwebtoken] are not part of the
    repository: the handlers are parametrised by them. *)

Class ObjectIdLib : Type := {
  (** [mongoose.Types.ObjectId.isValid(s)] *)
  isValid : string -> bool;
  (** [new mongoose.Types.ObjectId(s)], in its canonical rendering *)
  ObjectId : string -> string
}.

Class Bcrypt : Type := {
  (** [bcrypt.hash(password, rounds)], with the salt it draws *)
  bcrypt_hash : string -> nat -> string -> string;
  (** [bcrypt.compare(password, hash)] *)
  bcrypt_compare : string -> string -> bool
}.

Module TokenPayload.
Record t : Type := mk {
  userId : string;
  email : string;
  adminObjectId : string
}.
End TokenPayload.

Class Jwt : Type := {
  (** [jwt.sign(payload, secret, { expiresIn })] *)
  jwt_sign : TokenPayload.t -> string -> string -> string
}.

(** What a document holds at a path of type [String] that is not required:
    nothing, [null] or a string. *)
Inductive StringPath : Type :=
| Unset
| IsNull
| Text (s : string).

#[global] Instance StringPath_eq_dec : EqDecision StringPath.
Proof. solve_decision. Defined.

(** The value the handler reads from such a path. *)
Definition value_of (p : StringPath) : Value :=
  match p with
  | Unset => VUndefined
  | IsNull => VNull
  | Text s => VString s
  end.

Class Mongoose : Type := {
  (** the cast of a value assigned to a path of type [String]: what the
      document then holds, or nothing when the cast fails *)
  castString : Value -> option StringPath;
  (** the cast of a value other than [undefined], [null] and the empty
      string assigned to a path of type [Number]: the number the document
      then holds, or nothing when the cast fails *)
  castNumber : Value -> option float;
  (** the message of the [ValidationError] that [save()] throws for the
      paths whose cast failed, each with the value assigned to it *)
  cast_failed : list (string * Value) -> string
}.

(** What the properties below take of the two casts: under a [String] path
    a string is stored as it is; under a [Number] path a number is stored
    as it is, except [NaN], which the cast refuses. *)
Record faithful_casts `{Mongoose} : Prop := {
  castString_string : forall s, castString (VString s) = Some (Text s);
  castNumber_number :
    forall x, castNumber (VNumber x) = if PrimFloat.is_nan x then None else Some x
}.

(** What a request reads from its environment: the successive readings of
    the clock ([Date.now()], [new Date()]) in the order the handler makes
    them, the [_id] given to a new document, the salt [bcrypt] draws and
    the environment variable [JWT_SECRET]. *)
Record Runtime : Type := {
  now : nat -> Z;
  newObjectId : string;
  salt : string;
  env_JWT_SECRET : option string
}.

Definition JWT_SECRET (rt : Runtime) : string :=
  or_string (env_JWT_SECRET rt) "appifyours-secret-key-change-in-production".

(** ** Schemas *)

Module PurchaseItem.
Record t : Type := mk {
  productId : StringPath;
  productName : string;
  quantity : float;
  price : float;
  purchaseDate : option Z
}.
End PurchaseItem.

Module WishlistEntry.
Record t : Type := mk {
  productId : StringPath;
  productName : string;
  productPrice : float;
  addedAt : option Z
}.
End WishlistEntry.

Module CartEntry.
Record t : Type := mk {
  productId : StringPath;
  productName : string;
  quantity : float;
  price : float;
  addedAt : option Z
}.

Definition with_quantity (q : float) (i : t) : t :=
  mk (productId i) (productName i) q (price i) (addedAt i).
End CartEntry.

(** A document of [users_create_account]; its [_id] is the key it is
    stored under. *)
Module User.
Record t : Type := mk {
  adminObjectId : string;
  firstName : string;
  lastName : string;
  email : string;
  password : string;
  phone : string;
  countryCode : string;
  fullName : string;
  purchaseHistory : list PurchaseItem.t;
  wishlist : list WishlistEntry.t;
  cart : list CartEntry.t;
  createdAt : Z;
  updatedAt : Z
}.

Definition with_cart (c : list CartEntry.t) (u : t) : t :=
  mk (adminObjectId u) (firstName u) (lastName u) (email u) (password u) (phone u)
     (countryCode u) (fullName u) (purchaseHistory u) (wishlist u) c
     (createdAt u) (updatedAt u).

Definition with_wishlist (w : list WishlistEntry.t) (u : t) : t :=
  mk (adminObjectId u) (firstName u) (lastName u) (email u) (password u) (phone u)
     (countryCode u) (fullName u) (purchaseHistory u) w (cart u)
     (createdAt u) (updatedAt u).

Definition with_purchaseHistory (h : list PurchaseItem.t) (u : t) : t :=
  mk (adminObjectId u) (firstName u) (lastName u) (email u) (password u) (phone u)
     (countryCode u) (fullName u) h (wishlist u) (cart u)
     (createdAt u) (updatedAt u).

Definition with_updatedAt (d : Z) (u : t) : t :=
  mk (adminObjectId u) (firstName u) (lastName u) (email u) (password u) (phone u)
     (countryCode u) (fullName u) (purchaseHistory u) (wishlist u) (cart u)
     (createdAt u) d.
End User.

(** An entry of [dynamicFields.productCards].  The schema leaves it
    untyped; a product has an optional name, an optional description and
    further properties the handlers never read. *)
Module ProductCard.
Record t : Type := mk {
  productName : option string;
  description : option string;
  properties : list (string * string)
}.
End ProductCard.

(** A document of [adminelementscreens], restricted to what the product
    handlers read: [dynamicFields?.productCards]. *)
Module AdminElementScreen.
Record t : Type := mk {
  shopName : option string;
  appName : option string;
  category : option string;
  productCards : option (list ProductCard.t)
}.
End AdminElementScreen.

(** ** Responses *)

Inductive Data : Type :=
| ProductsData (products : list ProductCard.t)
| CartData (cart : list CartEntry.t)
| WishlistData (wishlist : list WishlistEntry.t)
| OrderData (orderId : string) (items : list PurchaseItem.t) (total : float)
| AccountData (userId firstName lastName email phone token : string).

(** [res.json({ success: true, message, data })] and
    [res.status(s).json({ success: false, error })]. *)
Inductive Response : Type :=
| Success (message : option string) (data : Data)
| Failure (status : nat) (error : string).

(** The errors of the specification's taxonomy, as the handlers send
    them. *)
Definition ValidationError_fields : Response := Failure 400 "All fields are required".
Definition ValidationError_tenant : Response := Failure 400 "Invalid adminObjectId".
Definition DuplicateAccount : Response := Failure 400 "User already exists with this email".
Definition InvalidCredentials : Response := Failure 401 "Invalid email or password".
Definition NotFound_user : Response := Failure 404 "User not found".
Definition NotFound_config : Response := Failure 404 "App configuration not found".
Definition EmptyCart : Response := Failure 400 "Cart is empty".

Definition is_success (r : Response) : bool :=
  match r with
  | Success _ _ => true
  | Failure _ _ => false
  end.

(** ** The collection [users_create_account] *)

(** The schema's setters on [email] ([lowercase: true, trim: true]) and on
    [firstName], [lastName], [phone] ([trim: true]).  Mongoose applies a
    path's setters when a document is built and when a query filter on
    that path is cast. *)
Definition set_email (s : string) : string := trim (toLowerCase s).
Definition set_trimmed (s : string) : string := trim s.

(** [UsersCreateAccount.findOne({ adminObjectId, email })]. *)
Definition findOne (adminObjectId email : string) (db : gmap string User.t)
    : option (string * User.t) :=
  snd <$> list_find
            (fun kv : string * User.t =>
               User.adminObjectId kv.2 = adminObjectId /\
               User.email kv.2 = set_email email)
            (map_to_list db).

(** The [required: true] paths of a document that are empty. *)
Definition missing_paths (u : User.t) : list string :=
  (if bool_decide (User.firstName u = "") then ["firstName"] else []) ++
  (if bool_decide (User.lastName u = "") then ["lastName"] else []) ++
  (if bool_decide (User.email u = "") then ["email"] else []) ++
  (if bool_decide (User.password u = "") then ["password"] else []) ++
  (if bool_decide (User.phone u = "") then ["phone"] else []).

Definition validation_message (paths : list string) : string :=
  "UsersCreateAccount validation failed: " +:+
  String.concat ", " ((fun p => p +:+ ": Path `" +:+ p +:+ "` is required.") <$> paths).

(** [user.save()] on a new document: the schema's validators run, then
    the insert, which the unique indexes on [_id] and on
    [(adminObjectId, email)] may refuse.  It returns the new collection, or
    the message of the error it throws. *)
Definition save_new (id : string) (u : User.t) (db : gmap string User.t)
    : string + gmap string User.t :=
  match missing_paths u with
  | _ :: _ => inl (validation_message (missing_paths u))
  | [] =>
      match db !! id with
      | Some _ => inl "E11000 duplicate key error index: _id_"
      | None =>
          match list_find
                  (fun kv : string * User.t =>
                     User.adminObjectId kv.2 = User.adminObjectId u /\
                     User.email kv.2 = User.email u)
                  (map_to_list db) with
          | Some _ => inl "E11000 duplicate key error index: adminObjectId_1_email_1"
          | None => inr (<[id := u]> db)
          end
      end
  end.

(** [user.save()] on a document read from the collection. *)
Definition save (id : string) (u : User.t) (db : gmap string User.t)
    : gmap string User.t :=
  <[id := u]> db.

(** ** Request bodies *)

Module RegisterBody.
Record t : Type := mk {
  adminObjectId : option string;
  firstName : option string;
  lastName : option string;
  email : option string;
  password : option string;
  phone : option string;
  countryCode : option string
}.
End RegisterBody.

Module LoginBody.
Record t : Type := mk {
  adminObjectId : option string;
  email : option string;
  password : option string
}.
End LoginBody.

(** The handlers compare [productId] and add [quantity] themselves: these
    two are the values the request carries. *)
Module CartBody.
Record t : Type := mk {
  productId : Value;
  productName : string;
  price : float;
  quantity : Value
}.
End CartBody.

Module WishlistBody.
Record t : Type := mk {
  productId : Value;
  productName : string;
  productPrice : float
}.
End WishlistBody.

(** ** Handlers

    A handler maps the request and the collection to the response and the
    collection it leaves.  The protected routes run after
    [authenticateToken]; they receive [req.user.userId]. *)

Section Handlers.
Context `{ObjectIdLib} `{Bcrypt} `{Jwt}.

(** [GET /api/products/search/:adminObjectId/:query] *)
Definition matches (query : string) (p : ProductCard.t) : bool :=
  (truthy_string (ProductCard.productName p) &&
   includes (toLowerCase (default "" (ProductCard.productName p))) (toLowerCase query))
  ||
  (truthy_string (ProductCard.description p) &&
   includes (toLowerCase (default "" (ProductCard.description p))) (toLowerCase query)).

Definition get_products_search (adminObjectId query : string)
    (configs : gmap string AdminElementScreen.t) : Response :=
  if negb (isValid adminObjectId) then Failure 400 "Invalid adminObjectId"
  else
    match configs !! ObjectId adminObjectId with
    | None => Failure 404 "App configuration not found"
    | Some appConfig =>
        let products := default [] (AdminElementScreen.productCards appConfig) in
        let filteredProducts := List.filter (matches query) products in
        Success None (ProductsData filteredProducts)
    end.

(** [POST /api/users/register] *)
Definition post_users_register (rt : Runtime) (body : RegisterBody.t)
    (db : gmap string User.t) : Response * gmap string User.t :=
  if negb (truthy_string (RegisterBody.adminObjectId body))
     || negb (truthy_string (RegisterBody.firstName body))
     || negb (truthy_string (RegisterBody.lastName body))
     || negb (truthy_string (RegisterBody.email body))
     || negb (truthy_string (RegisterBody.password body))
     || negb (truthy_string (RegisterBody.phone body))
  then (Failure 400 "All fields are required", db)
  else
    let adminObjectId := default "" (RegisterBody.adminObjectId body) in
    let firstName := default "" (RegisterBody.firstName body) in
    let lastName := default "" (RegisterBody.lastName body) in
    let email := default "" (RegisterBody.email body) in
    let password := default "" (RegisterBody.password body) in
    let phone := default "" (RegisterBody.phone body) in
    if negb (isValid adminObjectId) then (Failure 400 "Invalid adminObjectId", db)
    else
      match findOne (ObjectId adminObjectId) (toLowerCase email) db with
      | Some existingUser => (Failure 400 "User already exists with this email", db)
      | None =>
          let hashedPassword := bcrypt_hash password 10 (salt rt) in
          let user :=
            User.mk (ObjectId adminObjectId)
                    (set_trimmed firstName) (set_trimmed lastName)
                    (set_email (toLowerCase email))
                    hashedPassword
                    (set_trimmed phone)
                    (or_string (RegisterBody.countryCode body) "+91")
                    (firstName +:+ " " +:+ lastName)
                    [] [] []
                    (now rt 0) (now rt 1) in
          match save_new (newObjectId rt) user db with
          | inl message => (Failure 500 message, db)
          | inr db' =>
              let token :=
                jwt_sign (TokenPayload.mk (newObjectId rt) (User.email user) adminObjectId)
                         (JWT_SECRET rt) "30d" in
              (Success (Some "Account created successfully")
                       (AccountData (newObjectId rt) (User.firstName user)
                                    (User.lastName user) (User.email user)
                                    (User.phone user) token),
               db')
          end
      end.

(** [POST /api/users/login] *)
Definition post_users_login (rt : Runtime) (body : LoginBody.t)
    (db : gmap string User.t) : Response :=
  if negb (truthy_string (LoginBody.adminObjectId body))
     || negb (truthy_string (LoginBody.email body))
     || negb (truthy_string (LoginBody.password body))
  then Failure 400 "All fields are required"
  else
    let adminObjectId := default "" (LoginBody.adminObjectId body) in
    let email := default "" (LoginBody.email body) in
    let password := default "" (LoginBody.password body) in
    if negb (isValid adminObjectId) then Failure 400 "Invalid adminObjectId"
    else
      match findOne (ObjectId adminObjectId) (toLowerCase email) db with
      | None => Failure 401 "Invalid email or password"
      | Some (id, user) =>
          let isPasswordValid := bcrypt_compare password (User.password user) in
          if negb isPasswordValid then Failure 401 "Invalid email or password"
          else
            let token :=
              jwt_sign (TokenPayload.mk id (User.email user) adminObjectId)
                       (JWT_SECRET rt) "30d" in
            Success (Some "Login successful")
                    (AccountData id (User.firstName user) (User.lastName user)
                                 (User.email user) (User.phone user) token)
      end.

End Handlers.

(** The path of a property of the [index]-th element of an array. *)
Definition element_path (array : string) (index : nat) (property : string) : string :=
  array +:+ "." +:+ string_of_integer (Z.of_nat index) +:+ "." +:+ property.

(** The failed casts a cast adds to those [save()] reports. *)
Definition cast_failure {A : Type} (path : string) (value : Value) (cast : option A)
    : list (string * Value) :=
  match cast with
  | Some _ => []
  | None => [(path, value)]
  end.

Section Writers.
Context `{Engine} `{Mongoose}.

(** [POST /api/users/cart].  [cart] is the cart the handler builds, or the
    message of what is thrown on the way: the [TypeError] of [+=], or the
    [ValidationError] of [save()] when a cast failed. *)
Definition post_users_cart (rt : Runtime) (userId : string) (body : CartBody.t)
    (db : gmap string User.t) : Response * gmap string User.t :=
  match db !! userId with
  | None => (Failure 404 "User not found", db)
  | Some user =>
      let counted := or_value (CartBody.quantity body) (VNumber 1) in
      let cart : string + list CartEntry.t :=
        match list_find
                (fun item =>
                   strict_equals (value_of (CartEntry.productId item))
                                 (CartBody.productId body) = true)
                (User.cart user) with
        | Some (index, existingItem) =>
            match plus (CartEntry.quantity existingItem) counted with
            | inl message => inl message
            | inr sum =>
                match castNumber sum with
                | None => inl (cast_failed [(element_path "cart" index "quantity", sum)])
                | Some quantity =>
                    inr (alter (CartEntry.with_quantity quantity) index (User.cart user))
                end
            end
        | None =>
            let index := length (User.cart user) in
            match castString (CartBody.productId body), castNumber counted with
            | Some productId, Some quantity =>
                inr (User.cart user ++
                     [CartEntry.mk productId (CartBody.productName body) quantity
                                   (CartBody.price body) None])
            | castId, castQuantity =>
                inl (cast_failed
                       (cast_failure (element_path "cart" index "productId")
                                     (CartBody.productId body) castId ++
                        cast_failure (element_path "cart" index "quantity")
                                     counted castQuantity))
            end
        end in
      match cart with
      | inl message => (Failure 500 message, db)
      | inr cart =>
          let user := User.with_updatedAt (now rt 0) (User.with_cart cart user) in
          (Success None (CartData (User.cart user)), save userId user db)
      end
  end.

(** [POST /api/users/wishlist] *)
Definition post_users_wishlist (rt : Runtime) (userId : string) (body : WishlistBody.t)
    (db : gmap string User.t) : Response * gmap string User.t :=
  match db !! userId with
  | None => (Failure 404 "User not found", db)
  | Some user =>
      match list_find
              (fun item =>
                 strict_equals (value_of (WishlistEntry.productId item))
                               (WishlistBody.productId body) = true)
              (User.wishlist user) with
      | None =>
          let index := length (User.wishlist user) in
          match castString (WishlistBody.productId body) with
          | None =>
              (Failure 500 (cast_failed [(element_path "wishlist" index "productId",
                                          WishlistBody.productId body)]),
               db)
          | Some productId =>
              let wishlist :=
                User.wishlist user ++
                [WishlistEntry.mk productId (WishlistBody.productName body)
                                  (WishlistBody.productPrice body) None] in
              let user := User.with_updatedAt (now rt 0) (User.with_wishlist wishlist user) in
              (Success None (WishlistData (User.wishlist user)), save userId user db)
          end
      | Some existingItem =>
          (Success None (WishlistData (User.wishlist user)), db)
      end
  end.

End Writers.

(** [POST /api/users/orders] *)
Definition order_total (cart : list CartEntry.t) : float :=
  fold_left (fun sum item => (sum + CartEntry.price item * CartEntry.quantity item)%float)
            cart 0%float.

Definition purchase_items (rt : Runtime) (cart : list CartEntry.t) : list PurchaseItem.t :=
  imap (fun i item =>
          PurchaseItem.mk (CartEntry.productId item) (CartEntry.productName item)
                          (CartEntry.quantity item) (CartEntry.price item)
                          (Some (now rt (1 + i)%nat)))
       cart.

Definition post_users_orders (rt : Runtime) (userId : string)
    (db : gmap string User.t) : Response * gmap string User.t :=
  match db !! userId with
  | None => (Failure 404 "User not found", db)
  | Some user =>
      match User.cart user with
      | [] => (Failure 400 "Cart is empty", db)
      | _ :: _ =>
          let orderId := "ORDER_" +:+ string_of_integer (now rt 0) in
          let total := order_total (User.cart user) in
          let purchaseItems := purchase_items rt (User.cart user) in
          let user' :=
            User.with_updatedAt (now rt (1 + length (User.cart user))%nat)
              (User.with_cart []
                 (User.with_purchaseHistory (User.purchaseHistory user ++ purchaseItems)
                                            user)) in
          (Success (Some "Order placed successfully") (OrderData orderId purchaseItems total),
           save userId user' db)
      end
  end.

End Server.

(* ===================================================================== *)
(** * The storefront as a transition system                               *)
(* ===================================================================== *)

Module Storefront.
Import Js Server Client.

(** The accounts the backend stores and the two collections the client
    keeps in memory. *)
Record State : Type := mkState {
  accounts : gmap string User.t;
  cartManager : list CartItem.t;
  wishlistManager : list WishlistItem.t
}.

Definition initial : State := mkState ∅ [] [].

(** The operations that write an account, a cart or a wishlist. *)
Inductive Operation : Type :=
| Register (rt : Runtime) (body : RegisterBody.t)
| AddToCart (rt : Runtime) (userId : string) (body : CartBody.t)
| AddToWishlist (rt : Runtime) (userId : string) (body : WishlistBody.t)
| PlaceOrder (rt : Runtime) (userId : string)
| CartAddItem (item : CartItem.t)
| CartRemoveItem (id : string)
| CartUpdateQuantity (id : string) (quantity : Z)
| CartClear
| WishlistAddItem (item : WishlistItem.t)
| WishlistRemoveItem (id : string)
| WishlistClear.

Section Run.
Context `{ObjectIdLib} `{Bcrypt} `{Jwt} `{Engine} `{Mongoose}.

Definition step (op : Operation) (s : State) : State :=
  match op with
  | Register rt body =>
      mkState (post_users_register rt body (accounts s)).2 (cartManager s) (wishlistManager s)
  | AddToCart rt userId body =>
      mkState (post_users_cart rt userId body (accounts s)).2 (cartManager s) (wishlistManager s)
  | AddToWishlist rt userId body =>
      mkState (post_users_wishlist rt userId body (accounts s)).2 (cartManager s)
              (wishlistManager s)
  | PlaceOrder rt userId =>
      mkState (post_users_orders rt userId (accounts s)).2 (cartManager s) (wishlistManager s)
  | CartAddItem item =>
      mkState (accounts s) (CartManager.addItem item (cartManager s)) (wishlistManager s)
  | CartRemoveItem id =>
      mkState (accounts s) (CartManager.removeItem id (cartManager s)) (wishlistManager s)
  | CartUpdateQuantity id quantity =>
      match CartManager.updateQuantity id quantity (cartManager s) with
      | Dart.Returned items => mkState (accounts s) items (wishlistManager s)
      | Dart.Threw _ => s
      end
  | CartClear =>
      mkState (accounts s) (CartManager.clear (cartManager s)) (wishlistManager s)
  | WishlistAddItem item =>
      mkState (accounts s) (cartManager s) (WishlistManager.addItem item (wishlistManager s))
  | WishlistRemoveItem id =>
      mkState (accounts s) (cartManager s) (WishlistManager.removeItem id (wishlistManager s))
  | WishlistClear =>
      mkState (accounts s) (cartManager s) (WishlistManager.clear (wishlistManager s))
  end.

Inductive reachable : State -> Prop :=
| reachable_initial : reachable initial
| reachable_step (op : Operation) (s : State) : reachable s -> reachable (step op s).

(** The operation names its product by a string, the type the schema
    gives [productId] and the client gives the [id] of its items. *)
Definition names_product_by_string (op : Operation) : Prop :=
  match op with
  | AddToCart _ _ body => exists p, CartBody.productId body = VString p
  | AddToWishlist _ _ body => exists p, WishlistBody.productId body = VString p
  | _ => True
  end.

(** The states reached when every product is named by a string. *)
Inductive reachable_by_strings : State -> Prop :=
| by_strings_initial : reachable_by_strings initial
| by_strings_step (op : Operation) (s : State) :
    names_product_by_string op -> reachable_by_strings s -> reachable_by_strings (step op s).

End Run.

End Storefront.

(* ===================================================================== *)
(** * The vocabulary of the specification                                 *)
(* ===================================================================== *)

Module Spec.
Import Js Server Client.

(** [r] consists of exactly the elements of [l] that satisfy [P], each as
    often as it occurs in [l] and in the order of [l]. *)
Inductive selects {A : Type} (P : A -> Prop) : list A -> list A -> Prop :=
| selects_nil : selects P [] []
| selects_keep (x : A) (l r : list A) : P x -> selects P l r -> selects P (x :: l) (x :: r)
| selects_drop (x : A) (l r : list A) : ~ P x -> selects P l r -> selects P (x :: l) r.





(** The unique index on [(adminObjectId, email)]. *)
Definition unique_index (db : gmap string User.t) : Prop :=
  forall id1 id2 u1 u2,
    db !! id1 = Some u1 -> db !! id2 = Some u2 ->
    User.adminObjectId u1 = User.adminObjectId u2 -> User.email u1 = User.email u2 ->
    id1 = id2.

(** An account of tenant [adminObjectId] with e-mail address [email]; the
    tenant is compared as an [ObjectId], the address as the schema stores
    it (lower case, trimmed). *)
Definition account_of `{ObjectIdLib} (adminObjectId email : string) (u : User.t) : Prop :=
  User.adminObjectId u = ObjectId adminObjectId /\
  User.email u = set_email email.

(** The quantity a request to add to the cart sends: a number, or none. *)
Definition sent_quantity (q : option float) : Value :=
  match q with
  | Some x => VNumber x
  | None => VUndefined
  end.

(** The quantity AddToCart counts for it: the number sent, and 1 when none
    is sent or the number sent is zero.  (The float [NaN], which no JSON
    text denotes, counts as 1 too.) *)
Definition counted (q : option float) : float :=
  match q with
  | Some x => if (PrimFloat.eqb x 0 || PrimFloat.is_nan x)%bool then 1%float else x
  | None => 1%float
  end.

(** Every stored account has at most one cart line and at most one wishlist
    entry per product. *)
Definition stored_unique (db : gmap string User.t) : Prop :=
  forall id u, db !! id = Some u ->
    NoDup (CartEntry.productId <$> User.cart u) /\
    NoDup (WishlistEntry.productId <$> User.wishlist u).

(** Each product reference occurs at most once in every stored cart and
    wishlist and in the client's cart and wishlist. *)
Definition unique_references (s : Storefront.State) : Prop :=
  stored_unique (Storefront.accounts s) /\
  NoDup (CartItem.id <$> Storefront.cartManager s) /\
  NoDup (WishlistItem.id <$> Storefront.wishlistManager s).

End Spec.

(* ===================================================================== *)
(** * Concrete data used in the examples                                  *)
(* ===================================================================== *)

Module Examples.
Import Client.

(** A parser of unsigned whole numbers. *)
Fixpoint digits_value (acc : Z) (s : string) : option Z :=
  match s with
  | EmptyString => Some acc
  | String c s' =>
      let n := Z.of_nat (nat_of_ascii c) in
      if (48 <=? n) && (n <=? 57) then digits_value (10 * acc + (n - 48)) s' else None
  end.

(** The whole number a float is, if it is one. *)
Definition whole (x : float) : option Z :=
  match Prim2SF x with
  | S754_zero _ => Some 0
  | S754_finite negative m e =>
      let magnitude :=
        if 0 <=? e then Some (Z.pos m * 2 ^ e)
        else if Z.pos m mod 2 ^ (- e) =? 0 then Some (Z.pos m / 2 ^ (- e))
        else None in
      (fun z => if negative then - z else z) <$> magnitude
  | _ => None
  end.

(** The cart of the specification's example: 2 units at 10 and 1 unit at
    5, no discount price. *)
Definition example_cart : CartManager.t :=
  [ CartItem.mk "p1" "first" 10%float 0%float 2 None;
    CartItem.mk "p2" "second" 5%float 0%float 1 None ].

(** A stand-in for the engine.  Its rendering of numbers is that of
    JavaScript on whole numbers below [10^21] in size, which is all the
    examples use; its conversion of arrays joins the elements with commas,
    and that of objects fails when the object has a member [toString] of
    its own. *)
Definition demo_Number_toString (x : float) : string :=
  match whole x with
  | Some z => if Z.abs z <? 10 ^ 21 then Js.string_of_integer z else "NaN"
  | None => "NaN"
  end.

Fixpoint demo_ToString (v : Js.Value) : string :=
  match v with
  | Js.VUndefined => "undefined"
  | Js.VNull => "null"
  | Js.VBoolean b => if b then "true" else "false"
  | Js.VNumber x => demo_Number_toString x
  | Js.VString s => s
  | Js.VArray items =>
      String.concat ","
        (List.map (fun item => match item with
                               | Js.VUndefined | Js.VNull => ""
                               | _ => demo_ToString item
                               end) items)
  | Js.VObject _ => "[object Object]"
  end.

Definition demo_Engine : Js.Engine :=
  {| Js.Number_toString := demo_Number_toString;
     Js.ToPrimitive := fun v =>
       match v with
       | Js.VObject members =>
           if existsb (fun member => bool_decide (member.1 = "toString")) members
           then inl "Cannot convert object to primitive value"
           else inr "[object Object]"
       | _ => inr (demo_ToString v)
       end |}.

(** A stand-in for Mongoose's casts: strings and numbers as they are,
    numbers and booleans sent for a string in their rendering, strings of
    digits and booleans sent for a number as the number they stand for;
    arrays and objects are refused. *)
Definition demo_Mongoose : Server.Mongoose :=
  {| Server.castString := fun v =>
       match v with
       | Js.VUndefined => Some Server.Unset
       | Js.VNull => Some Server.IsNull
       | Js.VString s => Some (Server.Text s)
       | Js.VNumber x => Some (Server.Text (demo_Number_toString x))
       | Js.VBoolean b => Some (Server.Text (if b then "true" else "false"))
       | Js.VArray _ | Js.VObject _ => None
       end;
     Server.castNumber := fun v =>
       match v with
       | Js.VNumber x => if PrimFloat.is_nan x then None else Some x
       | Js.VString (String c s) => Dart.toDouble <$> digits_value 0 (String c s)
       | Js.VBoolean b => Some (if b then 1%float else 0%float)
       | _ => None
       end;
     Server.cast_failed := fun failures =>
       "UsersCreateAccount validation failed: " +:+
       String.concat ", " ((fun failure => failure.1 +:+ ": Cast failed") <$> failures) |}.

(** Stand-ins for the three other libraries, to evaluate the handlers on
    concrete requests. *)
Definition demo_ObjectIdLib : Server.ObjectIdLib :=
  {| Server.isValid := fun s => bool_decide (String.length s = 24%nat);
     Server.ObjectId := Js.toLowerCase |}.

Definition demo_Bcrypt : Server.Bcrypt :=
  {| Server.bcrypt_hash := fun password rounds salt => "$2a$" +:+ salt +:+ "$" +:+ password;
     Server.bcrypt_compare := fun password hash =>
       Js.includes hash ("$" +:+ password) |}.

Definition demo_Jwt : Server.Jwt :=
  {| Server.jwt_sign := fun payload secret expiresIn =>
       Server.TokenPayload.userId payload +:+ "." +:+
       Server.TokenPayload.email payload +:+ "." +:+
       Server.TokenPayload.adminObjectId payload +:+ "." +:+ secret |}.

Definition demo_tenant : string := "6911f0e70c45b790ce0115d2".

Definition demo_runtime : Server.Runtime :=
  {| Server.now := fun k => 1730500000000 + Z.of_nat k;
     Server.newObjectId := "65a000000000000000000001";
     Server.salt := "salt";
     Server.env_JWT_SECRET := None |}.

(** One registered account, and the same account with two lines in its
    cart. *)
Definition demo_userId : string := "65a000000000000000000000".

Definition demo_user : Server.User.t :=
  Server.User.mk demo_tenant "Ann" "Lee" "ann@example.com" "$2a$salt$secret" "5550100"
                 "+91" "Ann Lee" [] [] [] 1730000000000 1730000000000.

Definition demo_db : gmap string Server.User.t := {[ demo_userId := demo_user ]}.

Definition demo_shopper : Server.User.t :=
  Server.User.with_cart
    [ Server.CartEntry.mk (Server.Text "p1") "first" 2%float 10%float None;
      Server.CartEntry.mk (Server.Text "p2") "second" 1%float 5%float None ]
    demo_user.

Definition demo_cart_db : gmap string Server.User.t := {[ demo_userId := demo_shopper ]}.

(** Requests that name the product by a string. *)
Definition add_two : Server.CartBody.t :=
  Server.CartBody.mk (Js.VString "p1") "first" 10%float (Js.VNumber 2).

Definition add_three : Server.CartBody.t :=
  Server.CartBody.mk (Js.VString "p1") "first" 10%float (Js.VNumber 3).

Definition add_zero : Server.CartBody.t :=
  Server.CartBody.mk (Js.VString "p1") "first" 10%float (Js.VNumber 0).

Definition wish : Server.WishlistBody.t :=
  Server.WishlistBody.mk (Js.VString "p1") "first" 10%float.

(** Requests that name it by a number, and one whose quantity is a
    string. *)
Definition add_one_of_5 : Server.CartBody.t :=
  Server.CartBody.mk (Js.VNumber 5) "fifth" 10%float (Js.VNumber 1).

Definition wish_5 : Server.WishlistBody.t :=
  Server.WishlistBody.mk (Js.VNumber 5) "fifth" 10%float.

Definition add_three_as_string : Server.CartBody.t :=
  Server.CartBody.mk (Js.VString "p1") "first" 10%float (Js.VString "3").

Definition register_ann : Server.RegisterBody.t :=
  Server.RegisterBody.mk (Some demo_tenant) (Some "Ann") (Some "Lee")
                         (Some "ann@example.com") (Some "secret") (Some "5550100") None.

Definition register_ann_without_phone : Server.RegisterBody.t :=
  Server.RegisterBody.mk (Some demo_tenant) (Some "Ann") (Some "Lee")
                         (Some "ann@example.com") (Some "secret") None None.

Definition login_ann_without_password : Server.LoginBody.t :=
  Server.LoginBody.mk (Some demo_tenant) (Some "ann@example.com") (Some "").

(** A catalogue. *)
Definition demo_products : list Server.ProductCard.t :=
  [ Server.ProductCard.mk (Some "Red Phone") (Some "A phone") [];
    Server.ProductCard.mk (Some "Blue Case") (Some "Fits the RED phone") [];
    Server.ProductCard.mk (Some "Charger") None [("price", "9")];
    Server.ProductCard.mk None (Some "Shredded paper") [] ].

Definition demo_configs : gmap string Server.AdminElementScreen.t :=
  {[ demo_tenant := Server.AdminElementScreen.mk (Some "phoneshop") None None
                                                 (Some demo_products) ]}.

(** The storefront run with the stand-ins. *)
Definition demo_step : Storefront.Operation -> Storefront.State -> Storefront.State :=
  @Storefront.step demo_ObjectIdLib demo_Bcrypt demo_Jwt demo_Engine demo_Mongoose.

(** A state the storefront reaches: an account registers and adds a product
    to its cart, and the client adds an item to its own. *)
Definition demo_state : Storefront.State :=
  demo_step
    (Storefront.CartAddItem (Client.CartItem.mk "p1" "first" 10%float 0%float 1 None))
    (demo_step
       (Storefront.AddToCart demo_runtime (Server.newObjectId demo_runtime) add_two)
       (demo_step (Storefront.Register demo_runtime register_ann) Storefront.initial)).

(** A state it reaches when a product is named by a number: the account
    registers and adds product 5 to its cart twice. *)
Definition demo_state_numbered : Storefront.State :=
  demo_step
    (Storefront.AddToCart demo_runtime (Server.newObjectId demo_runtime) add_one_of_5)
    (demo_step
       (Storefront.AddToCart demo_runtime (Server.newObjectId demo_runtime) add_one_of_5)
       (demo_step (Storefront.Register demo_runtime register_ann) Storefront.initial)).

End Examples.

(* ===================================================================== *)
(** * The other routes of [backend/server.js]                             *)
(* ===================================================================== *)

Module Api.
Import Js Server.

(** [s.split(sep)] for a separator of one character: the pieces between the
    occurrences of [sep], at least one piece. *)
Fixpoint split (sep : ascii) (s : string) : list string :=
  match s with
  | EmptyString => [EmptyString]
  | String c s' =>
      if bool_decide (c = sep) then EmptyString :: split sep s'
      else match split sep s' with
           | piece :: pieces => String c piece :: pieces
           | [] => [String c EmptyString]
           end
  end.

(** [pieces.join(sep)]. *)
Definition join (sep : ascii) (pieces : list string) : string :=
  String.concat (String sep EmptyString) pieces.

(** [jwt.verify(token, secret)] as it answers when the request arrives:
    the payload of a token it accepts, nothing for a token that is forged,
    malformed or expired. *)
Class JwtVerify : Type := {
  jwt_verify : string -> string -> option TokenPayload.t
}.

(** An answer of the routes whose data is none of [Server.Data]. *)
Inductive Reply (A : Type) : Type :=
| Sent (data : A)
| Refused (status : nat) (error : string).
Arguments Sent {A} data.
Arguments Refused {A} status error.

(** ** The middleware [authenticateToken] *)

(** [authHeader && authHeader.split(' ')[1]] *)
Definition header_token (authHeader : option string) : option string :=
  if truthy_string authHeader
  then split " " (default "" authHeader) !! 1%nat
  else authHeader.

(** It refuses the request itself (401, 403) or hands [req.user] to the
    next handler. *)
Definition authenticateToken `{JwtVerify} (rt : Runtime) (authorization : option string)
    : Reply TokenPayload.t :=
  let token := header_token authorization in
  if negb (truthy_string token) then Refused 401 "Access token required"
  else
    match jwt_verify (default "" token) (JWT_SECRET rt) with
    | None => Refused 403 "Invalid or expired token"
    | Some user => Sent user
    end.

(** ** The protected routes, middleware included *)

(** [app.post(path, authenticateToken, handler)] for a handler that writes
    the collection. *)
Definition protected_post `{JwtVerify} (rt : Runtime) (authorization : option string)
    (handler : string -> gmap string User.t -> Response * gmap string User.t)
    (db : gmap string User.t) : Response * gmap string User.t :=
  match authenticateToken rt authorization with
  | Refused status error => (Failure status error, db)
  | Sent user => handler (TokenPayload.userId user) db
  end.

Definition route_post_users_cart `{JwtVerify} `{Engine} `{Mongoose} (rt : Runtime)
    (authorization : option string) (body : CartBody.t) (db : gmap string User.t)
    : Response * gmap string User.t :=
  protected_post rt authorization (fun userId => post_users_cart rt userId body) db.

Definition route_post_users_wishlist `{JwtVerify} `{Mongoose} (rt : Runtime)
    (authorization : option string) (body : WishlistBody.t) (db : gmap string User.t)
    : Response * gmap string User.t :=
  protected_post rt authorization (fun userId => post_users_wishlist rt userId body) db.

Definition route_post_users_orders `{JwtVerify} (rt : Runtime) (authorization : option string)
    (db : gmap string User.t) : Response * gmap string User.t :=
  protected_post rt authorization (fun userId => post_users_orders rt userId) db.

(** [GET /api/users/cart] *)
Definition get_users_cart (userId : string) (db : gmap string User.t) : Response :=
  match db !! userId with
  | None => Failure 404 "User not found"
  | Some user => Success None (CartData (User.cart user))
  end.

(** [GET /api/users/wishlist] *)
Definition get_users_wishlist (userId : string) (db : gmap string User.t) : Response :=
  match db !! userId with
  | None => Failure 404 "User not found"
  | Some user => Success None (WishlistData (User.wishlist user))
  end.

(** [GET /api/users/orders] *)
Definition get_users_orders (userId : string) (db : gmap string User.t)
    : Reply (list PurchaseItem.t) :=
  match db !! userId with
  | None => Refused 404 "User not found"
  | Some user => Sent (User.purchaseHistory user)
  end.

(** A document of [users_create_account] after [.select('-password')]. *)
Module Profile.
Record t : Type := mk {
  _id : string;
  adminObjectId : string;
  firstName : string;
  lastName : string;
  email : string;
  phone : string;
  countryCode : string;
  fullName : string;
  purchaseHistory : list PurchaseItem.t;
  wishlist : list WishlistEntry.t;
  cart : list CartEntry.t;
  createdAt : Z;
  updatedAt : Z
}.
End Profile.

Definition select_without_password (id : string) (u : User.t) : Profile.t :=
  Profile.mk id (User.adminObjectId u) (User.firstName u) (User.lastName u) (User.email u)
             (User.phone u) (User.countryCode u) (User.fullName u)
             (User.purchaseHistory u) (User.wishlist u) (User.cart u)
             (User.createdAt u) (User.updatedAt u).

(** [GET /api/users/profile] *)
Definition get_users_profile (userId : string) (db : gmap string User.t) : Reply Profile.t :=
  match db !! userId with
  | None => Refused 404 "User not found"
  | Some user => Sent (select_without_password userId user)
  end.

Definition route_get_users_profile `{JwtVerify} (rt : Runtime) (authorization : option string)
    (db : gmap string User.t) : Reply Profile.t :=
  match authenticateToken rt authorization with
  | Refused status error => Refused status error
  | Sent user => get_users_profile (TokenPayload.userId user) db
  end.

(** ** Routes that need no token *)

Module CheckBody.
Record t : Type := mk {
  adminObjectId : option string;
  email : option string
}.
End CheckBody.

(** [POST /api/users/check]; the data sent is the field [exists]. *)
Definition post_users_check `{ObjectIdLib} (body : CheckBody.t) (db : gmap string User.t)
    : Reply bool :=
  if negb (truthy_string (CheckBody.adminObjectId body))
     || negb (truthy_string (CheckBody.email body))
  then Refused 400 "adminObjectId and email are required"
  else
    let adminObjectId := default "" (CheckBody.adminObjectId body) in
    let email := default "" (CheckBody.email body) in
    if negb (isValid adminObjectId) then Refused 400 "Invalid adminObjectId"
    else
      match findOne (ObjectId adminObjectId) (toLowerCase email) db with
      | Some user => Sent true
      | None => Sent false
      end.

(** [GET /api/products/:adminObjectId] *)
Definition get_products `{ObjectIdLib} (adminObjectId : string)
    (configs : gmap string AdminElementScreen.t) : Response :=
  if negb (isValid adminObjectId) then Failure 400 "Invalid adminObjectId"
  else
    match configs !! ObjectId adminObjectId with
    | None => Failure 404 "App configuration not found"
    | Some appConfig =>
        let products := default [] (AdminElementScreen.productCards appConfig) in
        Success None (ProductsData products)
    end.

(** [UsersCreateAccount.countDocuments({ adminObjectId })] *)
Definition countDocuments (adminObjectId : string) (db : gmap string User.t) : nat :=
  size (filter (fun kv : string * User.t => User.adminObjectId kv.2 = adminObjectId) db).

(** What [GET /api/app-config/:adminObjectId] sends, restricted to the
    fields of the configuration document that are modelled. *)
Module AppConfig.
Record t : Type := mk {
  appName : string;
  shopName : option string;
  category : option string;
  productCards : option (list ProductCard.t);
  userCount : nat
}.
End AppConfig.

(** [GET /api/app-config/:adminObjectId] *)
Definition get_app_config `{ObjectIdLib} (adminObjectId : string)
    (configs : gmap string AdminElementScreen.t) (db : gmap string User.t)
    : Reply AppConfig.t :=
  if negb (isValid adminObjectId) then Refused 400 "Invalid adminObjectId"
  else
    match configs !! ObjectId adminObjectId with
    | None => Refused 404 "App configuration not found"
    | Some appConfig =>
        let userCount := countDocuments (ObjectId adminObjectId) db in
        Sent (AppConfig.mk
                (or_string (AdminElementScreen.appName appConfig)
                           (or_string (AdminElementScreen.shopName appConfig) "My App"))
                (AdminElementScreen.shopName appConfig)
                (AdminElementScreen.category appConfig)
                (AdminElementScreen.productCards appConfig)
                userCount)
    end.

(** ** [POST /api/create-user] *)

(** A property of a JSON body: absent, [null], or a string. *)
Inductive Field : Type :=
| Undefined
| Null
| Str (s : string).

Definition truthy_field (f : Field) : bool :=
  match f with
  | Str (String _ _) => true
  | _ => false
  end.

(** The string of a truthy field. *)
Definition field_string (f : Field) : string :=
  match f with
  | Str s => s
  | _ => EmptyString
  end.

(** A field inside a template literal. *)
Definition interpolate (f : Field) : string :=
  match f with
  | Undefined => "undefined"
  | Null => "null"
  | Str s => s
  end.

Module CreateUserBody.
Record t : Type := mk {
  adminObjectId : Field;
  fullName : Field;
  firstName : Field;
  lastName : Field;
  email : Field;
  password : Field;
  phone : Field;
  countryCode : Field
}.
End CreateUserBody.

Module CreatedUser.
Record t : Type := mk {
  userId : string;
  fullName : string;
  firstName : string;
  lastName : string;
  email : string;
  phone : string;
  token : string
}.
End CreatedUser.

(** [firstName || fullName?.split(' ')[0] || ''] *)
Definition derived_firstName (firstName fullName : Field) : string :=
  if truthy_field firstName then field_string firstName
  else
    match fullName with
    | Str s => default "" (head (split " " s))
    | _ => EmptyString
    end.

(** [lastName || fullName?.split(' ').slice(1).join(' ') || ''] *)
Definition derived_lastName (lastName fullName : Field) : string :=
  if truthy_field lastName then field_string lastName
  else
    match fullName with
    | Str s => join " " (drop 1 (split " " s))
    | _ => EmptyString
    end.

(** [fullName || `${firstName} ${lastName}`] *)
Definition derived_fullName (fullName firstName lastName : Field) : string :=
  if truthy_field fullName then field_string fullName
  else interpolate firstName +:+ " " +:+ interpolate lastName.

Definition post_create_user `{ObjectIdLib} `{Bcrypt} `{Jwt} (rt : Runtime)
    (body : CreateUserBody.t) (db : gmap string User.t)
    : Reply CreatedUser.t * gmap string User.t :=
  if negb (truthy_field (CreateUserBody.adminObjectId body))
     || negb (truthy_field (CreateUserBody.email body))
     || negb (truthy_field (CreateUserBody.password body))
  then (Refused 400 "adminObjectId, email, and password are required", db)
  else
    let adminObjectId := field_string (CreateUserBody.adminObjectId body) in
    let email := field_string (CreateUserBody.email body) in
    let password := field_string (CreateUserBody.password body) in
    if negb (isValid adminObjectId) then (Refused 400 "Invalid adminObjectId", db)
    else
      match findOne (ObjectId adminObjectId) (toLowerCase email) db with
      | Some existingUser => (Refused 400 "User already exists with this email", db)
      | None =>
          let hashedPassword := bcrypt_hash password 10 (salt rt) in
          let user :=
            User.mk (ObjectId adminObjectId)
                    (set_trimmed (derived_firstName (CreateUserBody.firstName body)
                                                    (CreateUserBody.fullName body)))
                    (set_trimmed (derived_lastName (CreateUserBody.lastName body)
                                                   (CreateUserBody.fullName body)))
                    (set_email (toLowerCase email))
                    hashedPassword
                    (set_trimmed (if truthy_field (CreateUserBody.phone body)
                                  then field_string (CreateUserBody.phone body)
                                  else EmptyString))
                    (if truthy_field (CreateUserBody.countryCode body)
                     then field_string (CreateUserBody.countryCode body)
                     else "+91")
                    (derived_fullName (CreateUserBody.fullName body)
                                      (CreateUserBody.firstName body)
                                      (CreateUserBody.lastName body))
                    [] [] []
                    (now rt 0) (now rt 1) in
          match save_new (newObjectId rt) user db with
          | inl message => (Refused 500 message, db)
          | inr db' =>
              let token :=
                jwt_sign (TokenPayload.mk (newObjectId rt) (User.email user) adminObjectId)
                         (JWT_SECRET rt) "30d" in
              (Sent (CreatedUser.mk (newObjectId rt) (User.fullName user)
                                    (User.firstName user) (User.lastName user)
                                    (User.email user) (User.phone user) token),
               db')
          end
      end.

End Api.

(* ===================================================================== *)
(** * Vocabulary for the properties of the other routes                   *)
(* ===================================================================== *)

Module Vocabulary.
Import Server.

(** The character [c] occurs in [s]. *)
Fixpoint occurs (c : ascii) (s : string) : bool :=
  match s with
  | EmptyString => false
  | String a s' => bool_decide (a = c) || occurs c s'
  end.

(** [u'] is the account [u] with, at most, another cart, wishlist, purchase
    history and modification time. *)
Definition same_identity (u u' : User.t) : Prop :=
  User.adminObjectId u' = User.adminObjectId u /\
  User.firstName u' = User.firstName u /\
  User.lastName u' = User.lastName u /\
  User.email u' = User.email u /\
  User.password u' = User.password u /\
  User.phone u' = User.phone u /\
  User.countryCode u' = User.countryCode u /\
  User.fullName u' = User.fullName u /\
  User.createdAt u' = User.createdAt u.

(** The request failed on the way: something was thrown and caught, and
    the handler answered 500 with its message. *)
Definition failed_on_the_way (r : Response) : Prop :=
  exists message, r = Failure 500 message.

(** [db'] is [db] with, at most, the document of [userId] written again,
    with the same identity and a purchase history that extends the old
    one. *)
Definition rewrites_account (userId : string) (db db' : gmap string User.t) : Prop :=
  db' = db \/
  exists user user',
    db !! userId = Some user /\
    db' = <[userId := user']> db /\
    same_identity user user' /\
    User.purchaseHistory user `prefix_of` User.purchaseHistory user'.


(** The characters that survive [RegExp(r'[^\\d.]')]. *)
Definition kept_by_parsePrice (c : ascii) : Prop :=
  c = "\"%char \/ c = "d"%char \/ c = "."%char.

End Vocabulary.

(* ===================================================================== *)
(** * The other functions of [frontend/lib/main.dart]                     *)
(* ===================================================================== *)

Module Ui.
Import Js Dart Client.

(** [double.tryParse] of [dart:core]. *)
Class DartCore : Type := {
  double_tryParse : string -> option float
}.

(** ** The rest of [PriceUtils] *)

(** ['$currency\${price.toStringAsFixed(2)}']: the second dollar sign is
    escaped, so what follows it is text and not an interpolation. *)
Definition formatPrice (price : float) (currency : string) : string :=
  currency +:+ "${price.toStringAsFixed(2)}".

Definition defaultCurrency : string := "$".

(** The characters [RegExp(r'[^\\d.]')] matches: all but the backslash,
    the letter d and the dot. *)
Definition matches_non_numeric (c : ascii) : bool :=
  negb (bool_decide (c = "\"%char) || bool_decide (c = "d"%char) || bool_decide (c = "."%char)).

(** [s.replaceAll(RegExp(r'[^\\d.]'), '')] *)
Fixpoint remove_non_numeric (s : string) : string :=
  match s with
  | EmptyString => EmptyString
  | String c s' =>
      if matches_non_numeric c then remove_non_numeric s'
      else String c (remove_non_numeric s')
  end.

Definition parsePrice `{DartCore} (priceString : string) : float :=
  match priceString with
  | EmptyString => 0%float
  | _ =>
      let numericString := remove_non_numeric priceString in
      default 0%float (double_tryParse numericString)
  end.

(** ** [_HomePageState._filterProducts]

    A product is a JSON object; the values the filter reads are taken to be
    strings, which [toString()] leaves as they are. *)
Record SearchState : Type := mkSearchState {
  _searchQuery : string;
  _filteredProducts : list (gmap string string)
}.

Definition product_contains (query : string) (product : gmap string string) : bool :=
  let productName := toLowerCase (default "" (product !! "productName")) in
  let price := toLowerCase (default "" (product !! "price")) in
  let discountPrice := toLowerCase (default "" (product !! "discountPrice")) in
  let searchLower := toLowerCase query in
  includes productName searchLower || includes price searchLower
  || includes discountPrice searchLower.

Definition _filterProducts (query : string) (productCards : list (gmap string string))
    : SearchState :=
  match query with
  | EmptyString => mkSearchState query productCards
  | _ => mkSearchState query (List.filter (product_contains query) productCards)
  end.

(** ** The quantity buttons of the cart page

    [item] is [_cartManager.items[index]], the item the row shows. *)
Definition decrementPressed (item : CartItem.t) (_items : list CartItem.t)
    : Outcome (list CartItem.t) :=
  if 1 <? CartItem.quantity item
  then CartManager.updateQuantity (CartItem.id item) (wrap64 (CartItem.quantity item - 1)) _items
  else Returned (CartManager.removeItem (CartItem.id item) _items).

Definition incrementPressed (item : CartItem.t) (_items : list CartItem.t)
    : Outcome (list CartItem.t) :=
  CartManager.updateQuantity (CartItem.id item) (wrap64 (CartItem.quantity item + 1)) _items.

(** The cart button of a wishlist row: a cart item is built from the
    wishlist item, with the default quantity, and added. *)
Definition addToCartPressed (item : WishlistItem.t) (_items : list CartItem.t)
    : list CartItem.t :=
  let cartItem := CartItem.mk (WishlistItem.id item) (WishlistItem.name item)
                              (WishlistItem.price item) (WishlistItem.discountPrice item)
                              1 (WishlistItem.image item) in
  CartManager.addItem cartItem _items.

End Ui.

(* ===================================================================== *)
(** * More concrete data                                                  *)
(* ===================================================================== *)

Module MoreExamples.
Import Examples.

(** A verifier for the tokens [demo_Jwt] signs: the first piece is the user,
    the last the secret, the one before it the tenant, the rest the
    address. *)
Definition demo_JwtVerify : Api.JwtVerify :=
  {| Api.jwt_verify := fun token secret =>
       match Api.split "." token with
       | userId :: rest =>
           match reverse rest with
           | signature :: adminObjectId :: address =>
               if bool_decide (signature = secret)
               then Some (Server.TokenPayload.mk userId (Api.join "." (reverse address))
                                                 adminObjectId)
               else None
           | _ => None
           end
       | [] => None
       end |}.

(** A stand-in for [double.tryParse]: it reads unsigned whole numbers. *)
Definition demo_DartCore : Ui.DartCore :=
  {| Ui.double_tryParse := fun s =>
       match s with
       | EmptyString => None
       | _ => Dart.toDouble <$> digits_value 0 s
       end |}.

Definition ann_token : string :=
  "65a000000000000000000000.ann@example.com.6911f0e70c45b790ce0115d2.appifyours-secret-key-change-in-production".

Definition register_bob : Server.RegisterBody.t :=
  Server.RegisterBody.mk (Some demo_tenant) (Some "Bob") (Some "Ray")
                         (Some "Bob@Example.com") (Some "hunter2") (Some "5550101") None.

Definition create_cy_without_phone : Api.CreateUserBody.t :=
  Api.CreateUserBody.mk (Api.Str demo_tenant) (Api.Str "Cy Young") Api.Undefined Api.Undefined
                        (Api.Str "cy@example.com") (Api.Str "secret") Api.Undefined
                        Api.Undefined.

Definition create_cy : Api.CreateUserBody.t :=
  Api.CreateUserBody.mk (Api.Str demo_tenant) (Api.Str "Cy Young") Api.Undefined Api.Undefined
                        (Api.Str "cy@example.com") (Api.Str "secret") (Api.Str "5550102")
                        Api.Undefined.

Definition create_mary_ann : Api.CreateUserBody.t :=
  Api.CreateUserBody.mk (Api.Str demo_tenant) (Api.Str "Mary Ann Lee") Api.Undefined
                        Api.Undefined (Api.Str "mary@example.com") (Api.Str "secret")
                        (Api.Str "5550103") Api.Undefined.

Definition create_mary_lee : Api.CreateUserBody.t :=
  Api.CreateUserBody.mk (Api.Str demo_tenant) (Api.Str "Mary  Lee") Api.Undefined
                        Api.Undefined (Api.Str "mary@example.com") (Api.Str "secret")
                        (Api.Str "5550103") Api.Undefined.

Definition demo_catalogue : list (gmap string string) :=
  [ {[ "productName" := "Red Phone"; "price" := "$120" ]};
    {[ "productName" := "Blue Case"; "price" := "$12"; "discountPrice" := "$9" ]};
    {[ "productName" := "Charger" ]} ].

End MoreExamples.

(* ===================================================================== *)
(** * Properties                                                          *)
(* ===================================================================== *)

(** ** Finding the first element that satisfies a test *)

Section FirstMatch.
Context {A : Type} (P : A -> Prop) `{!forall x, Decision (P x)}.

Lemma list_find_first (pre : list A) (x : A) (post : list A) :
  Forall (fun y => ~ P y) pre -> P x ->
  list_find P (pre ++ x :: post) = Some (length pre, x).
Proof.
  intros Hpre Hx.
  rewrite list_find_app_r by (by apply list_find_None).
  simpl. rewrite decide_True by done. done.
Qed.

Lemma list_find_split (l : list A) (i : nat) (x : A) :
  list_find P l = Some (i, x) ->
  exists pre post,
    l = pre ++ x :: post /\ length pre = i /\ Forall (fun y => ~ P y) pre /\ P x.
Proof.
  intros (Hi & Hx & Hbefore)%list_find_Some.
  exists (take i l), (drop (S i) l).
  pose proof (lookup_lt_Some _ _ _ Hi) as Hlt.
  split; [by rewrite take_drop_middle|].
  split; [rewrite length_take; lia|].
  split; [|done].
  apply Forall_forall. intros y Hy.
  apply list_elem_of_lookup in Hy as [j Hj].
  pose proof (lookup_lt_Some _ _ _ Hj) as Hjlt.
  rewrite length_take in Hjlt.
  rewrite lookup_take_lt in Hj by lia.
  apply (Hbefore j y Hj). lia.
Qed.

Lemma alter_first (f : A -> A) (pre : list A) (x : A) (post : list A) :
  alter f (length pre) (pre ++ x :: post) = pre ++ f x :: post.
Proof.
  replace (length pre) with (length pre + 0)%nat by lia.
  by rewrite alter_app_r.
Qed.
End FirstMatch.

(** ** The client's price computations *)

Section ClientPrices.
Import Client Dart Examples.
Import Client.CartItem Client.CartManager.

Lemma subtotal_nil : subtotal [] = 0%float.
Proof. reflexivity. Qed.

Lemma subtotal_snoc (items : CartManager.t) (item : CartItem.t) :
  subtotal (items ++ [item]) = (subtotal items + totalPrice item)%float.
Proof. unfold subtotal. by rewrite fold_left_app. Qed.

(** C5.  The effective price of a cart item is its discount price when
    that is strictly positive and its list price otherwise; the subtotal
    is the sum, accumulated from zero in cart order, of effective price
    times quantity; the GST is 18% of the subtotal and the final total is
    subtotal plus GST.  On the cart [{price 10, qty 2}, {price 5, qty 1}]
    without discounts: subtotal 25, GST 4.5, final total 29.5. *)
Theorem cart_totals (items : CartManager.t) (item : CartItem.t) :
  effectivePrice item =
    (if (0 <? discountPrice item)%float then discountPrice item else price item) /\
  subtotal [] = 0%float /\
  subtotal (items ++ [item]) =
    (subtotal items + effectivePrice item * toDouble (quantity item))%float /\
  gstAmount items = (subtotal items * 0.18)%float /\
  finalTotal items = (subtotal items + subtotal items * 0.18)%float /\
  subtotal example_cart = 25%float /\
  gstAmount example_cart = 4.5%float /\
  finalTotal example_cart = 29.5%float.
Proof.
  repeat split; try reflexivity.
  apply subtotal_snoc.
Qed.

(** C6.  The total with shipping is subtotal plus tax (8% of the
    subtotal) when that amount reaches the free-shipping threshold of 100,
    and that amount plus the flat fee of 5.99 otherwise. *)
Theorem total_with_shipping (items : CartManager.t) :
  let tax := (subtotal items * 0.08)%float in
  totalWithTax items = (subtotal items + tax)%float /\
  finalTotalWithShipping items =
    (if (100 <=? subtotal items + tax)%float
     then subtotal items + tax
     else subtotal items + tax + 5.99)%float.
Proof. split; reflexivity. Qed.

Example shipping_charged_below_threshold :
  finalTotalWithShipping example_cart = (25 + 25 * 0.08 + 5.99)%float.
Proof. reflexivity. Qed.

Example shipping_free_from_threshold :
  finalTotalWithShipping [CartItem.mk "p1" "first" 50%float 0%float 2 None] = 108%float.
Proof. reflexivity. Qed.

Example effective_price_discounted :
  effectivePrice (CartItem.mk "p" "n" 10%float 7.5%float 1 None) = 7.5%float /\
  effectivePrice (CartItem.mk "p" "n" 10%float (-1)%float 1 None) = 10%float.
Proof. split; reflexivity. Qed.
End ClientPrices.

(** ** The client's cart manager *)

Section ClientCart.
Import Client Dart Examples.
Import Client.CartItem Client.CartManager.

(** C10.  [updateQuantity] with an id that no cart item carries throws
    (the [StateError] of [firstWhere]) instead of doing nothing.  With an id
    that is present, the first item carrying it gets the quantity given,
    whatever it is, zero included: the item stays in the cart, with its
    name, prices and image, every other item stays as it is, and the cart
    is as long as before. *)
Theorem updateQuantity_throws_or_sets (id' : string) (q : Z) (items : CartManager.t) :
  (Forall (fun item => id item <> id') items ->
     updateQuantity id' q items = Threw (StateError "No element")) /\
  (Exists (fun item => id item = id') items ->
     exists pre item post,
       items = pre ++ item :: post /\
       Forall (fun x => id x <> id') pre /\
       id item = id' /\
       updateQuantity id' q items =
         Returned (pre ++
                   CartItem.mk id' (name item) (price item) (discountPrice item) q (image item)
                   :: post)) /\
  (forall items', updateQuantity id' q items = Returned items' -> length items' = length items).
Proof.
  split; [|split].
  - intros Hnone. unfold updateQuantity.
    by rewrite (proj2 (list_find_None _ _) Hnone).
  - intros Hpresent.
    destruct (list_find (fun i => id i = id') items) as [[index item]|] eqn:Hfind.
    + apply list_find_split in Hfind as (pre & post & -> & _ & Hpre & Hitem).
      exists pre, item, post. do 3 (split; [done|]).
      unfold updateQuantity.
      rewrite (list_find_first (fun i => id i = id')) by done.
      cbv beta iota. rewrite alter_first. unfold with_quantity. by rewrite Hitem.
    + apply list_find_None in Hfind. rewrite Forall_forall in Hfind.
      apply Exists_exists in Hpresent as (item & Hin & Hitem).
      by destruct (Hfind item Hin).
  - intros items'. unfold updateQuantity.
    destruct (list_find _ _) as [[index item]|]; [|done].
    intros [= <-]. apply length_alter.
Qed.

(** Within 64 bits nothing wraps around. *)
Lemma wrap64_in_range (z : Z) : - 2 ^ 63 <= z < 2 ^ 63 -> wrap64 z = z.
Proof.
  intros Hz. unfold wrap64. rewrite Z.mod_small by lia. lia.
Qed.

Example updateQuantity_absent :
  updateQuantity "p3" 4 example_cart = Threw (StateError "No element").
Proof. reflexivity. Qed.

Example updateQuantity_first_of_two :
  updateQuantity "p1" 7 (example_cart ++ [CartItem.mk "p1" "again" 1%float 0%float 1 None]) =
  Returned [ CartItem.mk "p1" "first" 10%float 0%float 7 None;
             CartItem.mk "p2" "second" 5%float 0%float 1 None;
             CartItem.mk "p1" "again" 1%float 0%float 1 None ].
Proof. reflexivity. Qed.
End ClientCart.

(** ** The backend's cart *)

Section ServerCart.
Import Js Server Spec.
Context `{Engine} `{Mongoose}.

Lemma filter_none {A : Type} (P : A -> Prop) `{!forall x, Decision (P x)} (l : list A) :
  Forall (fun x => ~ P x) l -> filter P l = [].
Proof.
  induction 1 as [|x l Hx _ IH]; [done|].
  by rewrite filter_cons_False.
Qed.

(** ** What [===] finds *)

(** A stored product reference equals a string sent exactly when it is that
    string. *)
Lemma strict_equals_string (stored : StringPath) (p : string) :
  strict_equals (value_of stored) (VString p) = true <-> stored = Text p.
Proof.
  destruct stored as [| |s]; simpl; [done|done|].
  rewrite bool_decide_eq_true. split; congruence.
Qed.

(** It never equals a number, a boolean, an array or an object. *)
Lemma strict_equals_other (stored : StringPath) (v : Value) :
  match v with
  | VNumber _ | VBoolean _ | VArray _ | VObject _ => True
  | _ => False
  end ->
  strict_equals (value_of stored) v = false.
Proof. by destruct stored, v. Qed.

Lemma absent_string {A : Type} (productId : A -> StringPath) (p : string) (l : list A) :
  Forall (fun item => productId item <> Text p) l ->
  Forall (fun item => strict_equals (value_of (productId item)) (VString p) <> true) l.
Proof.
  intros Habsent. eapply Forall_impl; [exact Habsent|]. intros item Hitem.
  by rewrite strict_equals_string.
Qed.

(** ** The quantity that is counted *)

Lemma counted_is_number (q : option float) : PrimFloat.is_nan (counted q) = false.
Proof.
  destruct q as [x|]; [|reflexivity]. unfold counted.
  destruct (PrimFloat.eqb x 0); [reflexivity|]. cbn [orb].
  by destruct (PrimFloat.is_nan x) eqn:Hnan.
Qed.

Lemma or_value_counted (q : option float) :
  or_value (sent_quantity q) (VNumber 1) = VNumber (counted q).
Proof.
  destruct q as [x|]; [|reflexivity].
  unfold or_value, counted, sent_quantity, truthy_value, truthy, PrimFloat.is_nan.
  destruct (PrimFloat.eqb x 0), (PrimFloat.eqb x x); reflexivity.
Qed.

(** ** The backend's cart *)

(** One call, no line of the cart equals the product sent: a line is
    appended, when both casts succeed. *)
Lemma post_users_cart_absent rt userId body (db : gmap string User.t) user productId quantity :
  db !! userId = Some user ->
  Forall (fun item => strict_equals (value_of (CartEntry.productId item))
                                    (CartBody.productId body) <> true)
         (User.cart user) ->
  castString (CartBody.productId body) = Some productId ->
  castNumber (or_value (CartBody.quantity body) (VNumber 1)) = Some quantity ->
  let cart := User.cart user ++
              [CartEntry.mk productId (CartBody.productName body) quantity
                            (CartBody.price body) None] in
  post_users_cart rt userId body db =
    (Success None (CartData cart),
     <[userId := User.with_updatedAt (now rt 0) (User.with_cart cart user)]> db).
Proof.
  intros Hu Habsent Hid Hquantity. unfold post_users_cart. rewrite Hu.
  rewrite (proj2 (list_find_None _ _) Habsent).
  by rewrite Hid, Hquantity.
Qed.

(** One call, a line of the cart equals the product sent: the quantity of
    the first such line becomes what the sum is cast to. *)
Lemma post_users_cart_present rt userId body (db : gmap string User.t) user pre item post
    sum quantity :
  db !! userId = Some user ->
  User.cart user = pre ++ item :: post ->
  Forall (fun x => strict_equals (value_of (CartEntry.productId x))
                                 (CartBody.productId body) <> true) pre ->
  strict_equals (value_of (CartEntry.productId item)) (CartBody.productId body) = true ->
  plus (CartEntry.quantity item) (or_value (CartBody.quantity body) (VNumber 1)) = inr sum ->
  castNumber sum = Some quantity ->
  let cart := pre ++
              CartEntry.mk (CartEntry.productId item) (CartEntry.productName item) quantity
                           (CartEntry.price item) (CartEntry.addedAt item)
              :: post in
  post_users_cart rt userId body db =
    (Success None (CartData cart),
     <[userId := User.with_updatedAt (now rt 0) (User.with_cart cart user)]> db).
Proof.
  intros Hu Hcart Hpre Hitem Hsum Hquantity. unfold post_users_cart. rewrite Hu, Hcart.
  rewrite (list_find_first
             (fun x => strict_equals (value_of (CartEntry.productId x))
                                     (CartBody.productId body) = true)) by done.
  cbv beta iota. rewrite Hsum, Hquantity. by rewrite alter_first.
Qed.

(** A sum that no [Number] path accepts: the request fails and nothing is
    written. *)
Lemma post_users_cart_refused rt userId body (db : gmap string User.t) user pre item post sum :
  db !! userId = Some user ->
  User.cart user = pre ++ item :: post ->
  Forall (fun x => strict_equals (value_of (CartEntry.productId x))
                                 (CartBody.productId body) <> true) pre ->
  strict_equals (value_of (CartEntry.productId item)) (CartBody.productId body) = true ->
  plus (CartEntry.quantity item) (or_value (CartBody.quantity body) (VNumber 1)) = inr sum ->
  castNumber sum = None ->
  post_users_cart rt userId body db =
    (Failure 500 (cast_failed [(element_path "cart" (length pre) "quantity", sum)]), db).
Proof.
  intros Hu Hcart Hpre Hitem Hsum Hquantity. unfold post_users_cart. rewrite Hu, Hcart.
  rewrite (list_find_first
             (fun x => strict_equals (value_of (CartEntry.productId x))
                                     (CartBody.productId body) = true)) by done.
  cbv beta iota. by rewrite Hsum, Hquantity.
Qed.

(** A product named by a number, a boolean, an array or an object is never
    found in the cart: each call that passes the casts appends a line. *)
Lemma post_users_cart_appends rt userId body (db : gmap string User.t) user productId quantity :
  db !! userId = Some user ->
  match CartBody.productId body with
  | VNumber _ | VBoolean _ | VArray _ | VObject _ => True
  | _ => False
  end ->
  castString (CartBody.productId body) = Some productId ->
  castNumber (or_value (CartBody.quantity body) (VNumber 1)) = Some quantity ->
  (post_users_cart rt userId body db).2 !! userId =
    Some (User.with_updatedAt (now rt 0)
            (User.with_cart
               (User.cart user ++
                [CartEntry.mk productId (CartBody.productName body) quantity
                              (CartBody.price body) None])
               user)).
Proof.
  intros Hu Hkind Hid Hquantity.
  rewrite (post_users_cart_absent rt userId body db user productId quantity); try done.
  - cbn [snd]. by rewrite lookup_insert_eq.
  - apply Forall_forall. intros item _.
    by rewrite strict_equals_other.
Qed.

(** C2, as the code has it.  For an account whose cart has no line for the
    product, two calls of AddToCart that name the product by the same
    string and send as quantity a number or nothing leave exactly one line
    for it, appended to the cart by the first call and incremented by the
    second.  A quantity that is not sent or is zero counts as 1, any other
    number as itself, so that the line holds [q1 + q2] when both numbers
    are sent and neither is zero.  Each call sets the account's
    modification time.  (Should the sum be no number, which takes
    quantities of opposite infinite size, the second call fails and writes
    nothing.)  The client's cart manager does likewise with the [int]
    quantities of its items. *)
Theorem add_to_cart_twice rt1 rt2 userId (db : gmap string User.t) user
    (p name1 name2 : string) (price1 price2 : float) (q1 q2 : option float)
    (items : list Client.CartItem.t) (item1 item2 : Client.CartItem.t) :
  faithful_casts ->
  db !! userId = Some user ->
  Forall (fun item => CartEntry.productId item <> Text p) (User.cart user) ->
  let body1 := CartBody.mk (VString p) name1 price1 (sent_quantity q1) in
  let body2 := CartBody.mk (VString p) name2 price2 (sent_quantity q2) in
  let line q := CartEntry.mk (Text p) name1 q price1 None in
  (exists user1,
     post_users_cart rt1 userId body1 db =
       (Success None (CartData (User.cart user1)), <[userId := user1]> db) /\
     User.cart user1 = User.cart user ++ [line (counted q1)] /\
     User.updatedAt user1 = now rt1 0 /\
     (PrimFloat.is_nan (counted q1 + counted q2) = false ->
      exists user2,
        post_users_cart rt2 userId body2 (<[userId := user1]> db) =
          (Success None (CartData (User.cart user2)), <[userId := user2]> db) /\
        User.cart user2 = User.cart user ++ [line (counted q1 + counted q2)%float] /\
        filter (fun item => CartEntry.productId item = Text p) (User.cart user2) =
          [line (counted q1 + counted q2)%float] /\
        User.updatedAt user2 = now rt2 0) /\
     (PrimFloat.is_nan (counted q1 + counted q2) = true ->
      exists message,
        post_users_cart rt2 userId body2 (<[userId := user1]> db) =
          (Failure 500 message, <[userId := user1]> db))) /\
  (forall q, PrimFloat.eqb q 0 = false -> PrimFloat.is_nan q = false -> counted (Some q) = q) /\
  counted (Some 0%float) = 1%float /\
  counted None = 1%float /\
  (Forall (fun i => Client.CartItem.id i <> Client.CartItem.id item1) items ->
   Client.CartItem.id item2 = Client.CartItem.id item1 ->
   Client.CartManager.addItem item2 (Client.CartManager.addItem item1 items) =
     items ++
     [Client.CartItem.mk (Client.CartItem.id item1) (Client.CartItem.name item1)
        (Client.CartItem.price item1) (Client.CartItem.discountPrice item1)
        (Dart.wrap64 (Client.CartItem.quantity item1 + Client.CartItem.quantity item2))
        (Client.CartItem.image item1)]).
Proof.
  intros Hcasts Hu Habsent body1 body2 line.
  split; [|split; [|split; [reflexivity|split; [reflexivity|]]]].
  - set (user1 := User.with_updatedAt (now rt1 0)
                    (User.with_cart (User.cart user ++ [line (counted q1)]) user)).
    assert (Hfirst : post_users_cart rt1 userId body1 db =
                     (Success None (CartData (User.cart user1)), <[userId := user1]> db)).
    { apply (post_users_cart_absent rt1 userId body1 db user (Text p) (counted q1)).
      - done.
      - by apply absent_string.
      - apply castString_string, Hcasts.
      - unfold body1. cbn [CartBody.quantity]. rewrite or_value_counted.
        rewrite (castNumber_number Hcasts). by rewrite counted_is_number. }
    assert (Hfound : Forall (fun x => strict_equals (value_of (CartEntry.productId x))
                                                    (CartBody.productId body2) <> true)
                            (User.cart user)) by by apply absent_string.
    assert (Hsum : plus (CartEntry.quantity (line (counted q1)))
                        (or_value (CartBody.quantity body2) (VNumber 1)) =
                   inr (VNumber (counted q1 + counted q2)%float)).
    { unfold body2. cbn [CartBody.quantity]. by rewrite or_value_counted. }
    exists user1. split; [exact Hfirst|]. split; [done|]. split; [done|]. split.
    + intros Hnumber.
      exists (User.with_updatedAt (now rt2 0)
                (User.with_cart (User.cart user ++ [line (counted q1 + counted q2)%float])
                                user)).
      split; [|split; [done|split; [|done]]].
      * rewrite (post_users_cart_present rt2 userId body2 _ user1 (User.cart user)
                   (line (counted q1)) [] (VNumber (counted q1 + counted q2)%float)
                   (counted q1 + counted q2)%float).
        -- by rewrite insert_insert_eq.
        -- by rewrite lookup_insert_eq.
        -- done.
        -- exact Hfound.
        -- by apply strict_equals_string.
        -- exact Hsum.
        -- rewrite (castNumber_number Hcasts). by rewrite Hnumber.
      * cbn [User.cart User.with_updatedAt User.with_cart].
        rewrite filter_app, filter_none by done.
        by rewrite filter_cons_True, filter_nil.
    + intros Hnan. eexists.
      apply (post_users_cart_refused rt2 userId body2 _ user1 (User.cart user)
               (line (counted q1)) [] (VNumber (counted q1 + counted q2)%float)).
      * by rewrite lookup_insert_eq.
      * done.
      * exact Hfound.
      * by apply strict_equals_string.
      * exact Hsum.
      * rewrite (castNumber_number Hcasts). by rewrite Hnan.
  - intros q Hzero Hnan. unfold counted. by rewrite Hzero, Hnan.
  - intros Hnone Hsame.
    unfold Client.CartManager.addItem at 2.
    rewrite (proj2 (list_find_None _ _) Hnone).
    unfold Client.CartManager.addItem. rewrite Hsame.
    rewrite (list_find_first (fun i => Client.CartItem.id i = Client.CartItem.id item1))
      by done.
    cbv beta iota. by rewrite alter_first.
Qed.

(** ** The backend's wishlist *)

Lemma post_users_wishlist_present rt userId body (db : gmap string User.t) user :
  db !! userId = Some user ->
  Exists (fun item => strict_equals (value_of (WishlistEntry.productId item))
                                    (WishlistBody.productId body) = true)
         (User.wishlist user) ->
  post_users_wishlist rt userId body db = (Success None (WishlistData (User.wishlist user)), db).
Proof.
  intros Hu Hpresent. unfold post_users_wishlist. rewrite Hu.
  destruct (list_find _ _) as [[i x]|] eqn:Hfind; [done|].
  apply list_find_None in Hfind.
  apply Exists_exists in Hpresent as (x & Hx & HP).
  by eapply Forall_forall in Hfind.
Qed.

Lemma post_users_wishlist_absent rt userId body (db : gmap string User.t) user productId :
  db !! userId = Some user ->
  Forall (fun item => strict_equals (value_of (WishlistEntry.productId item))
                                    (WishlistBody.productId body) <> true)
         (User.wishlist user) ->
  castString (WishlistBody.productId body) = Some productId ->
  let wishlist := User.wishlist user ++
                  [WishlistEntry.mk productId (WishlistBody.productName body)
                                    (WishlistBody.productPrice body) None] in
  post_users_wishlist rt userId body db =
    (Success None (WishlistData wishlist),
     <[userId := User.with_updatedAt (now rt 0) (User.with_wishlist wishlist user)]> db).
Proof.
  intros Hu Habsent Hid. unfold post_users_wishlist. rewrite Hu.
  rewrite (proj2 (list_find_None _ _) Habsent). by rewrite Hid.
Qed.

(** A product named by a number, a boolean, an array or an object is never
    found in the wishlist: each call that passes the cast appends an
    entry. *)
Lemma post_users_wishlist_appends rt userId body (db : gmap string User.t) user productId :
  db !! userId = Some user ->
  match WishlistBody.productId body with
  | VNumber _ | VBoolean _ | VArray _ | VObject _ => True
  | _ => False
  end ->
  castString (WishlistBody.productId body) = Some productId ->
  (post_users_wishlist rt userId body db).2 !! userId =
    Some (User.with_updatedAt (now rt 0)
            (User.with_wishlist
               (User.wishlist user ++
                [WishlistEntry.mk productId (WishlistBody.productName body)
                                  (WishlistBody.productPrice body) None])
               user)).
Proof.
  intros Hu Hkind Hid.
  rewrite (post_users_wishlist_absent rt userId body db user productId); try done.
  - cbn [snd]. by rewrite lookup_insert_eq.
  - apply Forall_forall. intros item _.
    by rewrite strict_equals_other.
Qed.

(** The client's wishlist manager ignores an item whose id it holds. *)
Lemma wishlistManager_addItem_present (item : Client.WishlistItem.t)
    (items : list Client.WishlistItem.t) :
  Client.WishlistManager.isInWishlist (Client.WishlistItem.id item) items = true ->
  Client.WishlistManager.addItem item items = items.
Proof.
  unfold Client.WishlistManager.isInWishlist, Client.WishlistManager.addItem.
  by intros ->.
Qed.

Lemma wishlistManager_addItem_absent (item : Client.WishlistItem.t)
    (items : list Client.WishlistItem.t) :
  Client.WishlistManager.isInWishlist (Client.WishlistItem.id item) items = false ->
  Client.WishlistManager.addItem item items = items ++ [item].
Proof.
  unfold Client.WishlistManager.isInWishlist, Client.WishlistManager.addItem.
  by intros ->.
Qed.

Lemma wishlistManager_addItem_twice (item1 item2 : Client.WishlistItem.t)
    (items : list Client.WishlistItem.t) :
  Client.WishlistItem.id item2 = Client.WishlistItem.id item1 ->
  Client.WishlistManager.addItem item2 (Client.WishlistManager.addItem item1 items) =
  Client.WishlistManager.addItem item1 items.
Proof.
  intros Hsame. unfold Client.WishlistManager.addItem at 2 3.
  destruct (existsb _ items) eqn:Hany; cbn [negb].
  - apply wishlistManager_addItem_present.
    unfold Client.WishlistManager.isInWishlist. by rewrite Hsame.
  - apply wishlistManager_addItem_present.
    unfold Client.WishlistManager.isInWishlist.
    rewrite existsb_app. cbn [existsb]. rewrite Hsame.
    by rewrite bool_decide_eq_true_2, orb_true_r.
Qed.

Lemma isInWishlist_false (id' : string) (items : list Client.WishlistItem.t) :
  Client.WishlistManager.isInWishlist id' items = false <->
  Forall (fun item => Client.WishlistItem.id item <> id') items.
Proof.
  unfold Client.WishlistManager.isInWishlist.
  induction items as [|x items IH]; simpl.
  - split; [constructor|done].
  - rewrite orb_false_iff, bool_decide_eq_false, IH, Forall_cons. done.
Qed.

(** After [addItem] the wishlist holds as many items of the id as before,
    and one when it held none. *)
Lemma wishlistManager_addItem_count (item : Client.WishlistItem.t)
    (items : list Client.WishlistItem.t) :
  let same i := Client.WishlistItem.id i = Client.WishlistItem.id item in
  length (filter same (Client.WishlistManager.addItem item items)) =
    Nat.max 1 (length (filter same items)).
Proof.
  intros same.
  destruct (Client.WishlistManager.isInWishlist (Client.WishlistItem.id item) items)
    eqn:Hin.
  - rewrite wishlistManager_addItem_present by done.
    unfold Client.WishlistManager.isInWishlist in Hin.
    apply existsb_exists in Hin as (x & Hx & Hid).
    apply bool_decide_eq_true in Hid. apply list_elem_of_In in Hx.
    assert (x ∈ filter same items) as Hmember by by apply list_elem_of_filter.
    destruct (filter same items); [by apply elem_of_nil in Hmember|simpl; lia].
  - rewrite wishlistManager_addItem_absent by done.
    apply isInWishlist_false in Hin.
    rewrite filter_app, filter_none by done.
    by rewrite filter_cons_True.
Qed.

(** C3, as the code has it.  For a product named by a string, adding to
    the wishlist a product that is already in it changes nothing: the
    account is not written.  A product that is not in it is appended.  A
    second call with the same product reference therefore returns what the
    first returned and leaves the collection as the first left it, and
    after the two calls the wishlist holds exactly one entry for the product
    (provided it held at most one before).  The client's wishlist manager
    does likewise. *)
Theorem add_to_wishlist_idempotent rt1 rt2 userId (db : gmap string User.t) user
    (p name1 name2 : string) (price1 price2 : float)
    (items : list Client.WishlistItem.t) (item1 item2 : Client.WishlistItem.t) :
  faithful_casts ->
  db !! userId = Some user ->
  Client.WishlistItem.id item2 = Client.WishlistItem.id item1 ->
  let body1 := WishlistBody.mk (VString p) name1 price1 in
  let body2 := WishlistBody.mk (VString p) name2 price2 in
  let same item := WishlistEntry.productId item = Text p in
  let same' item := Client.WishlistItem.id item = Client.WishlistItem.id item1 in
  let after1 := post_users_wishlist rt1 userId body1 db in
  let after2 := post_users_wishlist rt2 userId body2 after1.2 in
  (Exists same (User.wishlist user) ->
     after1 = (Success None (WishlistData (User.wishlist user)), db)) /\
  (Forall (fun item => ~ same item) (User.wishlist user) ->
     exists user1,
       after1 = (Success None (WishlistData (User.wishlist user1)), <[userId := user1]> db) /\
       User.wishlist user1 =
         User.wishlist user ++ [WishlistEntry.mk (Text p) name1 price1 None] /\
       User.updatedAt user1 = now rt1 0) /\
  after2 = after1 /\
  (length (filter same (User.wishlist user)) <= 1 ->
     exists user2,
       after2.2 !! userId = Some user2 /\
       length (filter same (User.wishlist user2)) = 1)%nat /\
  (Client.WishlistManager.isInWishlist (Client.WishlistItem.id item1) items = true ->
     Client.WishlistManager.addItem item1 items = items) /\
  (Client.WishlistManager.isInWishlist (Client.WishlistItem.id item1) items = false ->
     Client.WishlistManager.addItem item1 items = items ++ [item1]) /\
  Client.WishlistManager.addItem item2 (Client.WishlistManager.addItem item1 items) =
    Client.WishlistManager.addItem item1 items /\
  (length (filter same' items) <= 1 ->
     length (filter same'
               (Client.WishlistManager.addItem item2
                  (Client.WishlistManager.addItem item1 items))) = 1)%nat.
Proof.
  intros Hcasts Hu Hsame' body1 body2 same same' after1 after2.
  assert (Hpresent1 : Exists same (User.wishlist user) ->
                      after1 = (Success None (WishlistData (User.wishlist user)), db)).
  { intros Hpresent. apply post_users_wishlist_present; [done|].
    eapply Exists_impl; [exact Hpresent|]. intros item Hitem.
    by apply strict_equals_string. }
  assert (Habsent1 : Forall (fun item => ~ same item) (User.wishlist user) ->
                     after1 =
                       (Success None
                          (WishlistData (User.wishlist user ++
                                         [WishlistEntry.mk (Text p) name1 price1 None])),
                        <[userId := User.with_updatedAt (now rt1 0)
                                      (User.with_wishlist
                                         (User.wishlist user ++
                                          [WishlistEntry.mk (Text p) name1 price1 None])
                                         user)]> db)).
  { intros Habsent.
    apply (post_users_wishlist_absent rt1 userId body1 db user (Text p)); [done| |].
    - by apply absent_string.
    - apply castString_string, Hcasts. }
  split; [exact Hpresent1|]. split.
  { intros Habsent.
    exists (User.with_updatedAt (now rt1 0)
              (User.with_wishlist
                 (User.wishlist user ++ [WishlistEntry.mk (Text p) name1 price1 None]) user)).
    split; [by apply Habsent1|]. done. }
  match goal with
  | |- ?B /\ ?C /\ _ =>
      cut (B /\ C);
      [intros [HB HC]; split; [exact HB|split; [exact HC|]]|]
  end.
  { split; [apply wishlistManager_addItem_present|].
    split; [apply wishlistManager_addItem_absent|].
    split; [by apply wishlistManager_addItem_twice|].
    intros Hle. rewrite wishlistManager_addItem_twice by done.
    pose proof (wishlistManager_addItem_count item1 items) as Hcount.
    cbv zeta in Hcount. unfold same' in *. lia. }
  destruct (decide (Exists same (User.wishlist user))) as [Hpresent|Habsent].
  - pose proof (Hpresent1 Hpresent) as Hafter1.
    assert (Hafter2 : after2 = after1).
    { unfold after2. rewrite Hafter1. cbn [snd].
      apply post_users_wishlist_present; [done|].
      eapply Exists_impl; [exact Hpresent|]. intros item Hitem.
      by apply strict_equals_string. }
    split; [done|].
    intros Hle. exists user. rewrite Hafter2, Hafter1. split; [done|].
    apply Exists_exists in Hpresent as (x & Hx & HP).
    assert (x ∈ filter same (User.wishlist user)) as Hin
      by by apply list_elem_of_filter.
    destruct (filter same (User.wishlist user)) as [|y [|z l]];
      [by apply elem_of_nil in Hin|done|simpl in Hle; lia].
  - apply not_Exists_Forall in Habsent; [|intros x; apply _].
    pose proof (Habsent1 Habsent) as Hafter1.
    assert (Hafter2 : after2 = after1).
    { unfold after2. rewrite Hafter1. cbn [snd].
      erewrite post_users_wishlist_present; cycle 1.
      - by rewrite lookup_insert_eq.
      - cbn [User.wishlist User.with_updatedAt User.with_wishlist].
        apply Exists_app. right. apply Exists_cons_hd.
        by apply strict_equals_string.
      - done. }
    split; [done|].
    intros _. eexists. rewrite Hafter2, Hafter1. cbn [snd].
    split; [by rewrite lookup_insert_eq|].
    cbn [User.wishlist User.with_updatedAt User.with_wishlist].
    rewrite filter_app, filter_none by done.
    by rewrite filter_cons_True.
Qed.

(** ** Placing an order *)

Lemma order_total_nil : order_total [] = 0%float.
Proof. reflexivity. Qed.

Lemma order_total_snoc (cart : list CartEntry.t) (item : CartEntry.t) :
  order_total (cart ++ [item]) =
  (order_total cart + CartEntry.price item * CartEntry.quantity item)%float.
Proof. unfold order_total. by rewrite fold_left_app. Qed.

(** C1.  PlaceOrder on an empty cart fails with EmptyCart and writes
    nothing.  On a cart that is not empty it returns the sum, accumulated
    from zero in cart order, of price times quantity; every cart item, in
    order and stamped with the time it was copied, is appended to the
    purchase history; the cart is emptied; and the order identifier is
    ["ORDER_"] followed by the millisecond reading of the clock. *)
Theorem place_order rt userId (db : gmap string User.t) user :
  db !! userId = Some user ->
  (User.cart user = [] -> post_users_orders rt userId db = (EmptyCart, db)) /\
  (User.cart user <> [] ->
     exists items user',
       post_users_orders rt userId db =
         (Success (Some "Order placed successfully")
                  (OrderData ("ORDER_" +:+ string_of_integer (now rt 0)) items
                             (order_total (User.cart user))),
          <[userId := user']> db) /\
       length items = length (User.cart user) /\
       (forall i item, User.cart user !! i = Some item ->
          items !! i =
          Some (PurchaseItem.mk (CartEntry.productId item) (CartEntry.productName item)
                                (CartEntry.quantity item) (CartEntry.price item)
                                (Some (now rt (1 + i)%nat)))) /\
       User.purchaseHistory user' = User.purchaseHistory user ++ items /\
       User.cart user' = [] /\
       User.wishlist user' = User.wishlist user) /\
  order_total [] = 0%float /\
  (forall cart item,
     order_total (cart ++ [item]) =
     (order_total cart + CartEntry.price item * CartEntry.quantity item)%float).
Proof.
  intros Hu. unfold post_users_orders. rewrite Hu.
  split; [by intros ->|].
  split; [|split; [reflexivity|apply order_total_snoc]].
  intros Hne. destruct (User.cart user) as [|c cart] eqn:Hcart; [done|].
  eexists _, _. split; [reflexivity|].
  split; [unfold purchase_items; by rewrite length_imap|].
  split; [|done].
  intros i item Hi. unfold purchase_items.
  by rewrite list_lookup_imap, Hi.
Qed.

End ServerCart.

(** ** Searching the catalogue *)

Section Search.
Import Js Server Spec.













(** What [selects] says: the result is determined, its members are the
    members of the list that satisfy the predicate, and it is the list with
    some elements struck out. *)
Lemma selects_unique {A : Type} (P : A -> Prop) (l r1 r2 : list A) :
  selects P l r1 -> selects P l r2 -> r1 = r2.
Proof.
  intros H1. revert r2.
  induction H1 as [|x l r HP _ IH|x l r HP _ IH]; intros r2 H2; inversion H2; subst;
    try done.
  - f_equal. by apply IH.
  - by apply IH.
Qed.




End Search.

(** ** Lists whose elements carry distinct keys *)

Section Keyed.
Context {A K : Type} (key : A -> K).

Lemma NoDup_key_alter (g : A -> A) (i : nat) (l : list A) :
  (forall x, key (g x) = key x) ->
  NoDup (key <$> l) -> NoDup (key <$> alter g i l).
Proof.
  intros Hg Hl.
  rewrite (list_fmap_alter key g id) by (apply Forall_forall; intros; apply Hg).
  by rewrite list_alter_id.
Qed.

Lemma NoDup_key_snoc (l : list A) (x : A) :
  Forall (fun y => key y <> key x) l ->
  NoDup (key <$> l) -> NoDup (key <$> l ++ [x]).
Proof.
  intros Hx Hl. rewrite fmap_app. apply NoDup_app. split; [done|]. split.
  - intros k (y & Hk & Hy)%list_elem_of_fmap Hin. simpl in Hin.
    apply list_elem_of_singleton in Hin. subst k.
    eapply Forall_forall in Hx; [|exact Hy]. congruence.
  - apply NoDup_singleton.
Qed.

Lemma NoDup_key_filter (P : A -> Prop) `{!forall x, Decision (P x)} (l : list A) :
  NoDup (key <$> l) -> NoDup (key <$> filter P l).
Proof.
  intros Hl. eapply sublist_NoDup; [exact Hl|].
  apply fmap_sublist, sublist_filter.
Qed.
End Keyed.

Section Writes.
Import Js Server Spec Vocabulary.
Context `{Engine} `{Mongoose}.

(** ** What the three writing handlers do to the collection

    Each leaves it as it is or saves again the one document it read, with
    another cart, wishlist, purchase history and modification time. *)

Lemma same_identity_refl (u : User.t) : same_identity u u.
Proof. by repeat split. Qed.

Lemma post_users_cart_rewrites rt userId body (db : gmap string User.t) :
  rewrites_account userId db (post_users_cart rt userId body db).2.
Proof.
  unfold post_users_cart.
  destruct (db !! userId) as [user|] eqn:Hu; [|by left].
  match goal with
  | |- context [match ?built with inl _ => _ | inr _ => _ end] =>
      destruct built as [message|cart]
  end; [by left|].
  right. eexists user, _. split; [done|]. split; [reflexivity|]. by repeat split.
Qed.

Lemma post_users_wishlist_rewrites rt userId body (db : gmap string User.t) :
  rewrites_account userId db (post_users_wishlist rt userId body db).2.
Proof.
  unfold post_users_wishlist.
  destruct (db !! userId) as [user|] eqn:Hu; [|by left].
  destruct (list_find _ _); [by left|].
  destruct (castString _); [|by left].
  right. eexists user, _. split; [done|]. split; [reflexivity|]. by repeat split.
Qed.

Lemma post_users_orders_rewrites rt userId (db : gmap string User.t) :
  rewrites_account userId db (post_users_orders rt userId db).2.
Proof.
  unfold post_users_orders.
  destruct (db !! userId) as [user|] eqn:Hu; [|by left].
  destruct (User.cart user); [by left|].
  right. eexists user, _. split; [done|]. split; [reflexivity|].
  split; [by repeat split|]. by apply prefix_app_r.
Qed.

(** ** What follows for the other accounts, for every account, and for the
    unique index *)

Lemma rewrites_frame (userId other : string) (db db' : gmap string User.t) :
  rewrites_account userId db db' -> other <> userId -> db' !! other = db !! other.
Proof.
  intros [->|(user & user' & _ & -> & _)] Hother; [done|].
  by rewrite lookup_insert_ne.
Qed.

Lemma rewrites_persist (userId id : string) (db db' : gmap string User.t) (u : User.t) :
  rewrites_account userId db db' ->
  db !! id = Some u ->
  exists u', db' !! id = Some u' /\
             same_identity u u' /\
             User.purchaseHistory u `prefix_of` User.purchaseHistory u'.
Proof.
  intros [->|(user & user' & Huser & -> & Hsame & Hprefix)] Hu.
  - exists u. split; [done|]. split; [apply same_identity_refl|done].
  - destruct (decide (id = userId)) as [->|Hne].
    + exists user'. rewrite lookup_insert_eq. by simplify_eq.
    + exists u. rewrite lookup_insert_ne by done.
      split; [done|]. split; [apply same_identity_refl|done].
Qed.

Lemma unique_index_update (db : gmap string User.t) (id : string) (u u' : User.t) :
  unique_index db ->
  db !! id = Some u ->
  User.adminObjectId u' = User.adminObjectId u ->
  User.email u' = User.email u ->
  unique_index (<[id := u']> db).
Proof.
  intros Hindex Hu Ht He id1 id2 u1 u2. rewrite !lookup_insert.
  repeat case_decide; intros; simplify_eq; try done.
  - eapply Hindex; eauto; congruence.
  - eapply Hindex; eauto; congruence.
  - by eapply Hindex.
Qed.

Lemma rewrites_unique_index (userId : string) (db db' : gmap string User.t) :
  rewrites_account userId db db' -> unique_index db -> unique_index db'.
Proof.
  intros [->|(user & user' & Huser & -> & Hsame & _)] Hindex; [done|].
  destruct Hsame as (Ht & _ & _ & He & _).
  by eapply unique_index_update.
Qed.

End Writes.

(** ** Product references are unique *)

Section Invariant.
Import Js Server Client Storefront Spec.
Context `{ObjectIdLib} `{Bcrypt} `{Jwt} `{Engine} `{Mongoose}.

Lemma stored_unique_insert (db : gmap string User.t) (id : string) (u : User.t) :
  stored_unique db ->
  NoDup (CartEntry.productId <$> User.cart u) ->
  NoDup (WishlistEntry.productId <$> User.wishlist u) ->
  stored_unique (<[id := u]> db).
Proof.
  intros Hdb Hc Hw id' u'. rewrite lookup_insert.
  case_decide; [intros [= <-]; done|apply Hdb].
Qed.

Lemma post_users_cart_unique rt userId body (db : gmap string User.t) :
  faithful_casts ->
  (exists p, CartBody.productId body = VString p) ->
  stored_unique db -> stored_unique (post_users_cart rt userId body db).2.
Proof.
  intros Hcasts [p Hp] Hdb. unfold post_users_cart.
  destruct (db !! userId) as [user|] eqn:Hu; [|done].
  destruct (Hdb _ _ Hu) as [Hc Hw]. rewrite Hp.
  destruct (list_find _ _) as [[index existingItem]|] eqn:Hfind.
  - destruct (plus _ _) as [message|sum]; [done|].
    destruct (castNumber sum) as [quantity|]; [|done]. cbn [snd].
    apply stored_unique_insert; [done| |done].
    cbn [User.cart User.with_updatedAt User.with_cart].
    by apply NoDup_key_alter.
  - rewrite (castString_string Hcasts).
    destruct (castNumber _) as [quantity|]; [|done]. cbn [snd].
    apply stored_unique_insert; [done| |done].
    cbn [User.cart User.with_updatedAt User.with_cart].
    apply NoDup_key_snoc; [|done].
    apply list_find_None in Hfind.
    eapply Forall_impl; [exact Hfind|]. intros item Hitem Heq. apply Hitem.
    by apply strict_equals_string.
Qed.

Lemma post_users_wishlist_unique rt userId body (db : gmap string User.t) :
  faithful_casts ->
  (exists p, WishlistBody.productId body = VString p) ->
  stored_unique db -> stored_unique (post_users_wishlist rt userId body db).2.
Proof.
  intros Hcasts [p Hp] Hdb. unfold post_users_wishlist.
  destruct (db !! userId) as [user|] eqn:Hu; [|done].
  destruct (Hdb _ _ Hu) as [Hc Hw]. rewrite Hp.
  destruct (list_find _ _) as [[index existingItem]|] eqn:Hfind; [done|].
  rewrite (castString_string Hcasts). cbn [snd].
  apply list_find_None in Hfind.
  apply stored_unique_insert; [done|done|].
  cbn [User.wishlist User.with_updatedAt User.with_wishlist].
  apply NoDup_key_snoc; [|done].
  eapply Forall_impl; [exact Hfind|]. intros item Hitem Heq. apply Hitem.
  by apply strict_equals_string.
Qed.

Lemma post_users_orders_unique rt userId (db : gmap string User.t) :
  stored_unique db -> stored_unique (post_users_orders rt userId db).2.
Proof.
  intros Hdb. unfold post_users_orders.
  destruct (db !! userId) as [user|] eqn:Hu; [|done].
  destruct (Hdb _ _ Hu) as [Hc Hw].
  destruct (User.cart user) as [|c cart] eqn:Hcart; [done|].
  apply stored_unique_insert; [done| |done].
  apply NoDup_nil_2.
Qed.

Lemma post_users_register_unique rt body (db : gmap string User.t) :
  stored_unique db -> stored_unique (post_users_register rt body db).2.
Proof.
  intros Hdb. unfold post_users_register.
  repeat (case_match; try done).
  unfold save_new in *. repeat (case_match; try done). simplify_eq.
  apply stored_unique_insert; [done| |]; apply NoDup_nil_2.
Qed.

Lemma addItem_unique (item : CartItem.t) (items : list CartItem.t) :
  NoDup (CartItem.id <$> items) -> NoDup (CartItem.id <$> CartManager.addItem item items).
Proof.
  intros Hitems. unfold CartManager.addItem.
  destruct (list_find _ _) as [[existingIndex existing]|] eqn:Hfind.
  - by apply NoDup_key_alter.
  - apply list_find_None in Hfind. by apply NoDup_key_snoc.
Qed.

Lemma updateQuantity_unique (id : string) (q : Z) (items items' : list CartItem.t) :
  CartManager.updateQuantity id q items = Dart.Returned items' ->
  NoDup (CartItem.id <$> items) -> NoDup (CartItem.id <$> items').
Proof.
  unfold CartManager.updateQuantity. intros Hupdate Hitems.
  destruct (list_find _ _) as [[index item]|]; [|done].
  injection Hupdate as <-. by apply NoDup_key_alter.
Qed.

Lemma wishlist_addItem_unique (item : WishlistItem.t) (items : list WishlistItem.t) :
  NoDup (WishlistItem.id <$> items) ->
  NoDup (WishlistItem.id <$> WishlistManager.addItem item items).
Proof.
  intros Hitems. unfold WishlistManager.addItem.
  destruct (existsb _ _) eqn:Hany; [done|]. simpl.
  apply NoDup_key_snoc; [|done].
  apply Forall_forall. intros y Hy Heq.
  assert (existsb (fun i => bool_decide (WishlistItem.id i = WishlistItem.id item)) items = true)
    as Htrue; [|congruence].
  apply existsb_exists. exists y. split; [by apply list_elem_of_In|].
  by apply bool_decide_eq_true.
Qed.

(** Every operation that names its product by a string preserves the
    invariant. *)
Lemma step_unique (op : Operation) (s : State) :
  faithful_casts -> names_product_by_string op ->
  unique_references s -> unique_references (step op s).
Proof.
  intros Hcasts Hop (Hdb & Hcart & Hwish).
  destruct op; simpl.
  - split; [by apply post_users_register_unique|done].
  - split; [by apply post_users_cart_unique|done].
  - split; [by apply post_users_wishlist_unique|done].
  - split; [by apply post_users_orders_unique|done].
  - split; [done|]. split; [by apply addItem_unique|done].
  - split; [done|]. split; [by apply NoDup_key_filter|done].
  - destruct (CartManager.updateQuantity _ _ _) as [items|e] eqn:Hupdate; [|done].
    split; [done|]. split; [by eapply updateQuantity_unique|done].
  - split; [done|]. split; [apply NoDup_nil_2|done].
  - split; [done|]. split; [done|by apply wishlist_addItem_unique].
  - split; [done|]. split; [done|by apply NoDup_key_filter].
  - split; [done|]. split; [done|apply NoDup_nil_2].
Qed.

(** C4, as the code has it.  When products are named by strings, each
    product reference occurs in at most one line of each cart and of each
    wishlist, on the backend and on the client: this holds with no accounts
    and an empty client cart and wishlist, every operation (registering,
    adding to a cart or a wishlist, removing, updating a quantity,
    clearing, placing an order) that names its product by a string
    preserves it, and so it holds in every state the storefront reaches by
    such operations. *)
Theorem product_references_unique :
  faithful_casts ->
  unique_references initial /\
  (forall op s,
     names_product_by_string op -> unique_references s -> unique_references (step op s)) /\
  (forall s, reachable_by_strings s -> unique_references s).
Proof.
  intros Hcasts.
  assert (unique_references initial) as Hinitial.
  { split; [intros id u Hu; cbn in Hu; by rewrite lookup_empty in Hu|].
    split; apply NoDup_nil_2. }
  split; [done|]. split; [intros op s; by apply step_unique|].
  induction 1 as [|op s Hop _ IH]; [done|by apply step_unique].
Qed.

End Invariant.

(** ** Accounts *)

Section Accounts.
Import Js Server Spec.
Context `{ObjectIdLib} `{Bcrypt} `{Jwt} `{Engine} `{Mongoose}.

Lemma lower_char_idem (c : ascii) : lower_char (lower_char c) = lower_char c.
Proof. destruct c as [[] [] [] [] [] [] [] []]; reflexivity. Qed.

Lemma toLowerCase_idem (s : string) : toLowerCase (toLowerCase s) = toLowerCase s.
Proof. induction s as [|c s IH]; simpl; [done|]. by rewrite lower_char_idem, IH. Qed.

Lemma set_email_toLowerCase (s : string) : set_email (toLowerCase s) = set_email s.
Proof. unfold set_email. by rewrite toLowerCase_idem. Qed.

Lemma findOne_Some (adminObjectId email id : string) (u : User.t) (db : gmap string User.t) :
  findOne adminObjectId email db = Some (id, u) ->
  db !! id = Some u /\ User.adminObjectId u = adminObjectId /\ User.email u = set_email email.
Proof.
  unfold findOne. destruct (list_find _ _) as [[i [id' u']]|] eqn:Hfind; [|done].
  simpl. intros [= -> ->].
  apply list_find_Some in Hfind as (Hi & [Ht He] & _).
  split; [|done].
  apply elem_of_map_to_list. apply list_elem_of_lookup. by exists i.
Qed.

Lemma findOne_None (adminObjectId email : string) (db : gmap string User.t) :
  findOne adminObjectId email db = None ->
  forall id u, db !! id = Some u ->
    ~ (User.adminObjectId u = adminObjectId /\ User.email u = set_email email).
Proof.
  unfold findOne. destruct (list_find _ _) as [[i [id' u']]|] eqn:Hfind; [done|].
  intros _ id u Hu. apply list_find_None in Hfind.
  apply elem_of_map_to_list in Hu.
  rewrite Forall_forall in Hfind. exact (Hfind (id, u) Hu).
Qed.

(** [findOne] finds an account exactly when one exists. *)
Lemma findOne_is_Some (adminObjectId email : string) (db : gmap string User.t) :
  is_Some (findOne adminObjectId email db) <->
  exists id u, db !! id = Some u /\
               User.adminObjectId u = adminObjectId /\ User.email u = set_email email.
Proof.
  split.
  - intros [[id u] Hfind]. exists id, u. by apply findOne_Some.
  - intros (id & u & Hu & Hmatch).
    destruct (findOne adminObjectId email db) as [x|] eqn:Hfind; [by eexists|].
    by destruct (findOne_None _ _ _ Hfind id u Hu).
Qed.

(** Under the unique index, [findOne] returns the one account there is. *)
Lemma findOne_unique (adminObjectId email id : string) (u : User.t) (db : gmap string User.t) :
  unique_index db ->
  db !! id = Some u ->
  User.adminObjectId u = adminObjectId -> User.email u = set_email email ->
  findOne adminObjectId email db = Some (id, u).
Proof.
  intros Hindex Hu Ht He.
  destruct (findOne adminObjectId email db) as [[id' u']|] eqn:Hfind.
  - apply findOne_Some in Hfind as (Hu' & Ht' & He').
    assert (id' = id) as -> by (eapply Hindex; eauto; congruence).
    by simplify_eq.
  - by destruct (findOne_None _ _ _ Hfind id u Hu).
Qed.

(** The document [POST /api/users/register] builds. *)
Lemma register_outcome rt (db : gmap string User.t)
    (adminObjectId firstName lastName email password phone : string)
    (countryCode : option string) :
  adminObjectId <> "" -> firstName <> "" -> lastName <> "" ->
  email <> "" -> password <> "" -> phone <> "" ->
  isValid adminObjectId = true ->
  let body := RegisterBody.mk (Some adminObjectId) (Some firstName) (Some lastName)
                              (Some email) (Some password) (Some phone) countryCode in
  let user := User.mk (ObjectId adminObjectId) (trim firstName) (trim lastName)
                      (set_email email) (bcrypt_hash password 10 (salt rt)) (trim phone)
                      (or_string countryCode "+91") (firstName +:+ " " +:+ lastName)
                      [] [] [] (now rt 0) (now rt 1) in
  post_users_register rt body db =
    match findOne (ObjectId adminObjectId) email db with
    | Some _ => (DuplicateAccount, db)
    | None =>
        match save_new (newObjectId rt) user db with
        | inl message => (Failure 500 message, db)
        | inr db' =>
            (Success (Some "Account created successfully")
               (AccountData (newObjectId rt) (User.firstName user) (User.lastName user)
                  (User.email user) (User.phone user)
                  (jwt_sign (TokenPayload.mk (newObjectId rt) (User.email user) adminObjectId)
                            (JWT_SECRET rt) "30d")),
             db')
        end
    end.
Proof.
  intros Ha Hf Hl He Hp Hph Hvalid body user.
  unfold post_users_register, body.
  cbn [RegisterBody.adminObjectId RegisterBody.firstName RegisterBody.lastName
       RegisterBody.email RegisterBody.password RegisterBody.phone
       RegisterBody.countryCode from_option id].
  assert (forall s, s <> "" -> truthy_string (Some s) = true) as Htruthy
    by (by intros [|c s]).
  rewrite !Htruthy by done. cbn [negb orb]. rewrite Hvalid. cbn [negb].
  unfold findOne. rewrite !set_email_toLowerCase. unfold set_trimmed. reflexivity.
Qed.

Lemma save_new_inr (id : string) (u : User.t) (db db' : gmap string User.t) :
  save_new id u db = inr db' -> db !! id = None /\ db' = <[id := u]> db.
Proof.
  unfold save_new. repeat (case_match; try done). by intros [= <-].
Qed.

(** After [findOne] found nothing, the insert is not refused by the unique
    index on [(adminObjectId, email)]. *)
Lemma save_new_after_findOne (id : string) (u : User.t) (db : gmap string User.t) email :
  findOne (User.adminObjectId u) email db = None ->
  User.email u = set_email email ->
  missing_paths u = [] ->
  db !! id = None ->
  save_new id u db = inr (<[id := u]> db).
Proof.
  intros Hfind He Hpaths Hid. unfold save_new. rewrite Hpaths, Hid.
  unfold findOne in Hfind. rewrite He.
  by destruct (list_find _ _).
Qed.

Lemma missing_paths_nil (u : User.t) :
  User.firstName u <> "" -> User.lastName u <> "" -> User.email u <> "" ->
  User.password u <> "" -> User.phone u <> "" ->
  missing_paths u = [].
Proof.
  intros. unfold missing_paths. by rewrite !bool_decide_eq_false_2.
Qed.

(** C8, as the code has it.  For a registration request that passes the
    handler's checks (tenant, names, e-mail address, password and phone all
    present and not empty, the tenant a well-formed identifier),
    registration fails with DuplicateAccount if and only if the collection
    holds an account of the same tenant with the same e-mail address; on
    every failure the collection is unchanged; on success the new account
    is stored with the hash of the password and the token returned signs
    (userId, email, tenant); and registration does succeed when no such
    account exists, no required field is blank and the new identifier is
    unused. *)
Theorem register_duplicate_account rt (db : gmap string User.t)
    (adminObjectId firstName lastName email password phone : string)
    (countryCode : option string) :
  adminObjectId <> "" -> firstName <> "" -> lastName <> "" ->
  email <> "" -> password <> "" -> phone <> "" ->
  isValid adminObjectId = true ->
  let body := RegisterBody.mk (Some adminObjectId) (Some firstName) (Some lastName)
                              (Some email) (Some password) (Some phone) countryCode in
  let result := post_users_register rt body db in
  (result.1 = DuplicateAccount <->
     exists id u, db !! id = Some u /\ account_of adminObjectId email u) /\
  (is_success result.1 = false -> result.2 = db) /\
  (is_success result.1 = true ->
     exists user,
       db !! newObjectId rt = None /\
       result.2 = <[newObjectId rt := user]> db /\
       account_of adminObjectId email user /\
       User.password user = bcrypt_hash password 10 (salt rt) /\
       result.1 =
         Success (Some "Account created successfully")
           (AccountData (newObjectId rt) (User.firstName user) (User.lastName user)
              (User.email user) (User.phone user)
              (jwt_sign (TokenPayload.mk (newObjectId rt) (User.email user) adminObjectId)
                        (JWT_SECRET rt) "30d"))) /\
  ((forall id u, db !! id = Some u -> ~ account_of adminObjectId email u) ->
   trim firstName <> "" -> trim lastName <> "" -> set_email email <> "" ->
   trim phone <> "" -> bcrypt_hash password 10 (salt rt) <> "" ->
   db !! newObjectId rt = None ->
   is_success result.1 = true).
Proof.
  intros Ha Hf Hl He Hp Hph Hvalid body result.
  unfold result, body. rewrite register_outcome by done.
  destruct (findOne (ObjectId adminObjectId) email db) as [found|] eqn:Hfind.
  - assert (exists id u, db !! id = Some u /\ account_of adminObjectId email u) as Hexists.
    { apply (findOne_is_Some (ObjectId adminObjectId) email db). by eexists. }
    cbn [fst snd is_success DuplicateAccount].
    split; [done|]. split; [done|]. split; [done|].
    intros Hnone. destruct Hexists as (id & u & Hu & Hacc). by destruct (Hnone id u Hu).
  - pose proof (findOne_None _ _ _ Hfind) as Hnone.
    split; [|split; [|split]].
    + split.
      * destruct (save_new _ _ _); cbn [fst]; unfold DuplicateAccount; discriminate.
      * intros (id & u & Hu & Hacc). by destruct (Hnone id u Hu).
    + destruct (save_new _ _ _); [done|]. cbn [fst is_success]. discriminate.
    + destruct (save_new _ _ _) as [message|db'] eqn:Hsave; [cbn; discriminate|].
      intros _. apply save_new_inr in Hsave as [Hfresh ->].
      eexists. do 4 (split; [done|]). reflexivity.
    + intros _ Hf' Hl' He' Hph' Hhash Hfresh.
      erewrite save_new_after_findOne; [done|exact Hfind|done| |done].
      by apply missing_paths_nil.
Qed.

(** C9, as the code has it.  For a login request that passes the handler's
    checks (tenant, e-mail address and password present and not empty, the
    tenant a well-formed identifier), login succeeds if and only if the
    collection holds an account of that tenant with that e-mail address
    whose stored hash the password matches; it then returns a token that
    signs (userId, email, tenant) as registration does; otherwise it fails
    with InvalidCredentials. *)
Theorem login_succeeds_iff rt (db : gmap string User.t) (adminObjectId email password : string) :
  adminObjectId <> "" -> email <> "" -> password <> "" ->
  isValid adminObjectId = true ->
  unique_index db ->
  let response :=
    post_users_login rt (LoginBody.mk (Some adminObjectId) (Some email) (Some password)) db in
  (is_success response = true <->
     exists id u, db !! id = Some u /\ account_of adminObjectId email u /\
                  bcrypt_compare password (User.password u) = true) /\
  (forall id u,
     db !! id = Some u -> account_of adminObjectId email u ->
     bcrypt_compare password (User.password u) = true ->
     response =
       Success (Some "Login successful")
         (AccountData id (User.firstName u) (User.lastName u) (User.email u) (User.phone u)
            (jwt_sign (TokenPayload.mk id (User.email u) adminObjectId)
                      (JWT_SECRET rt) "30d"))) /\
  (is_success response = false -> response = InvalidCredentials).
Proof.
  intros Ha He Hp Hvalid Hindex response.
  assert (forall s, s <> "" -> truthy_string (Some s) = true) as Htruthy
    by (by intros [|c s]).
  assert (Hresponse : response =
    match findOne (ObjectId adminObjectId) email db with
    | None => InvalidCredentials
    | Some (id, user) =>
        if bcrypt_compare password (User.password user)
        then Success (Some "Login successful")
               (AccountData id (User.firstName user) (User.lastName user)
                  (User.email user) (User.phone user)
                  (jwt_sign (TokenPayload.mk id (User.email user) adminObjectId)
                            (JWT_SECRET rt) "30d"))
        else InvalidCredentials
    end).
  { unfold response, post_users_login.
    cbn [LoginBody.adminObjectId LoginBody.email LoginBody.password from_option id].
    rewrite !Htruthy by done. cbn [negb orb]. rewrite Hvalid. cbn [negb].
    unfold findOne. rewrite set_email_toLowerCase.
    destruct (list_find _ _) as [[i [id u]]|]; [|done].
    cbn [fmap option_fmap option_map snd]. by destruct (bcrypt_compare _ _). }
  rewrite Hresponse. clear Hresponse response.
  split; [|split].
  - split.
    + destruct (findOne _ _ _) as [[id u]|] eqn:Hfind; [|done].
      destruct (bcrypt_compare _ _) eqn:Hcompare; [|done].
      intros _. exists id, u. apply findOne_Some in Hfind as (Hu & Ht & Hmail). done.
    + intros (id & u & Hu & [Ht Hmail] & Hcompare).
      rewrite (findOne_unique _ _ id u db) by done. by rewrite Hcompare.
  - intros id u Hu [Ht Hmail] Hcompare.
    rewrite (findOne_unique _ _ id u db) by done. by rewrite Hcompare.
  - destruct (findOne _ _ _) as [[id u]|]; [|done].
    by destruct (bcrypt_compare _ _).
Qed.

(** The unique index holds in every collection the handlers produce. *)
Lemma save_new_unique_index (id : string) (u : User.t) (db db' : gmap string User.t) :
  unique_index db -> save_new id u db = inr db' -> unique_index db'.
Proof.
  intros Hindex. unfold save_new.
  destruct (missing_paths u); [|done].
  destruct (db !! id) eqn:Hid; [done|].
  destruct (list_find _ _) as [|] eqn:Hfind; [done|].
  intros [= <-]. apply list_find_None in Hfind. rewrite Forall_forall in Hfind.
  assert (forall id' u', db !! id' = Some u' ->
            ~ (User.adminObjectId u' = User.adminObjectId u /\ User.email u' = User.email u))
    as Hnone.
  { intros id' u' Hu'. apply (Hfind (id', u')). by apply elem_of_map_to_list. }
  intros id1 id2 u1 u2. rewrite !lookup_insert.
  repeat case_decide; intros; simplify_eq; try done.
  - by destruct (Hnone id2 u2).
  - by destruct (Hnone id1 u1).
  - by eapply Hindex.
Qed.

Lemma post_users_register_unique_index rt body (db : gmap string User.t) :
  unique_index db -> unique_index (post_users_register rt body db).2.
Proof.
  intros Hindex. unfold post_users_register.
  repeat (case_match; try done).
  cbn [snd]. by eapply save_new_unique_index.
Qed.

Lemma reachable_unique_index (s : Storefront.State) :
  Storefront.reachable s -> unique_index (Storefront.accounts s).
Proof.
  induction 1 as [|op s _ IH].
  - intros id1 id2 u1 u2 Hu. cbn in Hu. by rewrite lookup_empty in Hu.
  - destruct op; cbn [Storefront.step Storefront.accounts]; try done.
    + by apply post_users_register_unique_index.
    + eapply rewrites_unique_index; [apply post_users_cart_rewrites|done].
    + eapply rewrites_unique_index; [apply post_users_wishlist_rewrites|done].
    + eapply rewrites_unique_index; [apply post_users_orders_rewrites|done].
    + by destruct (Client.CartManager.updateQuantity _ _ _).
Qed.

End Accounts.

(* ===================================================================== *)
(** * The properties at concrete requests                                 *)
(* ===================================================================== *)

Section Runs.
Import Js Server Client Storefront Spec Examples.

(** *** Orders *)

Example empty_cart_is_refused :
  post_users_orders demo_runtime demo_userId demo_db = (EmptyCart, demo_db).
Proof. reflexivity. Qed.

Lemma place_order_witness :
  exists items user',
    post_users_orders demo_runtime demo_userId demo_cart_db =
      (Success (Some "Order placed successfully")
               (OrderData "ORDER_1730500000000" items 25%float),
       <[demo_userId := user']> demo_cart_db) /\
    User.purchaseHistory user' = items /\
    User.cart user' = [].
Proof.
  destruct (place_order demo_runtime demo_userId demo_cart_db demo_shopper eq_refl)
    as (_ & Hplace & _).
  destruct (Hplace ltac:(discriminate)) as (items & user' & Hrun & _ & _ & Hhistory & Hcart & _).
  exists items, user'. split; [exact Hrun|]. split; [exact Hhistory|exact Hcart].
Defined.

Example order_stamps_each_item :
  (post_users_orders demo_runtime demo_userId demo_cart_db).1 =
  Success (Some "Order placed successfully")
    (OrderData "ORDER_1730500000000"
       [ PurchaseItem.mk (Text "p1") "first" 2%float 10%float (Some 1730500000001);
         PurchaseItem.mk (Text "p2") "second" 1%float 5%float (Some 1730500000002) ]
       25%float).
Proof. reflexivity. Qed.

(** *** The cart *)

Lemma demo_casts : @faithful_casts demo_Mongoose.
Proof. split; reflexivity. Qed.

Lemma add_to_cart_twice_witness :
  exists user1 user2,
    @post_users_cart demo_Engine demo_Mongoose demo_runtime demo_userId add_two demo_db =
      (Success None (CartData (User.cart user1)), <[demo_userId := user1]> demo_db) /\
    @post_users_cart demo_Engine demo_Mongoose demo_runtime demo_userId add_three
      (<[demo_userId := user1]> demo_db) =
      (Success None (CartData (User.cart user2)), <[demo_userId := user2]> demo_db) /\
    User.cart user2 = [CartEntry.mk (Text "p1") "first" 5%float 10%float None] /\
    User.updatedAt user2 = 1730500000000.
Proof.
  destruct (@add_to_cart_twice demo_Engine demo_Mongoose demo_runtime demo_runtime
              demo_userId demo_db demo_user "p1" "first" "first" 10%float 10%float
              (Some 2%float) (Some 3%float) []
              (CartItem.mk "p1" "first" 10%float 0%float 2 None)
              (CartItem.mk "p1" "first" 10%float 0%float 3 None)
              demo_casts eq_refl (Forall_nil_2 _))
    as ((user1 & Hfirst & _ & _ & Hsecond & _) & _).
  destruct (Hsecond eq_refl) as (user2 & Hrun & Hcart & _ & Htime).
  exists user1, user2. split; [exact Hfirst|]. split; [exact Hrun|].
  split; [exact Hcart|exact Htime].
Defined.

(** Two ways in which two calls do not leave one line holding the sum.  A
    quantity of zero counts as one: after adding 2 and then 0 of a product
    the line holds 3, not 2 + 0.  And a product named by a number is not
    found again: after adding product 5 twice the cart holds two lines for
    it. *)
Lemma add_to_cart_twice_fails :
  (exists user2,
     (@post_users_cart demo_Engine demo_Mongoose demo_runtime demo_userId add_zero
        (@post_users_cart demo_Engine demo_Mongoose demo_runtime demo_userId add_two
           demo_db).2).2 !! demo_userId = Some user2 /\
     User.cart user2 = [CartEntry.mk (Text "p1") "first" 3%float 10%float None] /\
     User.cart user2 <> [CartEntry.mk (Text "p1") "first" (2 + 0)%float 10%float None]) /\
  (exists user2,
     (@post_users_cart demo_Engine demo_Mongoose demo_runtime demo_userId add_one_of_5
        (@post_users_cart demo_Engine demo_Mongoose demo_runtime demo_userId add_one_of_5
           demo_db).2).2 !! demo_userId = Some user2 /\
     User.cart user2 = [ CartEntry.mk (Text "5") "fifth" 1%float 10%float None;
                         CartEntry.mk (Text "5") "fifth" 1%float 10%float None ]).
Proof.
  split.
  - eexists. split; [reflexivity|]. split; [reflexivity|].
    intros Heq.
    apply (f_equal (fun cart => PrimFloat.ltb (default 0%float (CartEntry.quantity <$> head cart))
                                              2.5%float)) in Heq.
    vm_compute in Heq. discriminate.
  - eexists. split; reflexivity.
Qed.

(** A quantity sent as a string is appended to the digits of the quantity
    the line holds: 2 and then ["3"] leave 23. *)
Example add_to_cart_string_quantity :
  (@post_users_cart demo_Engine demo_Mongoose demo_runtime demo_userId add_three_as_string
     (@post_users_cart demo_Engine demo_Mongoose demo_runtime demo_userId add_two
        demo_db).2).1 =
  Success None (CartData [CartEntry.mk (Text "p1") "first" 23%float 10%float None]).
Proof. reflexivity. Qed.

(** *** The wishlist *)

Lemma add_to_wishlist_idempotent_witness :
  @post_users_wishlist demo_Mongoose demo_runtime demo_userId wish
    (@post_users_wishlist demo_Mongoose demo_runtime demo_userId wish demo_db).2 =
  @post_users_wishlist demo_Mongoose demo_runtime demo_userId wish demo_db /\
  (@post_users_wishlist demo_Mongoose demo_runtime demo_userId wish demo_db).1 =
    Success None (WishlistData [WishlistEntry.mk (Text "p1") "first" 10%float None]) /\
  WishlistManager.addItem (WishlistItem.mk "p1" "first" 10%float 0%float None)
    (WishlistManager.addItem (WishlistItem.mk "p1" "first" 10%float 0%float None) []) =
  [WishlistItem.mk "p1" "first" 10%float 0%float None].
Proof.
  destruct (@add_to_wishlist_idempotent demo_Mongoose demo_runtime demo_runtime demo_userId
              demo_db demo_user "p1" "first" "first" 10%float 10%float []
              (WishlistItem.mk "p1" "first" 10%float 0%float None)
              (WishlistItem.mk "p1" "first" 10%float 0%float None)
              demo_casts eq_refl eq_refl)
    as (_ & Hadded & Hagain & _ & _ & Hclient & Htwice & _).
  split; [exact Hagain|]. split.
  - destruct (Hadded (Forall_nil_2 _)) as (user1 & Hrun & Hwishlist & _).
    cbv zeta in Hrun. unfold wish. rewrite Hrun. cbn [fst]. by rewrite Hwishlist.
  - rewrite Htwice. exact (Hclient eq_refl).
Defined.

(** A product named by a number is not found again: the second call
    appends a second entry for it, and so does not leave things as the
    first call left them. *)
Lemma add_to_wishlist_number_twice :
  (@post_users_wishlist demo_Mongoose demo_runtime demo_userId wish_5 demo_db).1 =
    Success None (WishlistData [WishlistEntry.mk (Text "5") "fifth" 10%float None]) /\
  (@post_users_wishlist demo_Mongoose demo_runtime demo_userId wish_5
     (@post_users_wishlist demo_Mongoose demo_runtime demo_userId wish_5 demo_db).2).1 =
    Success None (WishlistData [ WishlistEntry.mk (Text "5") "fifth" 10%float None;
                                 WishlistEntry.mk (Text "5") "fifth" 10%float None ]) /\
  @post_users_wishlist demo_Mongoose demo_runtime demo_userId wish_5
    (@post_users_wishlist demo_Mongoose demo_runtime demo_userId wish_5 demo_db).2 <>
  @post_users_wishlist demo_Mongoose demo_runtime demo_userId wish_5 demo_db.
Proof.
  split; [reflexivity|]. split; [reflexivity|].
  intros Heq. apply (f_equal fst) in Heq. vm_compute in Heq. discriminate.
Qed.

(** *** Reachable states *)

Lemma product_references_unique_witness : unique_references demo_state.
Proof.
  apply (proj2 (proj2 (@product_references_unique demo_ObjectIdLib demo_Bcrypt demo_Jwt
                         demo_Engine demo_Mongoose demo_casts))).
  unfold demo_state, demo_step.
  apply by_strings_step; [exact I|].
  apply by_strings_step; [by exists "p1"|].
  apply by_strings_step; [exact I|].
  apply by_strings_initial.
Defined.

Example demo_state_holds_a_cart :
  User.cart <$> (accounts demo_state !! newObjectId demo_runtime) =
    Some [CartEntry.mk (Text "p1") "first" 2%float 10%float None] /\
  cartManager demo_state = [CartItem.mk "p1" "first" 10%float 0%float 1 None].
Proof. split; reflexivity. Qed.

(** The storefront reaches a state in which a cart holds two lines for one
    product reference: an account registers and adds product 5, named by a
    number, twice. *)
Lemma numbered_product_is_stored_twice :
  @reachable demo_ObjectIdLib demo_Bcrypt demo_Jwt demo_Engine demo_Mongoose
    demo_state_numbered /\
  User.cart <$> (accounts demo_state_numbered !! newObjectId demo_runtime) =
    Some [ CartEntry.mk (Text "5") "fifth" 1%float 10%float None;
           CartEntry.mk (Text "5") "fifth" 1%float 10%float None ] /\
  ~ unique_references demo_state_numbered.
Proof.
  split; [unfold demo_state_numbered, demo_step; do 3 apply reachable_step;
          apply reachable_initial|].
  split; [reflexivity|].
  intros [Hdb _].
  destruct (accounts demo_state_numbered !! newObjectId demo_runtime) as [u|] eqn:Hu;
    [|by vm_compute in Hu].
  destruct (Hdb _ _ Hu) as [Hcart _].
  vm_compute in Hu. injection Hu as <-.
  cbn in Hcart. apply NoDup_cons_1_1 in Hcart. apply Hcart. by left.
Qed.

Lemma updateQuantity_witness :
  CartManager.updateQuantity "p2" 0 example_cart =
    Dart.Returned [ CartItem.mk "p1" "first" 10%float 0%float 2 None;
                    CartItem.mk "p2" "second" 5%float 0%float 0 None ].
Proof.
  destruct (proj1 (proj2 (updateQuantity_throws_or_sets "p2" 0 example_cart)))
    as (pre & item & post & Hsplit & Hpre & Hid & Hrun).
  { apply Exists_cons_tl, Exists_cons_hd. reflexivity. }
  rewrite Hrun. f_equal.
  destruct pre as [|first pre].
  - injection Hsplit as <- <-. discriminate Hid.
  - injection Hsplit as <- Hsplit. destruct pre as [|second pre].
    + by injection Hsplit as <- <-.
    + injection Hsplit as _ Hsplit. by destruct pre.
Defined.

(** *** Search *)


Example search_for_red_finds_capitals :
  @get_products_search demo_ObjectIdLib demo_tenant "RED" demo_configs =
  @get_products_search demo_ObjectIdLib demo_tenant "red" demo_configs.
Proof. reflexivity. Qed.

(** *** Accounts *)

Lemma register_duplicate_account_witness :
  (@post_users_register demo_ObjectIdLib demo_Bcrypt demo_Jwt demo_runtime
     (RegisterBody.mk (Some demo_tenant) (Some "Ann") (Some "Lee") (Some " Ann@Example.com")
                      (Some "secret") (Some "5550100") None)
     demo_db).1 = DuplicateAccount <->
  exists id u, demo_db !! id = Some u /\
               @account_of demo_ObjectIdLib demo_tenant " Ann@Example.com" u.
Proof.
  refine (proj1 (@register_duplicate_account demo_ObjectIdLib demo_Bcrypt demo_Jwt
                   demo_runtime demo_db demo_tenant "Ann" "Lee" " Ann@Example.com"
                   "secret" "5550100" None _ _ _ _ _ _ eq_refl));
    discriminate.
Defined.

Example register_duplicate :
  @post_users_register demo_ObjectIdLib demo_Bcrypt demo_Jwt demo_runtime
     (RegisterBody.mk (Some demo_tenant) (Some "Ann") (Some "Lee") (Some " Ann@Example.com")
                      (Some "secret") (Some "5550100") None)
     demo_db = (DuplicateAccount, demo_db).
Proof. reflexivity. Qed.

Example register_new_account :
  (@post_users_register demo_ObjectIdLib demo_Bcrypt demo_Jwt demo_runtime
     (RegisterBody.mk (Some demo_tenant) (Some "Bob") (Some "Ray") (Some "Bob@Example.com")
                      (Some "hunter2") (Some "5550101") None)
     demo_db).1 =
  Success (Some "Account created successfully")
    (AccountData "65a000000000000000000001" "Bob" "Ray" "bob@example.com" "5550101"
       "65a000000000000000000001.bob@example.com.6911f0e70c45b790ce0115d2.appifyours-secret-key-change-in-production").
Proof. reflexivity. Qed.

(** An account of the same tenant and address exists, yet a request without
    a phone number is answered with the validation error, not with
    DuplicateAccount. *)
Lemma register_incomplete_is_not_duplicate :
  (exists id u, demo_db !! id = Some u /\
                @account_of demo_ObjectIdLib demo_tenant "ann@example.com" u) /\
  @post_users_register demo_ObjectIdLib demo_Bcrypt demo_Jwt demo_runtime
     register_ann_without_phone demo_db = (ValidationError_fields, demo_db) /\
  ValidationError_fields <> DuplicateAccount.
Proof.
  split; [|split; [reflexivity|discriminate]].
  exists demo_userId, demo_user. split; [reflexivity|]. split; reflexivity.
Qed.

Lemma demo_db_unique_index : unique_index demo_db.
Proof.
  intros id1 id2 u1 u2 H1 H2 _ _. unfold demo_db in H1, H2.
  apply lookup_singleton_Some in H1 as [<- _].
  by apply lookup_singleton_Some in H2 as [<- _].
Qed.

Lemma login_succeeds_iff_witness :
  is_success (@post_users_login demo_ObjectIdLib demo_Bcrypt demo_Jwt demo_runtime
                (LoginBody.mk (Some demo_tenant) (Some "Ann@Example.com") (Some "secret"))
                demo_db) = true <->
  exists id u, demo_db !! id = Some u /\
               @account_of demo_ObjectIdLib demo_tenant "Ann@Example.com" u /\
               @bcrypt_compare demo_Bcrypt "secret" (User.password u) = true.
Proof.
  refine (proj1 (@login_succeeds_iff demo_ObjectIdLib demo_Bcrypt demo_Jwt demo_runtime
                   demo_db demo_tenant "Ann@Example.com" "secret" _ _ _ eq_refl
                   demo_db_unique_index));
    discriminate.
Defined.

Example login_ann :
  @post_users_login demo_ObjectIdLib demo_Bcrypt demo_Jwt demo_runtime
     (LoginBody.mk (Some demo_tenant) (Some "Ann@Example.com") (Some "secret")) demo_db =
  Success (Some "Login successful")
    (AccountData demo_userId "Ann" "Lee" "ann@example.com" "5550100"
       "65a000000000000000000000.ann@example.com.6911f0e70c45b790ce0115d2.appifyours-secret-key-change-in-production").
Proof. reflexivity. Qed.

Example login_wrong_password :
  @post_users_login demo_ObjectIdLib demo_Bcrypt demo_Jwt demo_runtime
     (LoginBody.mk (Some demo_tenant) (Some "ann@example.com") (Some "guess")) demo_db =
  InvalidCredentials.
Proof. reflexivity. Qed.

(** A login without a password fails, but with the validation error, not
    with InvalidCredentials. *)
Lemma login_incomplete_is_not_invalid_credentials :
  @post_users_login demo_ObjectIdLib demo_Bcrypt demo_Jwt demo_runtime
     login_ann_without_password demo_db = ValidationError_fields /\
  is_success ValidationError_fields = false /\
  ValidationError_fields <> InvalidCredentials.
Proof. split; [reflexivity|]. split; [reflexivity|discriminate]. Qed.

End Runs.

(* ===================================================================== *)
(** * Properties of the other routes and functions                        *)
(* ===================================================================== *)

(** ** Reading back what was written *)

Section ReadBack.
Import Js Server Api Vocabulary Examples MoreExamples.
Context `{Engine} `{Mongoose}.

(** X1.  [GET /api/users/cart] after [POST /api/users/cart] answers what
    the POST answered: the cart as just written, or the same 404 when the
    account does not exist.  The one exception is a POST that failed on the
    way (a cast that Mongoose refuses, an addition that throws): it wrote
    nothing, and the GET answers as it would have before. *)
Theorem get_cart_reads_back_post rt userId body (db : gmap string User.t) :
  let posted := post_users_cart rt userId body db in
  (~ failed_on_the_way posted.1 -> get_users_cart userId posted.2 = posted.1) /\
  (failed_on_the_way posted.1 ->
   posted.2 = db /\ get_users_cart userId posted.2 = get_users_cart userId db).
Proof.
  cbv zeta. unfold get_users_cart, post_users_cart.
  destruct (db !! userId) as [user|] eqn:Hu; cbn [fst snd].
  - match goal with
    | |- context [match ?built with inl _ => _ | inr _ => _ end] =>
        destruct built as [message|cart]
    end; cbn [fst snd].
    + split; [|by rewrite Hu]. intros Hnot. destruct Hnot. by eexists.
    + unfold save. rewrite lookup_insert_eq. split; [done|].
      intros [message Hfailed]. discriminate Hfailed.
  - rewrite Hu. split; [done|]. intros [message Hfailed]. discriminate Hfailed.
Qed.

(** X2.  [GET /api/users/wishlist] after [POST /api/users/wishlist] answers
    what the POST answered, whether the product was added, was already
    there, or the account does not exist.  The one exception is a POST that
    failed on the way (a product reference that Mongoose refuses to cast):
    it wrote nothing, and the GET answers as it would have before. *)
Theorem get_wishlist_reads_back_post rt userId body (db : gmap string User.t) :
  let posted := post_users_wishlist rt userId body db in
  (~ failed_on_the_way posted.1 -> get_users_wishlist userId posted.2 = posted.1) /\
  (failed_on_the_way posted.1 ->
   posted.2 = db /\ get_users_wishlist userId posted.2 = get_users_wishlist userId db).
Proof.
  cbv zeta. unfold get_users_wishlist, post_users_wishlist.
  destruct (db !! userId) as [user|] eqn:Hu; cbn [fst snd].
  - destruct (list_find _ _); cbn [fst snd].
    + rewrite Hu. split; [done|]. intros [message Hfailed]. discriminate Hfailed.
    + destruct (castString _) as [productId|]; cbn [fst snd].
      * unfold save. rewrite lookup_insert_eq. split; [done|].
        intros [message Hfailed]. discriminate Hfailed.
      * split; [|by rewrite Hu]. intros Hnot. destruct Hnot. by eexists.
  - rewrite Hu. split; [done|]. intros [message Hfailed]. discriminate Hfailed.
Qed.

Lemma post_users_orders_placed rt userId (db : gmap string User.t) user :
  db !! userId = Some user ->
  User.cart user <> [] ->
  post_users_orders rt userId db =
    (Success (Some "Order placed successfully")
       (OrderData ("ORDER_" +:+ string_of_integer (now rt 0))
                  (purchase_items rt (User.cart user)) (order_total (User.cart user))),
     <[userId := User.with_updatedAt (now rt (1 + length (User.cart user))%nat)
                   (User.with_cart []
                      (User.with_purchaseHistory
                         (User.purchaseHistory user ++ purchase_items rt (User.cart user))
                         user))]> db).
Proof.
  intros Hu Hcart. unfold post_users_orders. rewrite Hu.
  by destruct (User.cart user).
Qed.

(** X3.  After an order was placed, the cart reads back empty, the order
    history reads back as the old history followed by the items of the
    order, and placing an order again is refused with EmptyCart and writes
    nothing. *)
Theorem reads_after_order rt rt' userId (db : gmap string User.t) user :
  db !! userId = Some user ->
  User.cart user <> [] ->
  get_users_cart userId (post_users_orders rt userId db).2 = Success None (CartData []) /\
  get_users_orders userId (post_users_orders rt userId db).2 =
    Sent (User.purchaseHistory user ++ purchase_items rt (User.cart user)) /\
  post_users_orders rt' userId (post_users_orders rt userId db).2 =
    (EmptyCart, (post_users_orders rt userId db).2).
Proof.
  intros Hu Hcart.
  rewrite (post_users_orders_placed rt userId db user Hu Hcart). cbn [snd].
  unfold get_users_cart, get_users_orders, post_users_orders.
  by rewrite !lookup_insert_eq.
Qed.

Lemma reads_after_order_witness :
  get_users_cart demo_userId (post_users_orders demo_runtime demo_userId demo_cart_db).2 =
    Success None (CartData []) /\
  get_users_orders demo_userId (post_users_orders demo_runtime demo_userId demo_cart_db).2 =
    Sent (User.purchaseHistory demo_shopper ++
          purchase_items demo_runtime (User.cart demo_shopper)) /\
  post_users_orders demo_runtime demo_userId
    (post_users_orders demo_runtime demo_userId demo_cart_db).2 =
    (EmptyCart, (post_users_orders demo_runtime demo_userId demo_cart_db).2).
Proof.
  apply (reads_after_order demo_runtime demo_runtime demo_userId demo_cart_db demo_shopper).
  - reflexivity.
  - discriminate.
Defined.

End ReadBack.

(** ** What the writing handlers leave alone *)

Section Frame.
Import Js Server Api Storefront Vocabulary Examples MoreExamples.
Context `{Engine} `{Mongoose}.

(** X4.  A cart, wishlist or order request made for one account never
    changes, adds or removes any other account. *)
Theorem posts_touch_only_their_account rt userId other cartBody wishlistBody
    (db : gmap string User.t) :
  other <> userId ->
  (post_users_cart rt userId cartBody db).2 !! other = db !! other /\
  (post_users_wishlist rt userId wishlistBody db).2 !! other = db !! other /\
  (post_users_orders rt userId db).2 !! other = db !! other.
Proof.
  intros Hother.
  split; [|split]; (eapply rewrites_frame; [|exact Hother]).
  - apply post_users_cart_rewrites.
  - apply post_users_wishlist_rewrites.
  - apply post_users_orders_rewrites.
Qed.

(** X5.  No operation of the storefront deletes an account, changes who it
    belongs to or its credentials, or drops an entry of its purchase
    history: after any step every account is still there, with the same
    tenant, names, address, password hash, phone and creation time, and
    with its old purchase history as a prefix of the new one. *)
Theorem accounts_persist `{ObjectIdLib} `{Bcrypt} `{Jwt} (op : Operation) (s : State)
    (id : string) (u : User.t) :
  accounts s !! id = Some u ->
  exists u',
    accounts (step op s) !! id = Some u' /\
    same_identity u u' /\
    User.purchaseHistory u `prefix_of` User.purchaseHistory u'.
Proof.
  intros Hu.
  assert (exists u', accounts s !! id = Some u' /\ same_identity u u' /\
                     User.purchaseHistory u `prefix_of` User.purchaseHistory u') as Hstays
    by (exists u; split; [done|]; split; [apply same_identity_refl|done]).
  destruct op; cbn [step accounts]; try done.
  - unfold post_users_register.
    repeat (case_match; try done). cbn [snd].
    match goal with Hsave : save_new _ _ _ = inr _ |- _ =>
      apply save_new_inr in Hsave as [Hfresh ->] end.
    exists u. rewrite lookup_insert_ne by congruence.
    split; [done|]. split; [apply same_identity_refl|done].
  - eapply rewrites_persist; [apply post_users_cart_rewrites|exact Hu].
  - eapply rewrites_persist; [apply post_users_wishlist_rewrites|exact Hu].
  - eapply rewrites_persist; [apply post_users_orders_rewrites|exact Hu].
  - by destruct (Client.CartManager.updateQuantity _ _ _).
Qed.

End Frame.

(** ** Registration, login and the address check together *)

Section AccountFlows.
Import Js Server Api Spec Vocabulary Examples MoreExamples.
Context `{ObjectIdLib} `{Bcrypt} `{Jwt}.

Lemma truthy_string_Some (s : string) : s <> "" -> truthy_string (Some s) = true.
Proof. by destruct s. Qed.

Lemma findOne_set_email (adminObjectId email1 email2 : string) (db : gmap string User.t) :
  set_email email1 = set_email email2 ->
  findOne adminObjectId email1 db = findOne adminObjectId email2 db.
Proof. intros Heq. unfold findOne. by rewrite Heq. Qed.

(** What [POST /api/users/login] answers to a request that passes its
    checks. *)
Lemma login_outcome rt (db : gmap string User.t) (adminObjectId email password : string) :
  adminObjectId <> "" -> email <> "" -> password <> "" ->
  isValid adminObjectId = true ->
  post_users_login rt (LoginBody.mk (Some adminObjectId) (Some email) (Some password)) db =
    match findOne (ObjectId adminObjectId) email db with
    | None => InvalidCredentials
    | Some (id, user) =>
        if bcrypt_compare password (User.password user)
        then Success (Some "Login successful")
               (AccountData id (User.firstName user) (User.lastName user)
                  (User.email user) (User.phone user)
                  (jwt_sign (TokenPayload.mk id (User.email user) adminObjectId)
                            (JWT_SECRET rt) "30d"))
        else InvalidCredentials
    end.
Proof.
  intros Ha He Hp Hvalid. unfold post_users_login.
  cbn [LoginBody.adminObjectId LoginBody.email LoginBody.password from_option id].
  rewrite !truthy_string_Some by done. cbn [negb orb]. rewrite Hvalid. cbn [negb].
  rewrite (findOne_set_email _ (toLowerCase email) email) by apply set_email_toLowerCase.
  destruct (findOne _ _ _) as [[id u]|]; [|done].
  by destruct (bcrypt_compare _ _).
Qed.

(** What [POST /api/users/check] answers to a request that passes its
    checks. *)
Lemma check_outcome (db : gmap string User.t) (adminObjectId email : string) :
  adminObjectId <> "" -> email <> "" ->
  isValid adminObjectId = true ->
  post_users_check (CheckBody.mk (Some adminObjectId) (Some email)) db =
    match findOne (ObjectId adminObjectId) email db with
    | Some _ => Sent true
    | None => Sent false
    end.
Proof.
  intros Ha He Hvalid. unfold post_users_check.
  cbn [CheckBody.adminObjectId CheckBody.email from_option id].
  rewrite !truthy_string_Some by done. cbn [negb orb]. rewrite Hvalid. cbn [negb].
  by rewrite (findOne_set_email _ (toLowerCase email) email) by apply set_email_toLowerCase.
Qed.

(** The collection a successful registration leaves. *)
Lemma register_success rt (db : gmap string User.t)
    (adminObjectId firstName lastName email password phone : string)
    (countryCode : option string) :
  adminObjectId <> "" -> firstName <> "" -> lastName <> "" ->
  email <> "" -> password <> "" -> phone <> "" ->
  isValid adminObjectId = true ->
  let body := RegisterBody.mk (Some adminObjectId) (Some firstName) (Some lastName)
                              (Some email) (Some password) (Some phone) countryCode in
  let user := User.mk (ObjectId adminObjectId) (trim firstName) (trim lastName)
                      (set_email email) (bcrypt_hash password 10 (salt rt)) (trim phone)
                      (or_string countryCode "+91") (firstName +:+ " " +:+ lastName)
                      [] [] [] (now rt 0) (now rt 1) in
  is_success (post_users_register rt body db).1 = true ->
  db !! newObjectId rt = None /\
  findOne (ObjectId adminObjectId) email db = None /\
  post_users_register rt body db =
    (Success (Some "Account created successfully")
       (AccountData (newObjectId rt) (trim firstName) (trim lastName) (set_email email)
          (trim phone)
          (jwt_sign (TokenPayload.mk (newObjectId rt) (set_email email) adminObjectId)
                    (JWT_SECRET rt) "30d")),
     <[newObjectId rt := user]> db).
Proof.
  intros Ha Hf Hl He Hp Hph Hvalid body user. unfold body.
  rewrite register_outcome by done.
  destruct (findOne _ _ _) as [found|] eqn:Hfind; [done|].
  destruct (save_new _ _ _) as [message|db'] eqn:Hsave; [done|].
  intros _. apply save_new_inr in Hsave as [Hfresh ->]. done.
Qed.

(** X6.  A registration that succeeded cannot be repeated: the same request
    sent again is refused with DuplicateAccount and writes nothing. *)
Theorem register_again_is_duplicate rt rt' (db : gmap string User.t)
    (adminObjectId firstName lastName email password phone : string)
    (countryCode : option string) :
  adminObjectId <> "" -> firstName <> "" -> lastName <> "" ->
  email <> "" -> password <> "" -> phone <> "" ->
  isValid adminObjectId = true ->
  let body := RegisterBody.mk (Some adminObjectId) (Some firstName) (Some lastName)
                              (Some email) (Some password) (Some phone) countryCode in
  is_success (post_users_register rt body db).1 = true ->
  post_users_register rt' body (post_users_register rt body db).2 =
    (DuplicateAccount, (post_users_register rt body db).2).
Proof.
  intros Ha Hf Hl He Hp Hph Hvalid body Hsuccess.
  destruct (register_success rt db adminObjectId firstName lastName email password phone
              countryCode Ha Hf Hl He Hp Hph Hvalid Hsuccess) as (_ & _ & Hrun).
  fold body in Hrun. rewrite Hrun. cbn [snd]. unfold body.
  rewrite register_outcome by done.
  destruct (findOne _ _ _) as [found|] eqn:Hfind; [done|].
  exfalso. eapply (findOne_None _ _ _ Hfind (newObjectId rt)).
  - by rewrite lookup_insert_eq.
  - done.
Qed.

(** X7.  Whoever registered can log in: after a successful registration, a
    login with the same tenant, address and password succeeds and returns
    the identifier, names, address and phone of the new account, provided
    [bcrypt.compare] accepts the password against the hash [bcrypt.hash]
    made of it. *)
Theorem login_after_register rt rt' (db : gmap string User.t)
    (adminObjectId firstName lastName email password phone : string)
    (countryCode : option string) :
  adminObjectId <> "" -> firstName <> "" -> lastName <> "" ->
  email <> "" -> password <> "" -> phone <> "" ->
  isValid adminObjectId = true ->
  unique_index db ->
  bcrypt_compare password (bcrypt_hash password 10 (salt rt)) = true ->
  let body := RegisterBody.mk (Some adminObjectId) (Some firstName) (Some lastName)
                              (Some email) (Some password) (Some phone) countryCode in
  is_success (post_users_register rt body db).1 = true ->
  post_users_login rt' (LoginBody.mk (Some adminObjectId) (Some email) (Some password))
                   (post_users_register rt body db).2 =
    Success (Some "Login successful")
      (AccountData (newObjectId rt) (trim firstName) (trim lastName) (set_email email)
         (trim phone)
         (jwt_sign (TokenPayload.mk (newObjectId rt) (set_email email) adminObjectId)
                   (JWT_SECRET rt') "30d")).
Proof.
  intros Ha Hf Hl He Hp Hph Hvalid Hindex Hcompare body Hsuccess.
  pose proof (post_users_register_unique_index rt body db Hindex) as Hindex'.
  destruct (register_success rt db adminObjectId firstName lastName email password phone
              countryCode Ha Hf Hl He Hp Hph Hvalid Hsuccess) as (_ & _ & Hrun).
  fold body in Hrun. rewrite Hrun in Hindex' |- *. cbn [snd] in Hindex' |- *.
  rewrite login_outcome by done.
  erewrite findOne_unique; [|exact Hindex'|apply lookup_insert_eq|done|done].
  cbn [User.password User.firstName User.lastName User.email User.phone].
  by rewrite Hcompare.
Qed.

(** X8.  Login and the address check read the e-mail address only through
    its stored form: two addresses that differ in the case of their letters
    or in surrounding white space get the same answers. *)
Theorem login_ignores_case_and_padding rt (db : gmap string User.t)
    (adminObjectId email1 email2 password : string) :
  adminObjectId <> "" -> email1 <> "" -> email2 <> "" -> password <> "" ->
  isValid adminObjectId = true ->
  set_email email1 = set_email email2 ->
  post_users_login rt (LoginBody.mk (Some adminObjectId) (Some email1) (Some password)) db =
  post_users_login rt (LoginBody.mk (Some adminObjectId) (Some email2) (Some password)) db /\
  post_users_check (CheckBody.mk (Some adminObjectId) (Some email1)) db =
  post_users_check (CheckBody.mk (Some adminObjectId) (Some email2)) db.
Proof.
  intros Ha He1 He2 Hp Hvalid Heq.
  rewrite !login_outcome, !check_outcome by done.
  by rewrite (findOne_set_email _ email1 email2).
Qed.

(** X9.  The address check and registration agree: for a registration
    request that passes the handler's checks, [POST /api/users/check] says
    that the account exists exactly when registering would be refused with
    DuplicateAccount, and it says so after a registration succeeded. *)
Theorem check_agrees_with_register rt (db : gmap string User.t)
    (adminObjectId firstName lastName email password phone : string)
    (countryCode : option string) :
  adminObjectId <> "" -> firstName <> "" -> lastName <> "" ->
  email <> "" -> password <> "" -> phone <> "" ->
  isValid adminObjectId = true ->
  let body := RegisterBody.mk (Some adminObjectId) (Some firstName) (Some lastName)
                              (Some email) (Some password) (Some phone) countryCode in
  let check := CheckBody.mk (Some adminObjectId) (Some email) in
  (post_users_check check db = Sent true <->
   (post_users_register rt body db).1 = DuplicateAccount) /\
  (is_success (post_users_register rt body db).1 = true ->
   post_users_check check db = Sent false /\
   post_users_check check (post_users_register rt body db).2 = Sent true).
Proof.
  intros Ha Hf Hl He Hp Hph Hvalid body check. split.
  - unfold check, body. rewrite check_outcome, register_outcome by done.
    destruct (findOne _ _ _) as [found|]; [done|].
    split; [done|]. destruct (save_new _ _ _); cbn [fst]; unfold DuplicateAccount; discriminate.
  - intros Hsuccess.
    destruct (register_success rt db adminObjectId firstName lastName email password phone
                countryCode Ha Hf Hl He Hp Hph Hvalid Hsuccess) as (_ & Hnone & Hrun).
    fold body in Hrun. rewrite Hrun. cbn [snd]. unfold check.
    rewrite !check_outcome by done. rewrite Hnone. split; [done|].
    destruct (findOne _ _ (<[_ := _]> db)) as [found|] eqn:Hfind; [done|].
    exfalso. eapply (findOne_None _ _ _ Hfind (newObjectId rt)).
    + by rewrite lookup_insert_eq.
    + done.
Qed.

End AccountFlows.

(** ** The middleware and the protected routes *)

Section Authentication.
Import Js Server Api Vocabulary Examples MoreExamples.
Context `{JwtVerify} `{Engine} `{Mongoose}.

Lemma split_without_separator (sep : ascii) (s : string) :
  occurs sep s = false -> split sep s = [s].
Proof.
  induction s as [|c s IH]; [done|]. simpl.
  intros [Hc Hs]%orb_false_iff. rewrite Hc. by rewrite IH.
Qed.

Lemma split_at_first_separator (sep : ascii) (a b : string) :
  occurs sep a = false -> split sep (a +:+ String sep b) = a :: split sep b.
Proof.
  induction a as [|c a IH]; simpl.
  - intros _. by rewrite bool_decide_eq_true_2.
  - intros [Hc Ha]%orb_false_iff. rewrite Hc. by rewrite IH.
Qed.

Lemma split_not_nil (sep : ascii) (s : string) : split sep s <> [].
Proof.
  destruct s as [|c s]; [done|]. simpl.
  destruct (bool_decide (c = sep)); [done|]. by destruct (split sep s).
Qed.

(** The header [scheme token]: the token is what [jwt.verify] sees. *)
Lemma authenticate_scheme_token rt (scheme token : string) :
  occurs " " scheme = false -> occurs " " token = false -> token <> "" ->
  authenticateToken rt (Some (scheme +:+ " " +:+ token)) =
    match jwt_verify token (JWT_SECRET rt) with
    | Some user => Sent user
    | None => Refused 403 "Invalid or expired token"
    end.
Proof.
  intros Hscheme Htoken Hne. unfold authenticateToken, header_token.
  assert (truthy_string (Some (scheme +:+ " " +:+ token)) = true) as ->
    by (by destruct scheme).
  cbn [from_option id].
  change (scheme +:+ " " +:+ token) with (scheme +:+ String " " token).
  rewrite split_at_first_separator, split_without_separator by done.
  cbn [lookup list_lookup]. simpl.
  by destruct token.
Qed.

(** X10.  [authenticateToken] reads the second word of the Authorization
    header and nothing else.  Without a header, with a header of one word,
    or with two spaces after the first word it answers 401; otherwise the
    second word goes to [jwt.verify], which decides between 403 and letting
    the request through.  The first word is never looked at: any scheme,
    even an empty one, is as good as [Bearer]. *)
Theorem authenticate_reads_second_word rt :
  authenticateToken rt None = Refused 401 "Access token required" /\
  (forall header,
     occurs " " header = false ->
     authenticateToken rt (Some header) = Refused 401 "Access token required") /\
  (forall scheme rest,
     occurs " " scheme = false ->
     authenticateToken rt (Some (scheme +:+ "  " +:+ rest)) =
       Refused 401 "Access token required") /\
  (forall scheme token,
     occurs " " scheme = false -> occurs " " token = false -> token <> "" ->
     authenticateToken rt (Some (scheme +:+ " " +:+ token)) =
       match jwt_verify token (JWT_SECRET rt) with
       | Some user => Sent user
       | None => Refused 403 "Invalid or expired token"
       end).
Proof.
  split; [reflexivity|]. split; [|split].
  - intros header Hfree. unfold authenticateToken, header_token.
    destruct header as [|c header]; [reflexivity|].
    cbn [truthy_string from_option id].
    by rewrite split_without_separator.
  - intros scheme rest Hfree. unfold authenticateToken, header_token.
    assert (truthy_string (Some (scheme +:+ "  " +:+ rest)) = true) as ->
      by (by destruct scheme).
    cbn [from_option id].
    change (scheme +:+ "  " +:+ rest) with (scheme +:+ String " " (String " " rest)).
    rewrite split_at_first_separator by done. reflexivity.
  - apply authenticate_scheme_token.
Qed.

Lemma authenticate_Sent rt (authorization : option string) (user : TokenPayload.t) :
  authenticateToken rt authorization = Sent user ->
  exists token, jwt_verify token (JWT_SECRET rt) = Some user.
Proof.
  unfold authenticateToken. destruct (negb _); [done|].
  destruct (jwt_verify _ _) as [payload|] eqn:Hverify; [|done].
  intros [= <-]. by eexists.
Qed.

(** X12.  An account is written only for the holder of a token that names
    it: if [jwt.verify] accepts no token for an account, no request to the
    cart, wishlist or order routes changes that account, whatever its
    Authorization header and body. *)
Theorem writes_need_a_token_for_the_account rt (authorization : option string)
    cartBody wishlistBody (db : gmap string User.t) (account : string) :
  (forall token payload,
     jwt_verify token (JWT_SECRET rt) = Some payload ->
     TokenPayload.userId payload <> account) ->
  (route_post_users_cart rt authorization cartBody db).2 !! account = db !! account /\
  (route_post_users_wishlist rt authorization wishlistBody db).2 !! account = db !! account /\
  (route_post_users_orders rt authorization db).2 !! account = db !! account.
Proof.
  intros Hnone.
  unfold route_post_users_cart, route_post_users_wishlist, route_post_users_orders,
    protected_post.
  destruct (authenticateToken rt authorization) as [user|status error] eqn:Hauth; [|done].
  apply authenticate_Sent in Hauth as [token Hverify].
  assert (account <> TokenPayload.userId user) as Hother
    by (intros ->; by eapply Hnone).
  split; [|split]; (eapply rewrites_frame; [|exact Hother]).
  - apply post_users_cart_rewrites.
  - apply post_users_wishlist_rewrites.
  - apply post_users_orders_rewrites.
Qed.

End Authentication.

Section TokenRoundTrip.
Import Js Server Api Vocabulary Examples MoreExamples.
Context `{ObjectIdLib} `{Bcrypt} `{Jwt} `{JwtVerify}.

(** A successful login names an account of the collection. *)
Lemma login_success_account rt body (db : gmap string User.t) message
    (id firstName lastName email phone token : string) :
  post_users_login rt body db =
    Success message (AccountData id firstName lastName email phone token) ->
  exists u,
    db !! id = Some u /\
    firstName = User.firstName u /\ lastName = User.lastName u /\
    email = User.email u /\ phone = User.phone u /\
    token = jwt_sign (TokenPayload.mk id (User.email u)
                                      (default "" (LoginBody.adminObjectId body)))
                     (JWT_SECRET rt) "30d".
Proof.
  unfold post_users_login.
  destruct (_ || _); [done|]. destruct (negb (isValid _)); [done|].
  destruct (findOne _ _ _) as [[id' u]|] eqn:Hfind; [|done].
  destruct (negb _); [done|]. intros [= _ <- <- <- <- <- <-].
  apply findOne_Some in Hfind as [Hu _]. by exists u.
Qed.

(** X11.  The token a login returns opens the profile of the account that
    logged in: sent as [Bearer token], it passes the middleware and
    [GET /api/users/profile] answers with that account's document, without
    the password hash, provided [jwt.verify] accepts the token and gives
    back the payload that was signed (and the token, as every JWT, is not
    empty and contains no space). *)
Theorem login_token_opens_profile rt rt' body (db : gmap string User.t) message
    (id firstName lastName email phone token : string) :
  post_users_login rt body db =
    Success message (AccountData id firstName lastName email phone token) ->
  jwt_verify token (JWT_SECRET rt') =
    Some (TokenPayload.mk id email (default "" (LoginBody.adminObjectId body))) ->
  occurs " " token = false -> token <> "" ->
  exists u,
    db !! id = Some u /\
    route_get_users_profile rt' (Some ("Bearer " +:+ token)) db =
      Sent (select_without_password id u) /\
    Profile.email (select_without_password id u) = email /\
    Profile.firstName (select_without_password id u) = firstName.
Proof.
  intros Hlogin Hverify Hfree Hne.
  apply login_success_account in Hlogin as (u & Hu & -> & -> & -> & -> & Htoken).
  exists u. split; [done|]. split; [|done].
  unfold route_get_users_profile.
  rewrite (authenticate_scheme_token rt' "Bearer" token) by done.
  rewrite Hverify. cbn [TokenPayload.userId]. unfold get_users_profile. by rewrite Hu.
Qed.

End TokenRoundTrip.

(** ** Creating a user, listing products, counting users *)

Section OtherRoutes.
Import Js Server Api Spec Vocabulary Examples MoreExamples.
Context `{ObjectIdLib} `{Bcrypt} `{Jwt} `{Engine} `{Mongoose}.

Lemma missing_paths_not_nil (u : User.t) :
  User.firstName u = "" \/ User.lastName u = "" \/ User.phone u = "" ->
  missing_paths u <> [].
Proof.
  intros Hblank Hnil. unfold missing_paths in Hnil.
  apply app_nil in Hnil as [Hf Hnil]. apply app_nil in Hnil as [Hl Hnil].
  apply app_nil in Hnil as [_ Hnil]. apply app_nil in Hnil as [_ Hph].
  destruct Hblank as [Hb|[Hb|Hb]]; rewrite Hb in *; by rewrite bool_decide_eq_true_2 in *.
Qed.

Lemma save_new_blank (id : string) (u : User.t) (db : gmap string User.t) :
  User.firstName u = "" \/ User.lastName u = "" \/ User.phone u = "" ->
  save_new id u db = inl (validation_message (missing_paths u)).
Proof.
  intros Hblank%missing_paths_not_nil. unfold save_new.
  by destruct (missing_paths u).
Qed.

(** Every way [POST /api/create-user] ends when the document it builds has
    a blank first name, last name or phone. *)
Lemma create_user_blank rt body (db : gmap string User.t) :
  trim (derived_firstName (CreateUserBody.firstName body) (CreateUserBody.fullName body)) = "" \/
  trim (derived_lastName (CreateUserBody.lastName body) (CreateUserBody.fullName body)) = "" \/
  trim (if truthy_field (CreateUserBody.phone body)
        then field_string (CreateUserBody.phone body) else "") = "" ->
  exists status error, post_create_user rt body db = (Refused status error, db).
Proof.
  intros Hblank. unfold post_create_user.
  destruct (_ || _); [by eexists _, _|].
  destruct (negb (isValid _)); [by eexists _, _|].
  destruct (findOne _ _ _); [by eexists _, _|].
  rewrite save_new_blank by exact Hblank. by eexists _, _.
Qed.

(** Splitting and joining with the same separator gives the string back. *)
Lemma join_split (sep : ascii) (s : string) : join sep (split sep s) = s.
Proof.
  induction s as [|c s IH]; [done|]. simpl.
  pose proof (split_not_nil sep s) as Hne.
  destruct (bool_decide (c = sep)) eqn:Hc.
  - apply bool_decide_eq_true in Hc as ->.
    unfold join in *. simpl. destruct (split sep s); [done|]. by rewrite IH.
  - destruct (split sep s) as [|piece pieces]; [done|].
    unfold join in *. simpl in *. destruct pieces; by rewrite <- IH.
Qed.

(** X13.  [POST /api/create-user] asks only for tenant, address and
    password, yet it creates no account without a phone number and both
    names: when the phone is missing or blank, or when no names are sent and
    the full name is missing or a single word, the request ends in a
    refusal and the collection is unchanged. *)
Theorem create_user_needs_phone_and_names rt body (db : gmap string User.t) :
  (truthy_field (CreateUserBody.phone body) = false ->
   exists status error, post_create_user rt body db = (Refused status error, db)) /\
  (truthy_field (CreateUserBody.lastName body) = false ->
   (forall s, CreateUserBody.fullName body = Str s -> occurs " " s = false) ->
   exists status error, post_create_user rt body db = (Refused status error, db)) /\
  (forall data db',
     post_create_user rt body db = (Sent data, db') ->
     CreatedUser.firstName data <> "" /\ CreatedUser.lastName data <> "" /\
     CreatedUser.phone data <> "" /\
     truthy_field (CreateUserBody.phone body) = true).
Proof.
  split; [|split].
  - intros Hphone. apply create_user_blank. right. right. by rewrite Hphone.
  - intros Hlast Hword. apply create_user_blank. right. left.
    unfold derived_lastName. rewrite Hlast.
    destruct (CreateUserBody.fullName body) as [| |s] eqn:Hfull; [done|done|].
    by rewrite (split_without_separator " " s) by by apply Hword.
  - intros data db' Hrun.
    assert (~ exists status error, post_create_user rt body db = (Refused status error, db))
      as Hnot by (intros (status & error & Heq); congruence).
    assert (truthy_field (CreateUserBody.phone body) = true) as Hphone.
    { destruct (truthy_field (CreateUserBody.phone body)) eqn:Hp; [done|].
      destruct Hnot. apply create_user_blank. right. right. by rewrite Hp. }
    split; [|split; [|split; [|done]]].
    all: intros Hblank; destruct Hnot; apply create_user_blank.
    all: unfold post_create_user in Hrun.
    all: destruct (_ || _); [done|]; destruct (negb (isValid _)); [done|].
    all: destruct (findOne _ _ _); [done|].
    all: destruct (save_new _ _ _); [done|]; injection Hrun as <- <-.
    all: cbn [CreatedUser.firstName CreatedUser.lastName CreatedUser.phone
              User.firstName User.lastName User.phone] in Hblank.
    all: unfold set_trimmed in Hblank; auto.
Qed.

(** X14.  Without separate names, [POST /api/create-user] cuts the full name
    at its first space and stores the two parts trimmed: the account it
    creates has as first name what stands before that space and as last
    name what stands after it, each without the white space at its ends,
    and as full name the full name as sent; the answer carries the same
    three.  When neither part has white space at its ends, first name,
    space and last name give the full name back. *)
Theorem full_name_is_cut_at_first_space rt body (db db' : gmap string User.t)
    (data : CreatedUser.t) (first rest : string) :
  truthy_field (CreateUserBody.firstName body) = false ->
  truthy_field (CreateUserBody.lastName body) = false ->
  CreateUserBody.fullName body = Str (first +:+ " " +:+ rest) ->
  occurs " " first = false ->
  post_create_user rt body db = (Sent data, db') ->
  CreatedUser.firstName data = trim first /\
  CreatedUser.lastName data = trim rest /\
  CreatedUser.fullName data = first +:+ " " +:+ rest /\
  (exists user,
     db' !! CreatedUser.userId data = Some user /\
     User.firstName user = trim first /\
     User.lastName user = trim rest /\
     User.fullName user = first +:+ " " +:+ rest) /\
  (trim first = first -> trim rest = rest ->
   CreatedUser.firstName data +:+ " " +:+ CreatedUser.lastName data =
   CreatedUser.fullName data).
Proof.
  intros Hf Hl Hfull Hfree Hrun. unfold post_create_user in Hrun.
  destruct (_ || _); [done|]. destruct (negb (isValid _)); [done|].
  destruct (findOne _ _ _); [done|].
  destruct (save_new _ _ _) as [message|saved] eqn:Hsave; [done|].
  injection Hrun as <- <-. apply save_new_inr in Hsave as [_ ->].
  cbn [CreatedUser.firstName CreatedUser.lastName CreatedUser.fullName CreatedUser.userId
       User.firstName User.lastName User.fullName].
  unfold set_trimmed, derived_firstName, derived_lastName, derived_fullName.
  rewrite Hf, Hl, Hfull.
  change (first +:+ " " +:+ rest) with (first +:+ String " " rest).
  rewrite split_at_first_separator by done.
  cbn [head from_option id]. rewrite skipn_cons, drop_0, join_split.
  assert (truthy_field (Str (first +:+ String " " rest)) = true) as ->
    by (by destruct first).
  cbn [field_string].
  split; [done|]. split; [done|]. split; [done|]. split.
  - eexists. rewrite lookup_insert_eq. split; [reflexivity|]. done.
  - by intros -> ->.
Qed.

(** X15.  Searching never finds what listing does not show: for the same
    tenant, [GET /api/products/search] fails exactly as
    [GET /api/products] does, and otherwise returns products of the listing
    in the order of the listing. *)
Theorem search_is_part_of_listing (adminObjectId query : string)
    (configs : gmap string AdminElementScreen.t) :
  match get_products adminObjectId configs,
        get_products_search adminObjectId query configs with
  | Success _ (ProductsData listed), Success _ (ProductsData found) => sublist found listed
  | Failure status error, Failure status' error' => status' = status /\ error' = error
  | _, _ => False
  end.
Proof.
  unfold get_products, get_products_search.
  destruct (negb (isValid adminObjectId)); [done|].
  destruct (configs !! ObjectId adminObjectId) as [appConfig|]; [|done].
  cbv zeta. generalize (default [] (AdminElementScreen.productCards appConfig)).
  intros products. induction products as [|p products IH]; simpl; [constructor|].
  destruct (matches query p); by constructor.
Qed.

Lemma countDocuments_insert (tenant id : string) (u : User.t) (db : gmap string User.t) :
  db !! id = None ->
  countDocuments tenant (<[id := u]> db) =
    if decide (User.adminObjectId u = tenant)
    then S (countDocuments tenant db) else countDocuments tenant db.
Proof.
  intros Hfresh. unfold countDocuments. case_decide as Htenant.
  - rewrite map_filter_insert_True by done.
    rewrite map_size_insert_None; [done|].
    apply map_lookup_filter_None_2. by left.
  - rewrite map_filter_insert_False by done. by rewrite delete_id.
Qed.

(** X16.  The user count [GET /api/app-config] reports for a tenant grows by
    exactly one with each successful registration for that tenant, and what
    it answers for any other tenant does not change. *)
Theorem registration_counts_once rt (db : gmap string User.t)
    (configs : gmap string AdminElementScreen.t)
    (adminObjectId firstName lastName email password phone : string)
    (countryCode : option string) :
  adminObjectId <> "" -> firstName <> "" -> lastName <> "" ->
  email <> "" -> password <> "" -> phone <> "" ->
  isValid adminObjectId = true ->
  let body := RegisterBody.mk (Some adminObjectId) (Some firstName) (Some lastName)
                              (Some email) (Some password) (Some phone) countryCode in
  is_success (post_users_register rt body db).1 = true ->
  (forall config,
     get_app_config adminObjectId configs db = Sent config ->
     exists config',
       get_app_config adminObjectId configs (post_users_register rt body db).2 = Sent config' /\
       AppConfig.userCount config' = S (AppConfig.userCount config) /\
       AppConfig.appName config' = AppConfig.appName config) /\
  (forall other,
     ObjectId other <> ObjectId adminObjectId ->
     get_app_config other configs (post_users_register rt body db).2 =
     get_app_config other configs db).
Proof.
  intros Ha Hf Hl He Hp Hph Hvalid body Hsuccess.
  destruct (register_success rt db adminObjectId firstName lastName email password phone
              countryCode Ha Hf Hl He Hp Hph Hvalid Hsuccess) as (Hfresh & _ & Hrun).
  fold body in Hrun. rewrite Hrun. cbn [snd]. split.
  - intros config. unfold get_app_config. rewrite Hvalid. cbn [negb].
    destruct (configs !! ObjectId adminObjectId) as [appConfig|]; [|done].
    intros [= <-]. eexists. split; [reflexivity|]. split; [|done].
    cbn [AppConfig.userCount]. rewrite countDocuments_insert by done.
    by rewrite decide_True.
  - intros other Hother. unfold get_app_config.
    destruct (negb (isValid other)); [done|].
    destruct (configs !! ObjectId other) as [appConfig|]; [|done].
    rewrite countDocuments_insert by done.
    by rewrite decide_False by (cbn; congruence).
Qed.

(** The unique index under [POST /api/create-user]. *)
Lemma post_create_user_unique_index rt body (db : gmap string User.t) :
  unique_index db -> unique_index (post_create_user rt body db).2.
Proof.
  intros Hindex. unfold post_create_user.
  destruct (_ || _); [done|]. destruct (negb (isValid _)); [done|].
  destruct (findOne _ _ _); [done|].
  destruct (save_new _ _ _) eqn:Hsave; [done|].
  cbn [snd]. by eapply save_new_unique_index.
Qed.

(** X17.  No route can make two accounts of one tenant share an e-mail
    address: every route that writes the collection (register, create-user,
    cart, wishlist, orders) keeps the pair (tenant, address) unique. *)
Theorem writes_keep_addresses_unique rt registerBody createBody userId cartBody wishlistBody
    (db : gmap string User.t) :
  unique_index db ->
  unique_index (post_users_register rt registerBody db).2 /\
  unique_index (post_create_user rt createBody db).2 /\
  unique_index (post_users_cart rt userId cartBody db).2 /\
  unique_index (post_users_wishlist rt userId wishlistBody db).2 /\
  unique_index (post_users_orders rt userId db).2.
Proof.
  intros Hindex.
  split; [by apply post_users_register_unique_index|].
  split; [by apply post_create_user_unique_index|].
  split; [|split]; (eapply rewrites_unique_index; [|exact Hindex]).
  - apply post_users_cart_rewrites.
  - apply post_users_wishlist_rewrites.
  - apply post_users_orders_rewrites.
Qed.

End OtherRoutes.

(** ** The client's managers and their callers *)

Section ClientMore.
Import Js Dart Client Ui Spec Vocabulary Examples MoreExamples.
Import Client.CartItem.

Lemma filter_all {A : Type} (P : A -> Prop) `{!forall x, Decision (P x)} (l : list A) :
  Forall P l -> filter P l = l.
Proof.
  induction 1 as [|x l Hx _ IH]; [done|].
  by rewrite filter_cons_True, IH.
Qed.

Lemma Forall_filter_both {A : Type} (P Q : A -> Prop) `{!forall x, Decision (P x)}
    (l : list A) :
  Forall Q l -> Forall Q (filter P l).
Proof.
  rewrite !Forall_forall. intros HQ x [_ Hx]%list_elem_of_filter. by apply HQ.
Qed.

(** X18.  After [removeItem] no item of the cart carries the id, so that
    [updateQuantity] for it throws; the other items stay, in their order;
    removing an id the cart does not hold changes nothing; and removing an
    item just added to a cart that did not hold it gives the cart back. *)
Theorem removeItem_removes_all (id' : string) (q : Z) (item : CartItem.t)
    (items : list CartItem.t) :
  Forall (fun i => id i <> id') (CartManager.removeItem id' items) /\
  CartManager.updateQuantity id' q (CartManager.removeItem id' items) =
    Threw (StateError "No element") /\
  (forall x, x ∈ CartManager.removeItem id' items <-> x ∈ items /\ id x <> id') /\
  sublist (CartManager.removeItem id' items) items /\
  (Forall (fun i => id i <> id') items -> CartManager.removeItem id' items = items) /\
  (Forall (fun i => id i <> id item) items ->
   CartManager.removeItem (id item) (CartManager.addItem item items) = items).
Proof.
  assert (Forall (fun i => id i <> id') (CartManager.removeItem id' items)) as Hgone.
  { apply Forall_forall. by intros x [Hx _]%list_elem_of_filter. }
  split; [done|]. split.
  { unfold CartManager.updateQuantity.
    by rewrite (proj2 (list_find_None _ _) Hgone). }
  split; [intros x; unfold CartManager.removeItem; rewrite list_elem_of_filter; tauto|].
  split; [apply sublist_filter|]. split.
  - apply filter_all.
  - intros Habsent. unfold CartManager.addItem.
    rewrite (proj2 (list_find_None _ _) Habsent).
    unfold CartManager.removeItem. rewrite filter_app, filter_all by done.
    rewrite filter_cons_False by (intros Hne; by apply Hne).
    by rewrite filter_nil, app_nil_r.
Qed.

Lemma isInWishlist_true (id' : string) (items : list WishlistItem.t) :
  WishlistManager.isInWishlist id' items = true <->
  exists item, item ∈ items /\ WishlistItem.id item = id'.
Proof.
  unfold WishlistManager.isInWishlist. rewrite existsb_exists. split.
  - intros (item & Hin & Hid). exists item.
    split; [by apply list_elem_of_In|by apply bool_decide_eq_true in Hid].
  - intros (item & Hin & Hid). exists item.
    split; [by apply list_elem_of_In|by apply bool_decide_eq_true].
Qed.

Lemma isInWishlist_same (id' : string) (items items' : list WishlistItem.t) :
  (forall item, WishlistItem.id item = id' -> item ∈ items <-> item ∈ items') ->
  WishlistManager.isInWishlist id' items = WishlistManager.isInWishlist id' items'.
Proof.
  intros Hsame. apply eq_true_iff_eq. rewrite !isInWishlist_true.
  split; intros (item & Hin & Hid); exists item; (split; [by apply (Hsame item Hid)|done]).
Qed.

(** X19.  [isInWishlist] answers what the wishlist operations did: true for
    an id just added, false for an id just removed and after [clear]; and
    adding or removing one id does not change the answer for another. *)
Theorem isInWishlist_follows_the_operations (item : WishlistItem.t) (id' : string)
    (items : list WishlistItem.t) :
  WishlistManager.isInWishlist (WishlistItem.id item)
    (WishlistManager.addItem item items) = true /\
  WishlistManager.isInWishlist id' (WishlistManager.removeItem id' items) = false /\
  WishlistManager.isInWishlist id' (WishlistManager.clear items) = false /\
  (id' <> WishlistItem.id item ->
   WishlistManager.isInWishlist id' (WishlistManager.addItem item items) =
   WishlistManager.isInWishlist id' items) /\
  (forall other, other <> id' ->
   WishlistManager.isInWishlist other (WishlistManager.removeItem id' items) =
   WishlistManager.isInWishlist other items).
Proof.
  split; [|split; [|split; [done|split]]].
  - unfold WishlistManager.addItem.
    destruct (existsb _ items) eqn:Hany; cbn [negb]; [exact Hany|].
    apply isInWishlist_true. exists item. split; [|done].
    apply elem_of_app. right. by apply list_elem_of_singleton.
  - apply not_true_is_false. rewrite isInWishlist_true.
    intros (x & Hin & Hid). unfold WishlistManager.removeItem in Hin.
    by apply list_elem_of_filter in Hin as [Hne _].
  - intros Hne. apply isInWishlist_same. intros x Hx.
    unfold WishlistManager.addItem. destruct (negb _); [|done].
    rewrite elem_of_app, list_elem_of_singleton. split; [|by left].
    intros [Hin|Heq]; [done|subst; congruence].
  - intros other Hne. apply isInWishlist_same. intros x Hx.
    unfold WishlistManager.removeItem. rewrite list_elem_of_filter.
    split; [by intros [_ Hin]|]. intros Hin. split; [congruence|done].
Qed.

Lemma remove_non_numeric_kept (s : string) (c : ascii) :
  occurs c (remove_non_numeric s) = true -> kept_by_parsePrice c.
Proof.
  induction s as [|a s IH]; [done|]. simpl.
  destruct (matches_non_numeric a) eqn:Ha; [done|]. simpl.
  intros [Hc|Hc]%orb_true_iff; [|by apply IH].
  apply bool_decide_eq_true in Hc as <-.
  unfold matches_non_numeric in Ha. apply negb_false_iff in Ha.
  apply orb_true_iff in Ha as [Ha|Ha]; [apply orb_true_iff in Ha as [Ha|Ha]|];
    apply bool_decide_eq_true in Ha; unfold kept_by_parsePrice; auto.
Qed.

(** X20.  [PriceUtils.parsePrice] returns 0.0 for every string: its pattern
    removes the digits and keeps only backslashes, the letter d and dots,
    and of such characters [double.tryParse] makes no number.  In
    particular it does not read back what [formatPrice] writes, whose text
    does not depend on the price at all. *)
Theorem parsePrice_is_always_zero `{DartCore} :
  (forall s, (forall c, occurs c s = true -> kept_by_parsePrice c) ->
             double_tryParse s = None) ->
  (forall priceString, parsePrice priceString = 0%float) /\
  (forall price currency, parsePrice (formatPrice price currency) = 0%float) /\
  (forall price price' currency, formatPrice price currency = formatPrice price' currency).
Proof.
  intros Hcore.
  assert (forall priceString, parsePrice priceString = 0%float) as Hzero.
  { intros priceString. unfold parsePrice. destruct priceString as [|c s]; [done|].
    by rewrite Hcore by apply remove_non_numeric_kept. }
  done.
Qed.



Lemma list_find_at_unique_id (index : nat) (item : CartItem.t) (items : list CartItem.t) :
  NoDup (id <$> items) -> items !! index = Some item ->
  list_find (fun i => id i = id item) items = Some (index, item).
Proof.
  intros Hnodup Hitem. apply list_find_Some. split; [done|]. split; [done|].
  intros j y Hy Hlt Hid.
  assert (j = index); [|lia].
  eapply (NoDup_lookup _ j index (id item) Hnodup);
    rewrite list_lookup_fmap; [by rewrite Hy; simpl; rewrite Hid|by rewrite Hitem].
Qed.

Lemma alter_is_insert {A : Type} (f : A -> A) (i : nat) (x : A) (l : list A) :
  l !! i = Some x -> alter f i l = <[i := f x]> l.
Proof.
  intros Hx. rewrite list_insert_alter. apply list_alter_ext; [|done].
  intros y Hy. by simplify_eq.
Qed.

(** In a cart with distinct ids, removing the id of a row removes that row
    and no other. *)
Lemma removeItem_at_unique_id (index : nat) (item : CartItem.t) (items : list CartItem.t) :
  NoDup (id <$> items) -> items !! index = Some item ->
  CartManager.removeItem (id item) items = take index items ++ drop (S index) items.
Proof.
  intros Hnodup Hitem. unfold CartManager.removeItem.
  rewrite <- (take_drop_middle items index item Hitem) in Hnodup |- * at 1.
  rewrite fmap_app, fmap_cons in Hnodup.
  apply NoDup_app in Hnodup as (_ & Hbefore & Hafter).
  apply NoDup_cons in Hafter as [Hafter _].
  rewrite filter_app, filter_cons_False by (intros Hne; by apply Hne).
  rewrite !filter_all; [done| |].
  - apply Forall_forall. intros x Hx Heq. apply Hafter.
    apply list_elem_of_fmap. by exists x.
  - apply Forall_forall. intros x Hx Heq. apply (Hbefore (id x)).
    + apply list_elem_of_fmap. by exists x.
    + rewrite Heq. by left.
Qed.

(** X22.  The quantity buttons of a cart row never throw and never leave a
    quantity below one: in a cart with distinct ids and positive
    quantities, the minus button leaves its row with the quantity lowered
    by one, or takes the row out of the cart when the quantity is one, and
    the plus button leaves its row with the quantity raised by one (short
    of the largest [int]); the row keeps its id, name, prices and image,
    and all other rows stay as they are. *)
Theorem quantity_buttons_keep_quantities_positive (index : nat) (item : CartItem.t)
    (items : list CartItem.t) :
  items !! index = Some item ->
  NoDup (id <$> items) ->
  Forall (fun i => 1 <= quantity i < 2 ^ 63) items ->
  let row q := CartItem.mk (id item) (name item) (price item) (discountPrice item) q
                           (image item) in
  (exists items',
     decrementPressed item items = Returned items' /\
     Forall (fun i => 1 <= quantity i < 2 ^ 63) items' /\
     NoDup (id <$> items') /\
     (1 < quantity item ->
      items' = take index items ++ row (quantity item - 1) :: drop (S index) items) /\
     (quantity item = 1 ->
      items' = take index items ++ drop (S index) items)) /\
  (quantity item < 2 ^ 63 - 1 ->
   incrementPressed item items =
     Returned (take index items ++ row (quantity item + 1) :: drop (S index) items) /\
   Forall (fun i => 1 <= quantity i < 2 ^ 63)
          (take index items ++ row (quantity item + 1) :: drop (S index) items)).
Proof.
  intros Hitem Hnodup Hpos row.
  assert (1 <= quantity item < 2 ^ 63) as Hq
    by (eapply Forall_forall in Hpos; [exact Hpos|by eapply list_elem_of_lookup_2]).
  pose proof (list_find_at_unique_id index item items Hnodup Hitem) as Hfind.
  pose proof (lookup_lt_Some _ _ _ Hitem) as Hindex.
  assert (forall q, alter (with_quantity q) index items =
                    take index items ++ row q :: drop (S index) items) as Halter.
  { intros q. rewrite (alter_is_insert _ index item) by done.
    by rewrite insert_take_drop. }
  assert (forall q, 1 <= q < 2 ^ 63 ->
            Forall (fun i => 1 <= quantity i < 2 ^ 63)
                   (take index items ++ row q :: drop (S index) items)) as Hrows.
  { intros q Hrange. apply Forall_app. split; [by apply Forall_take|].
    apply Forall_cons. split; [done|by apply Forall_drop]. }
  split.
  - unfold decrementPressed. destruct (1 <? quantity item) eqn:Hgt.
    + apply Z.ltb_lt in Hgt. unfold CartManager.updateQuantity. rewrite Hfind.
      rewrite wrap64_in_range by lia. rewrite Halter.
      eexists. split; [reflexivity|]. split; [|split; [|split; [done|lia]]].
      * apply Hrows. lia.
      * rewrite fmap_app, fmap_cons. cbn [id row].
        rewrite <- fmap_cons, <- fmap_app. by rewrite take_drop_middle.
    + apply Z.ltb_ge in Hgt. eexists. split; [reflexivity|].
      split; [by apply Forall_filter_both|]. split; [by apply NoDup_key_filter|].
      split; [lia|]. intros _. by apply removeItem_at_unique_id.
  - intros Hmax. unfold incrementPressed, CartManager.updateQuantity. rewrite Hfind.
    rewrite wrap64_in_range by lia. rewrite Halter.
    split; [done|]. apply Hrows. lia.
Qed.

(** X23.  The cart button of a wishlist row counts its presses: pressed [k]
    times for a product the cart does not hold, it leaves the cart with one
    more item, which carries the product's id, name and prices and the
    quantity [k]. *)
Theorem cart_button_counts_presses (item : WishlistItem.t) (items : list CartItem.t) (k : nat) :
  Forall (fun i => id i <> WishlistItem.id item) items ->
  (0 < k)%nat -> Z.of_nat k < 2 ^ 63 ->
  Nat.iter k (addToCartPressed item) items =
  items ++ [CartItem.mk (WishlistItem.id item) (WishlistItem.name item)
                        (WishlistItem.price item) (WishlistItem.discountPrice item)
                        (Z.of_nat k) (WishlistItem.image item)].
Proof.
  intros Habsent Hk. induction k as [|k IH]; [lia|]. intros Hrange.
  destruct k as [|k].
  - simpl. unfold addToCartPressed, CartManager.addItem.
    by rewrite (proj2 (list_find_None _ _) Habsent).
  - rewrite Nat.iter_succ, IH by lia.
    unfold addToCartPressed, CartManager.addItem.
    rewrite (list_find_first (fun i => id i = WishlistItem.id item)) by done.
    cbv beta iota. rewrite alter_first. cbn [with_quantity quantity id name price
      discountPrice image].
    rewrite wrap64_in_range by lia.
    by replace (Z.of_nat (S k) + 1) with (Z.of_nat (S (S k))) by lia.
Qed.

End ClientMore.

(** ** The further properties at concrete requests *)

Section MoreRuns.
Import Js Dart Server Client Api Ui Storefront Spec Vocabulary Examples MoreExamples.

(** *** Accounts *)

Lemma register_again_is_duplicate_witness :
  @post_users_register demo_ObjectIdLib demo_Bcrypt demo_Jwt demo_runtime register_bob
    (@post_users_register demo_ObjectIdLib demo_Bcrypt demo_Jwt demo_runtime register_bob
       demo_db).2 =
  (DuplicateAccount,
   (@post_users_register demo_ObjectIdLib demo_Bcrypt demo_Jwt demo_runtime register_bob
      demo_db).2).
Proof.
  refine (@register_again_is_duplicate demo_ObjectIdLib demo_Bcrypt demo_Jwt
            demo_runtime demo_runtime demo_db demo_tenant "Bob" "Ray" "Bob@Example.com"
            "hunter2" "5550101" None _ _ _ _ _ _ eq_refl eq_refl);
    discriminate.
Defined.

Lemma login_after_register_witness :
  @post_users_login demo_ObjectIdLib demo_Bcrypt demo_Jwt demo_runtime
    (LoginBody.mk (Some demo_tenant) (Some "Bob@Example.com") (Some "hunter2"))
    (@post_users_register demo_ObjectIdLib demo_Bcrypt demo_Jwt demo_runtime register_bob
       demo_db).2 =
  Success (Some "Login successful")
    (AccountData "65a000000000000000000001" "Bob" "Ray" "bob@example.com" "5550101"
       "65a000000000000000000001.bob@example.com.6911f0e70c45b790ce0115d2.appifyours-secret-key-change-in-production").
Proof.
  refine (@login_after_register demo_ObjectIdLib demo_Bcrypt demo_Jwt
            demo_runtime demo_runtime demo_db demo_tenant "Bob" "Ray" "Bob@Example.com"
            "hunter2" "5550101" None _ _ _ _ _ _ eq_refl demo_db_unique_index eq_refl
            eq_refl);
    discriminate.
Defined.

Lemma login_ignores_case_and_padding_witness :
  @post_users_login demo_ObjectIdLib demo_Bcrypt demo_Jwt demo_runtime
    (LoginBody.mk (Some demo_tenant) (Some "  ANN@Example.com ") (Some "secret")) demo_db =
  @post_users_login demo_ObjectIdLib demo_Bcrypt demo_Jwt demo_runtime
    (LoginBody.mk (Some demo_tenant) (Some "ann@example.com") (Some "secret")) demo_db.
Proof.
  refine (proj1 (@login_ignores_case_and_padding demo_ObjectIdLib demo_Bcrypt demo_Jwt
                   demo_runtime demo_db demo_tenant "  ANN@Example.com " "ann@example.com"
                   "secret" _ _ _ _ eq_refl eq_refl));
    discriminate.
Defined.

Lemma check_agrees_with_register_witness :
  @post_users_check demo_ObjectIdLib
    (CheckBody.mk (Some demo_tenant) (Some "Bob@Example.com")) demo_db = Sent false /\
  @post_users_check demo_ObjectIdLib
    (CheckBody.mk (Some demo_tenant) (Some "Bob@Example.com"))
    (@post_users_register demo_ObjectIdLib demo_Bcrypt demo_Jwt demo_runtime register_bob
       demo_db).2 = Sent true.
Proof.
  refine (proj2 (@check_agrees_with_register demo_ObjectIdLib demo_Bcrypt demo_Jwt
                   demo_runtime demo_db demo_tenant "Bob" "Ray" "Bob@Example.com"
                   "hunter2" "5550101" None _ _ _ _ _ _ eq_refl) eq_refl);
    discriminate.
Defined.

Lemma writes_keep_addresses_unique_witness :
  unique_index (@post_users_register demo_ObjectIdLib demo_Bcrypt demo_Jwt demo_runtime
                  register_bob demo_db).2 /\
  unique_index (@post_create_user demo_ObjectIdLib demo_Bcrypt demo_Jwt demo_runtime
                  create_cy demo_db).2 /\
  unique_index (@post_users_cart demo_Engine demo_Mongoose demo_runtime demo_userId add_two
                  demo_db).2 /\
  unique_index (@post_users_wishlist demo_Mongoose demo_runtime demo_userId wish demo_db).2 /\
  unique_index (post_users_orders demo_runtime demo_userId demo_db).2.
Proof.
  exact (@writes_keep_addresses_unique demo_ObjectIdLib demo_Bcrypt demo_Jwt demo_Engine
           demo_Mongoose demo_runtime register_bob create_cy demo_userId add_two wish
           demo_db demo_db_unique_index).
Defined.

Lemma registration_counts_once_witness :
  exists config',
    @get_app_config demo_ObjectIdLib demo_tenant demo_configs
      (@post_users_register demo_ObjectIdLib demo_Bcrypt demo_Jwt demo_runtime register_bob
         demo_db).2 = Sent config' /\
    AppConfig.userCount config' = 2%nat /\
    AppConfig.appName config' = "phoneshop".
Proof.
  assert (demo_tenant <> "" /\ "Bob" <> "" /\ "Ray" <> "" /\ "Bob@Example.com" <> "" /\
          "hunter2" <> "" /\ "5550101" <> "") as (H1 & H2 & H3 & H4 & H5 & H6)
    by (repeat split; discriminate).
  destruct (@registration_counts_once demo_ObjectIdLib demo_Bcrypt demo_Jwt demo_runtime
              demo_db demo_configs demo_tenant "Bob" "Ray" "Bob@Example.com" "hunter2"
              "5550101" None H1 H2 H3 H4 H5 H6 eq_refl eq_refl) as [Hcount _].
  destruct (Hcount _ eq_refl) as (config' & Hrun & Hn & Hname).
  exists config'. split; [exact Hrun|]. split; [exact Hn|exact Hname].
Defined.

(** *** Reading back *)

Lemma get_cart_reads_back_post_witness :
  get_users_cart demo_userId
    (@post_users_cart demo_Engine demo_Mongoose demo_runtime demo_userId add_two demo_db).2 =
  Success None (CartData [CartEntry.mk (Text "p1") "first" 2%float 10%float None]).
Proof.
  rewrite (proj1 (@get_cart_reads_back_post demo_Engine demo_Mongoose demo_runtime
                    demo_userId add_two demo_db)).
  - reflexivity.
  - intros [message Hfailed]. vm_compute in Hfailed. discriminate Hfailed.
Defined.

Lemma get_wishlist_reads_back_post_witness :
  get_users_wishlist demo_userId
    (@post_users_wishlist demo_Mongoose demo_runtime demo_userId wish demo_db).2 =
  Success None (WishlistData [WishlistEntry.mk (Text "p1") "first" 10%float None]).
Proof.
  rewrite (proj1 (@get_wishlist_reads_back_post demo_Mongoose demo_runtime demo_userId wish
                    demo_db)).
  - reflexivity.
  - intros [message Hfailed]. vm_compute in Hfailed. discriminate Hfailed.
Defined.

(** A product reference that the cast refuses, here an object: the request
    fails on the way, nothing is written, and the wishlist reads back as it
    was, empty. *)
Example wishlist_refuses_an_object :
  let body := WishlistBody.mk (VObject [("sku", VString "p1")]) "first" 10%float in
  failed_on_the_way (@post_users_wishlist demo_Mongoose demo_runtime demo_userId body demo_db).1 /\
  (@post_users_wishlist demo_Mongoose demo_runtime demo_userId body demo_db).2 = demo_db /\
  get_users_wishlist demo_userId
    (@post_users_wishlist demo_Mongoose demo_runtime demo_userId body demo_db).2 =
  Success None (WishlistData []).
Proof. split; [by eexists|]. split; reflexivity. Qed.

(** *** What the writing handlers leave alone *)

Lemma posts_touch_only_their_account_witness :
  (@post_users_cart demo_Engine demo_Mongoose demo_runtime "65a0000000000000000000ff"
     add_two demo_db).2 !! demo_userId = demo_db !! demo_userId /\
  (@post_users_wishlist demo_Mongoose demo_runtime "65a0000000000000000000ff" wish
     demo_db).2 !! demo_userId = demo_db !! demo_userId /\
  (post_users_orders demo_runtime "65a0000000000000000000ff" demo_db).2 !! demo_userId =
    demo_db !! demo_userId.
Proof.
  apply (@posts_touch_only_their_account demo_Engine demo_Mongoose demo_runtime
           "65a0000000000000000000ff" demo_userId).
  discriminate.
Defined.

Lemma accounts_persist_witness :
  exists u',
    accounts (demo_step (PlaceOrder demo_runtime demo_userId)
                        (mkState demo_cart_db [] [])) !! demo_userId = Some u' /\
    same_identity demo_shopper u' /\
    User.purchaseHistory demo_shopper `prefix_of` User.purchaseHistory u'.
Proof.
  apply (@accounts_persist demo_Engine demo_Mongoose demo_ObjectIdLib demo_Bcrypt demo_Jwt
           (PlaceOrder demo_runtime demo_userId) (mkState demo_cart_db [] [])
           demo_userId demo_shopper).
  reflexivity.
Defined.

(** *** Tokens *)

Example authenticate_examples :
  @authenticateToken demo_JwtVerify demo_runtime (Some ("Bearer " +:+ ann_token)) =
    Sent (TokenPayload.mk demo_userId "ann@example.com" demo_tenant) /\
  @authenticateToken demo_JwtVerify demo_runtime (Some ("Basic " +:+ ann_token)) =
    Sent (TokenPayload.mk demo_userId "ann@example.com" demo_tenant) /\
  @authenticateToken demo_JwtVerify demo_runtime (Some ("Bearer  " +:+ ann_token)) =
    Refused 401 "Access token required" /\
  @authenticateToken demo_JwtVerify demo_runtime (Some ann_token) =
    Refused 401 "Access token required" /\
  @authenticateToken demo_JwtVerify demo_runtime (Some "Bearer forged") =
    Refused 403 "Invalid or expired token".
Proof. repeat split; reflexivity. Qed.

Lemma login_token_opens_profile_witness :
  exists u,
    demo_db !! demo_userId = Some u /\
    @route_get_users_profile demo_JwtVerify demo_runtime (Some ("Bearer " +:+ ann_token))
      demo_db = Sent (select_without_password demo_userId u) /\
    Profile.email (select_without_password demo_userId u) = "ann@example.com" /\
    Profile.firstName (select_without_password demo_userId u) = "Ann".
Proof.
  apply (@login_token_opens_profile demo_ObjectIdLib demo_Bcrypt demo_Jwt demo_JwtVerify
           demo_runtime demo_runtime
           (LoginBody.mk (Some demo_tenant) (Some "Ann@Example.com") (Some "secret"))
           demo_db (Some "Login successful") demo_userId "Ann" "Lee" "ann@example.com"
           "5550100" ann_token).
  - reflexivity.
  - reflexivity.
  - reflexivity.
  - discriminate.
Defined.

Lemma split_head_free (sep : ascii) (s piece : string) (pieces : list string) :
  split sep s = piece :: pieces -> occurs sep piece = false.
Proof.
  revert piece pieces. induction s as [|c s IH]; intros piece pieces; simpl.
  - by intros [= <- <-].
  - destruct (bool_decide (c = sep)) eqn:Hc; [by intros [= <- <-]|].
    destruct (split sep s) as [|piece' pieces'] eqn:Hsplit.
    + intros [= <- <-]. simpl. by rewrite Hc.
    + intros [= <- <-]. simpl. rewrite Hc. by eapply IH.
Qed.

Lemma demo_verifier_names_no_dotted_user (token secret : string) (payload : TokenPayload.t) :
  @jwt_verify demo_JwtVerify token secret = Some payload ->
  TokenPayload.userId payload <> "no.body".
Proof.
  cbn [jwt_verify demo_JwtVerify].
  destruct (split "." token) as [|userId rest] eqn:Hsplit; [done|].
  apply split_head_free in Hsplit.
  destruct (reverse rest) as [|signature [|adminObjectId address]]; [done|done|].
  case_bool_decide; [|done]. intros [= <-]. cbn [TokenPayload.userId].
  intros ->. done.
Qed.

Lemma writes_need_a_token_for_the_account_witness :
  (@route_post_users_cart demo_JwtVerify demo_Engine demo_Mongoose demo_runtime
     (Some ("Bearer " +:+ ann_token))
     add_two (<["no.body" := demo_user]> demo_db)).2 !! "no.body" = Some demo_user.
Proof.
  rewrite (proj1 (@writes_need_a_token_for_the_account demo_JwtVerify demo_Engine
                    demo_Mongoose demo_runtime
                    (Some ("Bearer " +:+ ann_token)) add_two wish
                    (<["no.body" := demo_user]> demo_db) "no.body"
                    (fun token payload =>
                       demo_verifier_names_no_dotted_user token
                         (JWT_SECRET demo_runtime) payload))).
  reflexivity.
Defined.

(** *** Creating a user *)

Example create_user_without_phone :
  @post_create_user demo_ObjectIdLib demo_Bcrypt demo_Jwt demo_runtime
     create_cy_without_phone demo_db =
  (Refused 500 "UsersCreateAccount validation failed: phone: Path `phone` is required.",
   demo_db).
Proof. reflexivity. Qed.

Example create_user_with_phone :
  (@post_create_user demo_ObjectIdLib demo_Bcrypt demo_Jwt demo_runtime create_cy demo_db).1 =
  Sent (CreatedUser.mk "65a000000000000000000001" "Cy Young" "Cy" "Young" "cy@example.com"
          "5550102"
          "65a000000000000000000001.cy@example.com.6911f0e70c45b790ce0115d2.appifyours-secret-key-change-in-production").
Proof. reflexivity. Qed.

Lemma full_name_is_cut_at_first_space_witness :
  (exists data,
     (@post_create_user demo_ObjectIdLib demo_Bcrypt demo_Jwt demo_runtime create_mary_ann
        demo_db).1 = Sent data /\
     CreatedUser.firstName data = "Mary" /\
     CreatedUser.lastName data = "Ann Lee" /\
     CreatedUser.firstName data +:+ " " +:+ CreatedUser.lastName data = "Mary Ann Lee") /\
  (exists data,
     (@post_create_user demo_ObjectIdLib demo_Bcrypt demo_Jwt demo_runtime create_mary_lee
        demo_db).1 = Sent data /\
     CreatedUser.firstName data = "Mary" /\
     CreatedUser.lastName data = "Lee" /\
     CreatedUser.fullName data = "Mary  Lee").
Proof.
  split.
  - set (data := CreatedUser.mk "65a000000000000000000001" "Mary Ann Lee" "Mary" "Ann Lee"
                   "mary@example.com" "5550103"
                   "65a000000000000000000001.mary@example.com.6911f0e70c45b790ce0115d2.appifyours-secret-key-change-in-production").
    assert (@post_create_user demo_ObjectIdLib demo_Bcrypt demo_Jwt demo_runtime
              create_mary_ann demo_db =
            (Sent data,
             (@post_create_user demo_ObjectIdLib demo_Bcrypt demo_Jwt demo_runtime
                create_mary_ann demo_db).2)) as Hrun by (vm_compute; reflexivity).
    destruct (@full_name_is_cut_at_first_space demo_ObjectIdLib demo_Bcrypt demo_Jwt
                demo_runtime create_mary_ann demo_db _ data "Mary" "Ann Lee"
                eq_refl eq_refl eq_refl eq_refl Hrun)
      as (Hfirst & Hlast & Hfull & _ & Hback).
    exists data. split; [by rewrite Hrun|]. split; [exact Hfirst|]. split; [exact Hlast|].
    rewrite (Hback eq_refl eq_refl). exact Hfull.
  - set (data := CreatedUser.mk "65a000000000000000000001" "Mary  Lee" "Mary" "Lee"
                   "mary@example.com" "5550103"
                   "65a000000000000000000001.mary@example.com.6911f0e70c45b790ce0115d2.appifyours-secret-key-change-in-production").
    assert (@post_create_user demo_ObjectIdLib demo_Bcrypt demo_Jwt demo_runtime
              create_mary_lee demo_db =
            (Sent data,
             (@post_create_user demo_ObjectIdLib demo_Bcrypt demo_Jwt demo_runtime
                create_mary_lee demo_db).2)) as Hrun by (vm_compute; reflexivity).
    destruct (@full_name_is_cut_at_first_space demo_ObjectIdLib demo_Bcrypt demo_Jwt
                demo_runtime create_mary_lee demo_db _ data "Mary" " Lee"
                eq_refl eq_refl eq_refl eq_refl Hrun)
      as (Hfirst & Hlast & Hfull & _ & _).
    exists data. split; [by rewrite Hrun|]. split; [exact Hfirst|]. split; [exact Hlast|].
    exact Hfull.
Defined.

(** With two spaces between its words, the full name is not given back:
    the last name is stored without the second of them. *)
Example full_name_with_two_spaces :
  (@post_create_user demo_ObjectIdLib demo_Bcrypt demo_Jwt demo_runtime create_mary_lee
     demo_db).1 =
  Sent (CreatedUser.mk "65a000000000000000000001" "Mary  Lee" "Mary" "Lee" "mary@example.com"
          "5550103"
          "65a000000000000000000001.mary@example.com.6911f0e70c45b790ce0115d2.appifyours-secret-key-change-in-production") /\
  "Mary" +:+ " " +:+ "Lee" <> "Mary  Lee".
Proof. split; [reflexivity|discriminate]. Qed.

(** *** The client *)

Lemma demo_tryParse_needs_digits (s : string) :
  (forall c, occurs c s = true -> kept_by_parsePrice c) ->
  @double_tryParse demo_DartCore s = None.
Proof.
  destruct s as [|a s]; [done|]. intros Hkept.
  assert (kept_by_parsePrice a) as [-> | [-> | ->]]
    by (apply Hkept; simpl; by rewrite bool_decide_eq_true_2); reflexivity.
Qed.

Lemma parsePrice_is_always_zero_witness :
  @parsePrice demo_DartCore "$1,299.50" = 0%float /\
  @parsePrice demo_DartCore (formatPrice 1299.5%float defaultCurrency) = 0%float.
Proof.
  split.
  - apply (proj1 (@parsePrice_is_always_zero demo_DartCore demo_tryParse_needs_digits)).
  - apply (proj1 (proj2 (@parsePrice_is_always_zero demo_DartCore
                           demo_tryParse_needs_digits))).
Defined.

Example demo_tryParse_reads_digits :
  @double_tryParse demo_DartCore "1299" = Some 1299%float /\
  remove_non_numeric "$1,299.50" = "." /\
  formatPrice 1299.5%float defaultCurrency = "$${price.toStringAsFixed(2)}".
Proof. repeat split; reflexivity. Qed.

Example filterProducts_by_price :
  _filteredProducts (_filterProducts "$12" demo_catalogue) =
  [ {[ "productName" := "Red Phone"; "price" := "$120" ]};
    {[ "productName" := "Blue Case"; "price" := "$12"; "discountPrice" := "$9" ]} ].
Proof. reflexivity. Qed.


Lemma quantity_buttons_keep_quantities_positive_witness :
  decrementPressed (CartItem.mk "p1" "first" 10%float 0%float 2 None) example_cart =
    Returned [ CartItem.mk "p1" "first" 10%float 0%float 1 None;
               CartItem.mk "p2" "second" 5%float 0%float 1 None ] /\
  decrementPressed (CartItem.mk "p2" "second" 5%float 0%float 1 None) example_cart =
    Returned [ CartItem.mk "p1" "first" 10%float 0%float 2 None ] /\
  incrementPressed (CartItem.mk "p2" "second" 5%float 0%float 1 None) example_cart =
    Returned [ CartItem.mk "p1" "first" 10%float 0%float 2 None;
               CartItem.mk "p2" "second" 5%float 0%float 2 None ].
Proof.
  assert (NoDup (CartItem.id <$> example_cart)) as Hnodup.
  { apply NoDup_cons. split; [|apply NoDup_singleton].
    intros Hin%list_elem_of_singleton. discriminate. }
  assert (Forall (fun i => 1 <= CartItem.quantity i < 2 ^ 63) example_cart) as Hpos
    by (repeat constructor; cbn; lia).
  destruct (quantity_buttons_keep_quantities_positive 0
              (CartItem.mk "p1" "first" 10%float 0%float 2 None) example_cart
              eq_refl Hnodup Hpos)
    as [(items1 & Hminus1 & _ & _ & Hlower & _) _].
  destruct (quantity_buttons_keep_quantities_positive 1
              (CartItem.mk "p2" "second" 5%float 0%float 1 None) example_cart
              eq_refl Hnodup Hpos)
    as [(items2 & Hminus2 & _ & _ & _ & Hone) Hplus].
  split; [|split].
  - rewrite Hminus1. f_equal. apply Hlower. cbn. lia.
  - rewrite Hminus2. f_equal. apply (Hone eq_refl).
  - apply Hplus. cbn. lia.
Defined.

Lemma cart_button_counts_presses_witness :
  Nat.iter 3 (addToCartPressed (WishlistItem.mk "p9" "ninth" 4%float 0%float None))
           example_cart =
  example_cart ++ [CartItem.mk "p9" "ninth" 4%float 0%float 3 None].
Proof.
  apply (cart_button_counts_presses (WishlistItem.mk "p9" "ninth" 4%float 0%float None)
           example_cart 3).
  - repeat constructor; discriminate.
  - lia.
  - cbn. lia.
Defined.

End MoreRuns.
